(** * Church confirmation record management: a shallow embedding

    The development follows the four source files of the application:
    [auth.py] (password hashing), [models.py] (the two tables),
    [database.py] (one database session per request) and [main.py] (the
    session and CSRF helpers, date parsing and the route handlers).

    Python [str] values are modelled as [string], a character being a code
    point below 256.  Integers are [Z].  The signed-cookie session of the web
    framework is a dictionary, modelled as a [gmap].  A handler is a function
    in a state-and-exception monad over the session and the database; what
    a handler draws from outside -- the clock, a random token, a random
    salt, the order in which the database engine visits rows, the key it
    draws for a row when the largest key is taken -- is an argument of its
    model.  Every route of [main.py] is modelled.

    The libraries the application calls are modelled by what they do:
    [str.strip], [datetime.strptime], [csv.writer], the SQL the ORM emits
    and what SQLite does with it (the 64-bit keys, NUL in LIKE, the length
    limit of a LIKE pattern), and the text layer of bcrypt, release by
    release (its key derivation is a parameter).

    A text with a character beyond code point 255 is outside the model.
    This matters in one place: the digit class of the regular expression
    [strptime] builds takes every Unicode decimal digit, so the program
    accepts dates written with, say, fullwidth digits; below code point 256
    the decimal digits are [0] to [9] alone. *)

From Stdlib Require Import ZArith Ascii String Lia Bool DecimalString.
From stdpp Require Import gmap strings list sorting.

Local Open Scope Z_scope.

(** ** Python strings *)

Module PyStr.

(** [str.isspace] on code points below 256: TAB..CR, FS..US, SPACE, NEL
    and the no-break space. *)
Definition is_space (c : ascii) : bool :=
  let n := N_of_ascii c in
  ((9 <=? n) && (n <=? 13) || (28 <=? n) && (n <=? 32)
   || (n =? 133) || (n =? 160))%N.

Fixpoint lstrip (s : string) : string :=
  match s with
  | EmptyString => EmptyString
  | String c s' => if is_space c then lstrip s' else s
  end.

Definition rstrip (s : string) : string :=
  String.rev (lstrip (String.rev s)).

(** [s.strip()] *)
Definition strip (s : string) : string := rstrip (lstrip s).

(** Truth value of a string: the empty string is false. *)
Definition nonempty (s : string) : bool :=
  match s with EmptyString => false | String _ _ => true end.

Definition eqb (a b : string) : bool := bool_decide (a = b).

End PyStr.

(** ** Exceptions, responses and the handler monad *)

(** Values a session dictionary holds (it is serialised as JSON). *)
Inductive sval :=
| VInt (n : Z)
| VStr (s : string).

Global Instance sval_eq_dec : EqDecision sval.
Proof. solve_decision. Defined.

(** Python truth value of [d.get(k)]. *)
Definition truthy (v : option sval) : bool :=
  match v with
  | None => false
  | Some (VInt n) => negb (n =? 0)
  | Some (VStr s) => PyStr.nonempty s
  end.

(** [HTTPException] is answered with its status code; [ValueError] is what
    [parse_date] catches; [Error] stands for any other exception by the
    name of its class and its message ([OverflowError], the driver's
    [OperationalError], ...), answered with status 500. *)
Inductive exn :=
| HTTPException (status_code : Z) (detail : option string)
                (headers : list (string * string))
| ValueError (msg : string)
| Error (class_name msg : string).

Inductive result (A : Type) :=
| Ok (a : A)
| Raise (e : exn).
Arguments Ok {A} a.
Arguments Raise {A} e.

(** ** [datetime.date] and [datetime.datetime] *)

Record date := mkdate { year : Z; month : Z; day : Z }.

Global Instance date_eq_dec : EqDecision date.
Proof. solve_decision. Defined.

Definition is_leap (y : Z) : bool :=
  (y mod 4 =? 0) && (negb (y mod 100 =? 0) || (y mod 400 =? 0)).

Definition days_in_month (y m : Z) : Z :=
  if m =? 2 then (if is_leap y then 29 else 28)
  else if (m =? 4) || (m =? 6) || (m =? 9) || (m =? 11) then 30
  else 31.

(** The check the [date] constructor performs; it raises [ValueError]
    otherwise. *)
Definition valid_date (y m d : Z) : bool :=
  (1 <=? y) && (y <=? 9999) && (1 <=? m) && (m <=? 12)
  && (1 <=? d) && (d <=? days_in_month y m).

Definition date_ok (d : date) : Prop := valid_date (year d) (month d) (day d) = true.

Record datetime := mkdatetime {
  dt_date : date; hour : Z; minute : Z; second : Z; microsecond : Z }.

Global Instance datetime_eq_dec : EqDecision datetime.
Proof. solve_decision. Defined.

(** Chronological order on dates, the order of the ISO text the database
    keeps them in. *)
Definition date_leb (a b : date) : bool :=
  (year a <? year b)
  || (year a =? year b) && ((month a <? month b)
      || (month a =? month b) && (day a <=? day b)).

(** ** models.py *)

Module User.
Record t := mk {
  id : Z;
  username : string;
  password_hash : string;
  created_at : datetime }.
End User.

Module Confirmation.
Record t := mk {
  id : Z;
  full_name : string;
  date_of_birth : date;
  confirmation_date : date;
  church_name : string;
  priest_name : string;
  sponsor_name : option string;
  remarks : option string;
  created_at : datetime }.

Global Instance eq_dec : EqDecision t.
Proof. solve_decision. Defined.

(** Attribute assignment on a loaded object. *)
Definition set_full_name (v : string) (r : t) : t :=
  mk (id r) v (date_of_birth r) (confirmation_date r) (church_name r)
     (priest_name r) (sponsor_name r) (remarks r) (created_at r).
Definition set_date_of_birth (v : date) (r : t) : t :=
  mk (id r) (full_name r) v (confirmation_date r) (church_name r)
     (priest_name r) (sponsor_name r) (remarks r) (created_at r).
Definition set_confirmation_date (v : date) (r : t) : t :=
  mk (id r) (full_name r) (date_of_birth r) v (church_name r)
     (priest_name r) (sponsor_name r) (remarks r) (created_at r).
Definition set_church_name (v : string) (r : t) : t :=
  mk (id r) (full_name r) (date_of_birth r) (confirmation_date r) v
     (priest_name r) (sponsor_name r) (remarks r) (created_at r).
Definition set_priest_name (v : string) (r : t) : t :=
  mk (id r) (full_name r) (date_of_birth r) (confirmation_date r)
     (church_name r) v (sponsor_name r) (remarks r) (created_at r).
Definition set_sponsor_name (v : option string) (r : t) : t :=
  mk (id r) (full_name r) (date_of_birth r) (confirmation_date r)
     (church_name r) (priest_name r) v (remarks r) (created_at r).
Definition set_remarks (v : option string) (r : t) : t :=
  mk (id r) (full_name r) (date_of_birth r) (confirmation_date r)
     (church_name r) (priest_name r) (sponsor_name r) v (created_at r).

(** The object [Confirmation(full_name=..., ...)] builds: the key and the
    creation time are filled in by the INSERT. *)
Record transient := new {
  t_full_name : string;
  t_date_of_birth : date;
  t_confirmation_date : date;
  t_church_name : string;
  t_priest_name : string;
  t_sponsor_name : option string;
  t_remarks : option string }.
End Confirmation.

(** ** database.py: the tables and the per-request ORM session *)

Record database := mkdb {
  users : list User.t;
  confirmations : list Confirmation.t }.

(** *** The keys SQLite gives

    An [Integer] primary key is the 64-bit signed rowid of the table.  An
    INSERT that names no key gets 1 in an empty table and otherwise one
    more than the largest key in use -- also when that key is zero or
    negative.  When the largest key is the largest possible one the engine
    draws positive keys at random until it finds one that is not in use,
    and gives up with [SQLITE_FULL] when it finds none; [draw] is the key
    this search ends with (a key in use stands for the search giving
    up). *)
Definition max_rowid : Z := 9223372036854775807.
Definition min_rowid : Z := -9223372036854775808.

Definition in_int64 (n : Z) : bool := (min_rowid <=? n) && (n <=? max_rowid).

Definition largest_key (keys : list Z) : option Z :=
  match keys with
  | [] => None
  | k :: ks => Some (fold_right Z.max k ks)
  end.

(** The key of the next row while the largest key is below the largest
    possible one. *)
Definition next_id (t : list Confirmation.t) : Z :=
  match largest_key (map Confirmation.id t) with
  | None => 1
  | Some m => m + 1
  end.

Definition new_rowid (draw : Z) (t : list Confirmation.t) : option Z :=
  match largest_key (map Confirmation.id t) with
  | None => Some 1
  | Some m =>
      if m <? max_rowid then Some (m + 1)
      else if (1 <=? draw) && (draw <=? max_rowid)
              && bool_decide (draw ∉ map Confirmation.id t)
           then Some draw
           else None
  end.

Definition insert_row (now : datetime) (t : list Confirmation.t)
    (n : Z * Confirmation.transient) : option (list Confirmation.t) :=
  key ← new_rowid n.1 t;
  Some (t ++ [Confirmation.mk key
                (Confirmation.t_full_name n.2) (Confirmation.t_date_of_birth n.2)
                (Confirmation.t_confirmation_date n.2) (Confirmation.t_church_name n.2)
                (Confirmation.t_priest_name n.2) (Confirmation.t_sponsor_name n.2)
                (Confirmation.t_remarks n.2) now]).

(** The unit of work of one [SessionLocal()]: the objects loaded so far
    (attribute assignment changes them in place), the objects passed to
    [db.add], each with the key the engine would draw for it, and the keys
    passed to [db.delete]. *)
Record orm_session := mkorm {
  identity : gmap Z Confirmation.t;
  pending : list (Z * Confirmation.transient);
  deleted : list Z }.

Definition orm_empty : orm_session := mkorm ∅ [] [].

(** [db.commit()]: UPDATE the loaded rows, INSERT the added ones, DELETE the
    deleted ones; [None] when an INSERT finds no key. *)
Definition flush (now : datetime) (o : orm_session)
    (t : list Confirmation.t) : option (list Confirmation.t) :=
  let updated := map (fun r => default r (identity o !! Confirmation.id r)) t in
  inserted ← fold_left (fun acc n => acc ≫= fun t' => insert_row now t' n)
                       (pending o) (Some updated);
  Some (filter (fun r => Confirmation.id r ∉ deleted o) inserted).

(** ** The state of one request *)

Record req := mkreq {
  session : gmap string sval;
  store : database;
  uow : orm_session }.

Definition M (A : Type) : Type := req -> result A * req.

Global Instance M_ret : MRet M := fun A a st => (Ok a, st).
Global Instance M_bind : MBind M := fun A B f m st =>
  match m st with
  | (Ok a, st') => f a st'
  | (Raise e, st') => (Raise e, st')
  end.

Definition raise {A} (e : exn) : M A := fun st => (Raise e, st).

Definition session_get (k : string) : M (option sval) :=
  fun st => (Ok (session st !! k), st).
Definition session_set (k : string) (v : sval) : M unit :=
  fun st => (Ok tt, mkreq (<[k := v]> (session st)) (store st) (uow st)).
Definition session_clear : M unit :=
  fun st => (Ok tt, mkreq ∅ (store st) (uow st)).

(** What persists between two requests. *)
Record world := mkworld {
  w_session : gmap string sval;
  w_db : database }.

(** One request: [get_db] opens a database session and closes it when the
    handler is done, dropping whatever was not committed.  The session
    cookie is rewritten on every response the application sends, also an
    [HTTPException]; any other exception becomes a bare 500 and leaves the
    cookie alone. *)
Definition run {A} (h : M A) (w : world) : result A * world :=
  match h (mkreq (w_session w) (w_db w) orm_empty) with
  | (Ok a, st) => (Ok a, mkworld (session st) (store st))
  | (Raise (HTTPException c d hs), st) =>
      (Raise (HTTPException c d hs), mkworld (session st) (store st))
  | (Raise e, st) => (Raise e, mkworld (w_session w) (store st))
  end.

(** ** main.py: security and session helpers *)

Definition login_required : M unit :=
  user_id ← session_get "user_id";
  if negb (truthy user_id)
  then raise (HTTPException 303 None [("Location", "/login")])
  else mret tt.

(** [token] is the value [secrets.token_urlsafe(32)] draws. *)
Definition generate_csrf_token (token : string) : M string :=
  session_set "csrf_token" (VStr token);;
  mret token.

Definition validate_csrf (csrf_token : string) : M unit :=
  session_token ← session_get "csrf_token";
  if negb (truthy session_token)
     || negb (bool_decide (Some (VStr csrf_token) = session_token))
  then raise (HTTPException 400 (Some "Invalid CSRF token") [])
  else mret tt.

(** ** [datetime.strptime(value, "%Y-%m-%d")]

    The standard library turns the format into the regular expression
    [(?P<Y>\d\d\d\d)-(?P<m>1[0-2]|0[1-9]|[1-9])-(?P<d>3[0-1]|[1-2]\d|0[1-9]|[1-9]| [1-9])],
    matches it at the start of the text, rejects text left over after the
    match and hands year, month and day to the [date] constructor.  A regular
    expression is modelled as the list of its matches of a prefix, in the
    order backtracking tries them; the match is the head of that list. *)

Module Strptime.

Definition in_range (lo hi c : ascii) : bool :=
  ((N_of_ascii lo <=? N_of_ascii c) && (N_of_ascii c <=? N_of_ascii hi))%N.

(** [\d]: a decimal digit.  Below code point 256 these are [0] to [9]; the
    class also holds the decimal digits of other scripts, which the texts of
    this model cannot hold. *)
Definition is_digit (c : ascii) : bool := in_range "0" "9" c.

Definition digit_val (c : ascii) : Z := Z.of_N (N_of_ascii c) - 48.

Definition re (A : Type) : Type := string -> list (A * string).

Definition re_ret {A} (a : A) : re A := fun s => [(a, s)].

Definition re_bind {A B} (r : re A) (k : A -> re B) : re B :=
  fun s => flat_map (fun '(a, rest) => k a rest) (r s).

Definition re_alt {A} (r1 r2 : re A) : re A := fun s => r1 s ++ r2 s.

(** One character of a class; its digit value is the result. *)
Definition re_class (p : ascii -> bool) : re Z :=
  fun s => match s with
           | String c rest => if p c then [(digit_val c, rest)] else []
           | EmptyString => []
           end.

Definition re_char (c : ascii) : re Z := re_class (Ascii.eqb c).

Definition two (r1 r2 : re Z) : re Z :=
  re_bind r1 (fun a => re_bind r2 (fun b => re_ret (10 * a + b))).

(** [\d\d\d\d] *)
Definition re_Y : re Z :=
  re_bind (re_class is_digit) (fun a =>
  re_bind (re_class is_digit) (fun b =>
  re_bind (re_class is_digit) (fun c =>
  re_bind (re_class is_digit) (fun d =>
  re_ret (1000 * a + 100 * b + 10 * c + d))))).

(** [1[0-2]|0[1-9]|[1-9]] *)
Definition re_m : re Z :=
  re_alt (two (re_char "1") (re_class (in_range "0" "2")))
 (re_alt (two (re_char "0") (re_class (in_range "1" "9")))
         (re_class (in_range "1" "9"))).

(** [3[0-1]|[1-2]\d|0[1-9]|[1-9]| [1-9]]; the space counts as a zero. *)
Definition re_d : re Z :=
  re_alt (two (re_char "3") (re_class (in_range "0" "1")))
 (re_alt (two (re_class (in_range "1" "2")) (re_class is_digit))
 (re_alt (two (re_char "0") (re_class (in_range "1" "9")))
 (re_alt (re_class (in_range "1" "9"))
         (re_bind (re_char " ") (fun _ => re_class (in_range "1" "9")))))).

Definition format_regex : re (Z * Z * Z) :=
  re_bind re_Y (fun y =>
  re_bind (re_char "-") (fun _ =>
  re_bind re_m (fun m =>
  re_bind (re_char "-") (fun _ =>
  re_bind re_d (fun d =>
  re_ret (y, m, d)))))).

Definition strptime_date (data_string : string) : result date :=
  match head (format_regex data_string) with
  | None => Raise (ValueError "time data does not match format")
  | Some ((y, m, d), rest) =>
      if PyStr.nonempty rest then Raise (ValueError "unconverted data remains")
      else if valid_date y m d then Ok (mkdate y m d)
      else Raise (ValueError "date value out of range")
  end.

End Strptime.

(** ** main.py: utility *)

Definition parse_date (value field_name : string) : M date :=
  match Strptime.strptime_date value with
  | Ok d => mret d
  | Raise (ValueError _) =>
      raise (HTTPException 400
        (Some ("Invalid date format for " +:+ field_name +:+ ". Use YYYY-MM-DD")) [])
  | Raise e => raise e
  end.

(** ** Text forms of numbers and dates *)

Definition digit_char (n : Z) : ascii := ascii_of_N (Z.to_N (48 + n)).

Definition pad2 (n : Z) : string :=
  String (digit_char (n / 10 mod 10)) (String (digit_char (n mod 10)) EmptyString).

Definition pad4 (n : Z) : string :=
  String (digit_char (n / 1000 mod 10)) (String (digit_char (n / 100 mod 10)) (pad2 n)).

Definition pad6 (n : Z) : string :=
  String (digit_char (n / 100000 mod 10)) (String (digit_char (n / 10000 mod 10)) (pad4 n)).

(** [str(n)] for an integer. *)
Definition str_int (n : Z) : string :=
  DecimalString.NilZero.string_of_int (Z.to_int n).

(** [d.isoformat()], which is also [str(d)], the text the database keeps for
    a [Date] column and what its [strftime('%Y-%m-%d', ...)] gives back. *)
Definition isoformat (d : date) : string :=
  pad4 (year d) +:+ "-" +:+ pad2 (month d) +:+ "-" +:+ pad2 (day d).

(** [str(dt)] for a [datetime]: the microseconds are printed when they are
    not zero. *)
Definition str_datetime (t : datetime) : string :=
  isoformat (dt_date t) +:+ " " +:+ pad2 (hour t) +:+ ":" +:+ pad2 (minute t)
  +:+ ":" +:+ pad2 (second t)
  +:+ (if microsecond t =? 0 then EmptyString else "." +:+ pad6 (microsecond t)).

(** ** UTF-8 *)

(** [s.encode("utf-8")] for code points below 256. *)
Fixpoint encode_utf8 (s : string) : string :=
  match s with
  | EmptyString => EmptyString
  | String c s' =>
      let n := N_of_ascii c in
      if (n <? 128)%N then String c (encode_utf8 s')
      else String (ascii_of_N (192 + n / 64)) (String (ascii_of_N (128 + n mod 64))
                  (encode_utf8 s'))
  end.

(** [b.decode("utf-8")], giving code points below 256; [UnicodeDecodeError]
    is a [ValueError]. *)
Fixpoint decode_utf8 (b : string) : result string :=
  match b with
  | EmptyString => Ok EmptyString
  | String c b' =>
      let n := N_of_ascii c in
      if (n <? 128)%N then
        match decode_utf8 b' with
        | Ok s => Ok (String c s)
        | Raise e => Raise e
        end
      else
        match b' with
        | String c2 b'' =>
            let n2 := N_of_ascii c2 in
            if ((194 <=? n) && (n <=? 195) && (128 <=? n2) && (n2 <? 192))%N then
              match decode_utf8 b'' with
              | Ok s => Ok (String (ascii_of_N ((n - 192) * 64 + (n2 - 128))) s)
              | Raise e => Raise e
              end
            else Raise (ValueError "UnicodeDecodeError")
        | EmptyString => Raise (ValueError "UnicodeDecodeError")
        end
  end.

(** ** The ORM calls the handlers make *)

(** [db.get(Confirmation, record_id)].  The path parameter is a Python
    integer of any size, and the driver refuses to bind one outside the
    64-bit range: [OverflowError].  The keys of the rows are inside that
    range, so the refusal shows at keys that no row has, which is where the
    model has it: on a table whose keys are all 64-bit the outcome is the
    same as with the test made first. *)
Definition overflow_error : exn :=
  Error "OverflowError" "Python int too large to convert to SQLite INTEGER".

Definition db_get (record_id : Z) : M (option Confirmation.t) :=
  fun st =>
    match identity (uow st) !! record_id with
    | Some r => (Ok (Some r), st)
    | None =>
        match List.find (fun r => Confirmation.id r =? record_id)
                        (confirmations (store st)) with
        | Some r =>
            (Ok (Some r),
             mkreq (session st) (store st)
                   (mkorm (<[record_id := r]> (identity (uow st)))
                          (pending (uow st)) (deleted (uow st))))
        | None =>
            if in_int64 record_id then (Ok None, st) else (Raise overflow_error, st)
        end
    end.

(** [record.attr = v] on a loaded object. *)
Definition setattr (record : Confirmation.t)
    (f : Confirmation.t -> Confirmation.t) : M unit :=
  fun st =>
    (Ok tt,
     mkreq (session st) (store st)
           (mkorm (alter f (Confirmation.id record) (identity (uow st)))
                  (pending (uow st)) (deleted (uow st)))).

(** [db.add(n)]; [rowid] is the key the engine draws for the row should
    the largest key be taken when the row is inserted. *)
Definition db_add (rowid : Z) (n : Confirmation.transient) : M unit :=
  fun st =>
    (Ok tt,
     mkreq (session st) (store st)
           (mkorm (identity (uow st)) (pending (uow st) ++ [(rowid, n)])
                  (deleted (uow st)))).

Definition db_delete (record : Confirmation.t) : M unit :=
  fun st =>
    (Ok tt,
     mkreq (session st) (store st)
           (mkorm (identity (uow st)) (pending (uow st))
                  (Confirmation.id record :: deleted (uow st)))).

(** [db.commit()]; [now] is what [datetime.utcnow] reads for the rows
    inserted.  An INSERT that finds no key fails the commit with the
    driver's [OperationalError]. *)
Definition database_full : exn := Error "OperationalError" "database or disk is full".

Definition db_commit (now : datetime) : M unit :=
  fun st =>
    match flush now (uow st) (confirmations (store st)) with
    | Some t => (Ok tt, mkreq (session st) (mkdb (users (store st)) t) orm_empty)
    | None => (Raise database_full, st)
    end.

(** [db.query(User).filter(User.username == name).first()] *)
Definition db_user_by_name (name : string) : M (option User.t) :=
  fun st =>
    (Ok (List.find (fun u => PyStr.eqb (User.username u) name) (users (store st))), st).

(** ** The SQL the queries of main.py become (SQLite) *)

Module Sql.

(** [lower()] folds the 26 ASCII capitals only. *)
Definition lower_char (c : ascii) : ascii :=
  if Strptime.in_range "A" "Z" c then ascii_of_N (N_of_ascii c + 32) else c.

Fixpoint lower (s : string) : string :=
  match s with
  | EmptyString => EmptyString
  | String c s' => String (lower_char c) (lower s')
  end.

(** The comparison of LIKE: [%] stands for any run of characters, [_] for
    any one character, any other character for itself up to ASCII case;
    there is no escape character. *)
Fixpoint pattern_compare (p s : string) {struct p} : bool :=
  match p with
  | EmptyString => negb (PyStr.nonempty s)
  | String c p' =>
      if Ascii.eqb c "%" then
        (fix star (s : string) : bool :=
           pattern_compare p' s
           || match s with
              | EmptyString => false
              | String _ s' => star s'
              end) s
      else
        match s with
        | EmptyString => false
        | String c' s' =>
            (Ascii.eqb c "_" || Ascii.eqb (lower_char c) (lower_char c'))
            && pattern_compare p' s'
        end
  end.

(** The comparison reads pattern and text as C strings: each ends at its
    first NUL. *)
Fixpoint until_nul (s : string) : string :=
  match s with
  | EmptyString => EmptyString
  | String c s' => if Ascii.eqb c "000" then EmptyString else String c (until_nul s')
  end.

(** A pattern of more than 50000 bytes is refused. *)
Definition max_like_pattern_length : Z := 50000.

Definition pattern_too_long (p : string) : bool :=
  max_like_pattern_length <? Z.of_nat (String.length (encode_utf8 p)).

Definition pattern_error : exn :=
  Error "OperationalError" "LIKE or GLOB pattern too complex".

(** [s LIKE p] *)
Definition like (p s : string) : result bool :=
  if pattern_too_long p then Raise pattern_error
  else Ok (pattern_compare (until_nul p) (until_nul s)).

(** [column.ilike(term)] is rendered as [lower(column) LIKE lower(term)]. *)
Definition ilike (column term : string) : result bool := like (lower term) (lower column).

(** [a OR b]: the right operand is not evaluated when the left one is
    true. *)
Definition or_else (a : result bool) (b : result bool) : result bool :=
  match a with
  | Ok true => Ok true
  | Ok false => b
  | Raise e => Raise e
  end.

(** The rows of a scan that pass a WHERE clause; the first row whose test
    fails with an error ends the query with that error. *)
Fixpoint where_ (p : Confirmation.t -> result bool) (l : list Confirmation.t)
    : result (list Confirmation.t) :=
  match l with
  | [] => Ok []
  | r :: l' =>
      match p r with
      | Raise e => Raise e
      | Ok b =>
          match where_ p l' with
          | Raise e => Raise e
          | Ok rs => Ok (if b then r :: rs else rs)
          end
      end
  end.

(** The order in which the engine visits the rows of a table is its own
    choice (table order, an index in either direction, ...); all that is
    known is that every row is visited once. *)
Record engine := mkengine {
  scan : list Confirmation.t -> list Confirmation.t;
  scan_perm : forall l, scan l ≡ₚ l }.

(** [ORDER BY id ASC] and [ORDER BY confirmation_date DESC] *)
Definition id_asc (a b : Confirmation.t) : Prop :=
  Confirmation.id a <= Confirmation.id b.
Definition confirmation_date_desc (a b : Confirmation.t) : Prop :=
  Is_true (date_leb (Confirmation.confirmation_date b) (Confirmation.confirmation_date a)).

Global Instance id_asc_dec : RelDecision id_asc.
Proof. intros a b. unfold id_asc. apply _. Defined.
Global Instance confirmation_date_desc_dec : RelDecision confirmation_date_desc.
Proof. intros a b. unfold confirmation_date_desc. apply _. Defined.

End Sql.

(** [db.query(Confirmation).filter(p).order_by(R).all()]: the rows the
    engine visits, those that pass the filter, sorted by the key. *)
Definition db_query_all (e : Sql.engine) (p : Confirmation.t -> result bool)
    (R : relation Confirmation.t) `{!RelDecision R} : M (list Confirmation.t) :=
  fun st =>
    match Sql.where_ p (Sql.scan e (confirmations (store st))) with
    | Ok rows => (Ok (merge_sort R rows), st)
    | Raise e => (Raise e, st)
    end.

(** ** Responses *)

Inductive tval :=
| TStr (s : string)
| TRecord (r : Confirmation.t)
| TRecords (l : list Confirmation.t).

Inductive response :=
| RedirectResponse (url : string) (status_code : Z)
| TemplateResponse (name : string) (context : list (string * tval)) (status_code : Z)
| StreamingResponse (content : string) (media_type : string)
                    (headers : list (string * string)).

(** ** main.py: confirmation CRUD

    A handler is modelled with the [login_required] dependency in front of
    its body, and takes the form fields as the texts the framework hands
    it.  The framework binds the form before it calls the handler: a field
    declared [Form(...)] that is absent or empty is refused there, so the
    texts of the required fields are not empty when the handler runs --
    white space only is possible -- and an optional field left out comes
    as the empty text. *)

(** The filter of [list_confirmations] for a search term. *)
Definition matches_term (term : string) (r : Confirmation.t) : result bool :=
  Sql.or_else (Sql.ilike (Confirmation.full_name r) term)
 (Sql.or_else (Sql.ilike (Confirmation.church_name r) term)
 (Sql.or_else (Sql.ilike (Confirmation.priest_name r) term)
              (Sql.ilike (isoformat (Confirmation.confirmation_date r)) term))).

Definition list_filter (q : string) : Confirmation.t -> result bool :=
  if PyStr.nonempty (PyStr.strip q)
  then matches_term ("%" +:+ PyStr.strip q +:+ "%")
  else fun _ => Ok true.

Definition list_confirmations (e : Sql.engine) (q token : string) : M response :=
  login_required;;
  records ← db_query_all e (list_filter q) Sql.confirmation_date_desc;
  csrf_token ← generate_csrf_token token;
  mret (TemplateResponse "confirmations_list.html"
          [("records", TRecords records); ("q", TStr q); ("csrf_token", TStr csrf_token)]
          200).

(** [now] is the time of the request and [rowid] the key the engine draws
    for the new row if the largest key is taken. *)
Definition create_confirmation (now : datetime) (rowid : Z)
    (full_name date_of_birth confirmation_date church_name priest_name
     sponsor_name remarks csrf_token : string) : M response :=
  login_required;;
  validate_csrf csrf_token;;
  dob ← parse_date date_of_birth "date_of_birth";
  cd ← parse_date confirmation_date "confirmation_date";
  let new_record :=
    Confirmation.new (PyStr.strip full_name) dob cd (PyStr.strip church_name)
      (PyStr.strip priest_name) (Some (PyStr.strip sponsor_name))
      (Some (PyStr.strip remarks)) in
  db_add rowid new_record;;
  db_commit now;;
  mret (RedirectResponse "/confirmations" 303).

Definition not_found {A} : M A :=
  raise (HTTPException 404 (Some "Record not found") []).

Definition view_confirmation (record_id : Z) (token : string) : M response :=
  login_required;;
  record ← db_get record_id;
  match record with
  | None => not_found
  | Some record =>
      csrf_token ← generate_csrf_token token;
      mret (TemplateResponse "confirmation_detail.html"
              [("record", TRecord record); ("csrf_token", TStr csrf_token)] 200)
  end.

Definition update_confirmation (now : datetime) (record_id : Z)
    (full_name date_of_birth confirmation_date church_name priest_name
     sponsor_name remarks csrf_token : string) : M response :=
  login_required;;
  validate_csrf csrf_token;;
  record ← db_get record_id;
  match record with
  | None => not_found
  | Some record =>
      setattr record (Confirmation.set_full_name (PyStr.strip full_name));;
      dob ← parse_date date_of_birth "date_of_birth";
      setattr record (Confirmation.set_date_of_birth dob);;
      cd ← parse_date confirmation_date "confirmation_date";
      setattr record (Confirmation.set_confirmation_date cd);;
      setattr record (Confirmation.set_church_name (PyStr.strip church_name));;
      setattr record (Confirmation.set_priest_name (PyStr.strip priest_name));;
      setattr record (Confirmation.set_sponsor_name (Some (PyStr.strip sponsor_name)));;
      setattr record (Confirmation.set_remarks (Some (PyStr.strip remarks)));;
      db_commit now;;
      mret (RedirectResponse ("/confirmations/" +:+ str_int record_id) 303)
  end.

Definition delete_confirmation (now : datetime) (record_id : Z)
    (csrf_token : string) : M response :=
  login_required;;
  validate_csrf csrf_token;;
  record ← db_get record_id;
  match record with
  | None => not_found
  | Some record =>
      db_delete record;;
      db_commit now;;
      mret (RedirectResponse "/confirmations" 303)
  end.

(** ** [csv.writer] with the default dialect

    Fields are joined by commas and the row ends in CR LF; a field holding
    a comma, a double quote, CR or LF is put between double quotes, with
    every double quote in it doubled. *)

Module Csv.

Definition dquote : ascii := "034".
Definition CR : ascii := "013".
Definition LF : ascii := "010".

Definition special (c : ascii) : bool :=
  Ascii.eqb c "," || Ascii.eqb c dquote || Ascii.eqb c CR || Ascii.eqb c LF.

Fixpoint has_special (s : string) : bool :=
  match s with
  | EmptyString => false
  | String c s' => special c || has_special s'
  end.

Fixpoint double_quotes (s : string) : string :=
  match s with
  | EmptyString => EmptyString
  | String c s' =>
      if Ascii.eqb c dquote then String dquote (String dquote (double_quotes s'))
      else String c (double_quotes s')
  end.

Definition field (s : string) : string :=
  if has_special s
  then String dquote (double_quotes s +:+ String dquote EmptyString)
  else s.

Fixpoint join (fields : list string) : string :=
  match fields with
  | [] => EmptyString
  | [f] => f
  | f :: rest => f +:+ "," +:+ join rest
  end.

Definition writerow (fields : list string) : string :=
  join (map field fields) +:+ String CR (String LF EmptyString).

End Csv.

(** ** main.py: CSV export *)

Definition csv_header : list string :=
  ["ID"; "Full Name"; "Date of Birth"; "Confirmation Date"; "Church Name";
   "Priest Name"; "Sponsor Name"; "Remarks"; "Created At"].

(** The values of one row as the writer prints them ([None] as the empty
    text). *)
Definition csv_row (record : Confirmation.t) : list string :=
  [str_int (Confirmation.id record);
   Confirmation.full_name record;
   isoformat (Confirmation.date_of_birth record);
   isoformat (Confirmation.confirmation_date record);
   Confirmation.church_name record;
   Confirmation.priest_name record;
   default EmptyString (Confirmation.sponsor_name record);
   default EmptyString (Confirmation.remarks record);
   str_datetime (Confirmation.created_at record)].

Definition export_csv (e : Sql.engine) : M response :=
  login_required;;
  records ← db_query_all e (fun _ => Ok true) Sql.id_asc;
  let output :=
    fold_left (fun out record => out +:+ Csv.writerow (csv_row record))
              records (Csv.writerow csv_header) in
  mret (StreamingResponse output "text/csv"
          [("Content-Disposition",
            "attachment; filename=" +:+ String Csv.dquote
              ("confirmations_export.csv" +:+ String Csv.dquote EmptyString))]).

(** ** The bcrypt library auth.py calls

    Byte strings are strings of 8-bit characters.  The text layer of the
    library is modelled in full: a hash is [$], a version, [$], a two-digit
    cost, [$], 22 characters of salt and the digest, the last two in the
    library's own base-64 alphabet.  What differs between releases or is
    cryptography is a field of [library]:
    - how a password is prepared: release 3 rejects NUL bytes and cuts at
      72 bytes, releases 4.1 to 4.3 cut at 72 bytes, release 5 rejects more
      than 72 bytes;
    - how the salt argument of [hashpw] is read: release 3 hands it to the C
      routine of OpenBSD, releases 4.1 and later have a parser of their own
      (release 4.0 has yet another one, which is not written out here);
    - the Blowfish key derivation, which gives the digest as a list of
      six-bit groups.
    Every release reads back the texts that [gensalt] and [hashpw] write:
    that is the law [read_salt_ok]. *)

Module Bcrypt.

Definition alphabet : string :=
  "./ABCDEFGHIJKLMNOPQRSTUVWXYZabcdefghijklmnopqrstuvwxyz0123456789".

Definition b64_char (n : N) : ascii :=
  default "."%char (String.get (N.to_nat (n mod 64)) alphabet).

Fixpoint index_in (c : ascii) (s : string) : option N :=
  match s with
  | EmptyString => None
  | String c' s' => if Ascii.eqb c c' then Some 0%N else N.succ <$> index_in c s'
  end.

Definition b64_index (c : ascii) : option N := index_in c alphabet.

Fixpoint b64_text (groups : list N) : string :=
  match groups with
  | [] => EmptyString
  | g :: gs => String (b64_char g) (b64_text gs)
  end.

Fixpoint all_b64 (s : string) : bool :=
  match s with
  | EmptyString => true
  | String c s' => bool_decide (is_Some (b64_index c)) && all_b64 s'
  end.

(** 22 characters carry 132 bits, the salt has 128: in the text of a salt
    the last character has its four low bits clear. *)
Definition salt_ok (s : string) : bool :=
  (String.length s =? 22)%nat && all_b64 s
  && match String.get 21 s with
     | Some c => bool_decide (b64_index c ∈ [Some 0; Some 16; Some 32; Some 48]%N)
     | None => false
     end.

Record library := mklib {
  prepare : string -> result string;
  read_salt : string -> result (string * Z * string);
  eks : Z -> string -> string -> list N;
  read_salt_ok : forall rnd digest,
    salt_ok rnd = true ->
    read_salt ("$2b$12$" +:+ rnd +:+ b64_text digest) = Ok ("2b", 12, rnd) }.

(** *** Releases 4.1 and later: the salt is cut at [$] into its non-empty
    parts, which have to be three: a version, a number and at least 22
    characters that decode to 16 bytes. *)

Fixpoint split (sep : ascii) (s : string) : list string :=
  match s with
  | EmptyString => [EmptyString]
  | String c s' =>
      if Ascii.eqb c sep then EmptyString :: split sep s'
      else match split sep s' with
           | x :: xs => String c x :: xs
           | [] => [String c EmptyString]
           end
  end.

Definition version_ok (v : string) : bool :=
  bool_decide (v ∈ ["2a"; "2b"; "2x"; "2y"]).

Fixpoint digits_val (acc : Z) (s : string) : option Z :=
  match s with
  | EmptyString => Some acc
  | String c s' =>
      if Strptime.is_digit c then digits_val (10 * acc + Strptime.digit_val c) s'
      else None
  end.

(** An unsigned decimal number, a leading [+] allowed. *)
Definition parse_cost (s : string) : option Z :=
  match s with
  | EmptyString => None
  | String "+" EmptyString => None
  | String "+" s' => digits_val 0 s'
  | _ => digits_val 0 s
  end.

Definition parse_salt (salt : string) : option (string * Z * string) :=
  match List.filter PyStr.nonempty (split "$" salt) with
  | [v; c; rest] =>
      if version_ok v then
        match parse_cost c with
        | Some cost =>
            let s22 := String.substring 0 22 rest in
            if salt_ok s22 && (4 <=? cost) && (cost <=? 31)
            then Some (v, cost, s22) else None
        | None => None
        end
      else None
  | _ => None
  end.

Definition read_salt_v4 (salt : string) : result (string * Z * string) :=
  match parse_salt salt with
  | Some x => Ok x
  | None => Raise (ValueError "Invalid salt")
  end.

(** *** Release 3: [checkpw] refuses a NUL byte in the hash text, [hashpw]
    writes [$2b$] for a leading [$2y$] and hands the salt to
    [bcrypt_hashpass].  That routine wants [$2a$] or [$2b$], two digits
    that make a cost from 4 to 31, [$] and 22 characters of the alphabet,
    whatever follows them; it decodes these to 16 bytes, which drops the
    four low bits of the last character, and writes the salt back from the
    bytes.  The version of the hash returned is the one that was handed
    in. *)

Fixpoint has_nul (s : string) : bool :=
  match s with
  | EmptyString => false
  | String c s' => Ascii.eqb c "000" || has_nul s'
  end.

Definition minor_ok (c : ascii) : bool :=
  Ascii.eqb c "a" || Ascii.eqb c "b" || Ascii.eqb c "y".

(** The text of the 16 bytes that 22 characters of the alphabet decode to. *)
Definition reencode (s22 : string) : string :=
  String.substring 0 21 s22
  +:+ match String.get 21 s22 ≫= b64_index with
      | Some i => String (b64_char (16 * (i / 16))) EmptyString
      | None => EmptyString
      end.

Definition read_salt_v3 (salt : string) : result (string * Z * string) :=
  if has_nul salt
  then Raise (ValueError "password and hashed_password may not contain NUL bytes")
  else
    match salt with
    | String "$" (String "2" (String minor (String "$"
        (String c1 (String c2 (String "$" rest)))))) =>
        let cost := 10 * Strptime.digit_val c1 + Strptime.digit_val c2 in
        let s22 := String.substring 0 22 rest in
        if minor_ok minor && Strptime.is_digit c1 && Strptime.is_digit c2
           && (4 <=? cost) && (cost <=? 31)
           && (22 <=? String.length rest)%nat && all_b64 s22
        then Ok (String "2" (String minor EmptyString), cost, reencode s22)
        else Raise (ValueError "Invalid salt")
    | _ => Raise (ValueError "Invalid salt")
    end.

(** *** [hashpw], [checkpw] and [gensalt] *)

(** The text of a hash. *)
Definition hash_text (v : string) (cost : Z) (s22 : string) (digest : list N) : string :=
  "$" +:+ v +:+ "$" +:+ pad2 cost +:+ "$" +:+ s22 +:+ b64_text digest.

Definition hashpw (lib : library) (password salt : string) : result string :=
  match prepare lib password with
  | Raise e => Raise e
  | Ok key =>
      match read_salt lib salt with
      | Raise e => Raise e
      | Ok (v, cost, s22) => Ok (hash_text v cost s22 (eks lib cost s22 key))
      end
  end.

Definition checkpw (lib : library) (password hashed_password : string) : result bool :=
  match hashpw lib password hashed_password with
  | Raise e => Raise e
  | Ok ret => Ok (PyStr.eqb ret hashed_password)
  end.

(** [gensalt()]: [rnd] is the 22-character text of the 16 bytes drawn. *)
Definition gensalt (rnd : string) : string := "$2b$12$" +:+ rnd.

Definition prepare_v3 (password : string) : result string :=
  if has_nul password then Raise (ValueError "password may not contain NUL bytes")
  else Ok (String.substring 0 72 password).

Definition prepare_v4 (password : string) : result string :=
  Ok (String.substring 0 72 password).

Definition prepare_v5 (password : string) : result string :=
  if (72 <? String.length password)%nat
  then Raise (ValueError "password cannot be longer than 72 bytes")
  else Ok password.

End Bcrypt.

(** ** auth.py *)

Definition hash_password (lib : Bcrypt.library) (rnd : string)
    (password : string) : result string :=
  match Bcrypt.hashpw lib (encode_utf8 password) (Bcrypt.gensalt rnd) with
  | Ok h => decode_utf8 h
  | Raise e => Raise e
  end.

Definition verify_password (lib : Bcrypt.library)
    (password hashed_password : string) : result bool :=
  Bcrypt.checkpw lib (encode_utf8 password) (encode_utf8 hashed_password).

(** ** main.py: authentication routes *)

Definition lift {A} (r : result A) : M A := fun st => (r, st).

Definition login (lib : Bcrypt.library)
    (username password csrf_token token : string) : M response :=
  validate_csrf csrf_token;;
  user ← db_user_by_name (PyStr.strip username);
  ok ← match user with
       | None => mret false
       | Some u => lift (verify_password lib password (User.password_hash u))
       end;
  match user, ok with
  | Some u, true =>
      session_set "user_id" (VInt (User.id u));;
      session_set "username" (VStr (User.username u));;
      mret (RedirectResponse "/dashboard" 303)
  | _, _ =>
      new_csrf ← generate_csrf_token token;
      mret (TemplateResponse "login.html"
              [("error", TStr "Invalid username or password"); ("csrf_token", TStr new_csrf)]
              400)
  end.

Definition logout (csrf_token : string) : M response :=
  validate_csrf csrf_token;;
  session_clear;;
  mret (RedirectResponse "/login" 303).

(** ** main.py: the remaining routes *)

(** [db.query(User).count()] and [db.query(Confirmation).count()] *)
Definition db_count_users : M Z :=
  fun st => (Ok (Z.of_nat (length (users (store st)))), st).
Definition db_count_confirmations : M Z :=
  fun st => (Ok (Z.of_nat (length (confirmations (store st)))), st).

(** The key of a new user: 1 in an empty table, else one more than the
    largest key in use.  [ensure_admin_exists], the one place that adds a
    user, does so in an empty table. *)
Definition next_user_id (t : list User.t) : Z :=
  match largest_key (map User.id t) with
  | None => 1
  | Some m => m + 1
  end.

(** [db.add(user)] followed at once by [db.commit()], as in
    [ensure_admin_exists]: the commit inserts the user, with the key and the
    creation time the INSERT gives it, and writes whatever else the session
    holds. *)
Definition db_add_user_commit (now : datetime)
    (username password_hash : string) : M unit :=
  fun st =>
    db_commit now
      (mkreq (session st)
         (mkdb (users (store st)
                ++ [User.mk (next_user_id (users (store st))) username password_hash now])
               (confirmations (store st)))
         (uow st)).

(** [rnd] is the salt [hash_password] draws. *)
Definition ensure_admin_exists (lib : Bcrypt.library) (rnd : string)
    (now : datetime) : M unit :=
  n ← db_count_users;
  if n =? 0 then
    password_hash ← lift (hash_password lib rnd "admin123");
    db_add_user_commit now "admin" password_hash
  else mret tt.

Definition root : M response :=
  user_id ← session_get "user_id";
  if truthy user_id
  then mret (RedirectResponse "/dashboard" 303)
  else mret (RedirectResponse "/login" 303).

Definition login_page (lib : Bcrypt.library) (rnd : string) (now : datetime)
    (token : string) : M response :=
  ensure_admin_exists lib rnd now;;
  csrf_token ← generate_csrf_token token;
  mret (TemplateResponse "login.html" [("csrf_token", TStr csrf_token)] 200).

(** The context [dashboard] hands to its template, [dashboard.html]. *)
Record dashboard_context := mkdashboard {
  dc_username : option sval;
  dc_total_records : Z;
  dc_csrf_token : string }.

Definition dashboard (token : string) : M dashboard_context :=
  login_required;;
  total_records ← db_count_confirmations;
  csrf_token ← generate_csrf_token token;
  username ← session_get "username";
  mret (mkdashboard username total_records csrf_token).

Definition new_confirmation_form (token : string) : M response :=
  login_required;;
  csrf_token ← generate_csrf_token token;
  mret (TemplateResponse "confirmation_form.html"
          [("mode", TStr "create"); ("csrf_token", TStr csrf_token)] 200).

Definition edit_confirmation_form (record_id : Z) (token : string) : M response :=
  login_required;;
  record ← db_get record_id;
  match record with
  | None => not_found
  | Some record =>
      csrf_token ← generate_csrf_token token;
      mret (TemplateResponse "confirmation_form.html"
              [("mode", TStr "edit"); ("record", TRecord record);
               ("csrf_token", TStr csrf_token)] 200)
  end.

(** [Response(content, media_type, headers)] of [backup_db]. *)
Record download := mkdownload {
  dl_content : string;
  dl_media_type : string;
  dl_headers : list (string * string) }.

(** [file] is the content of [church_records.db] when the file exists. *)
Definition backup_db (file : option string) : M download :=
  login_required;;
  match file with
  | None => raise (HTTPException 404 (Some "Database file not found") [])
  | Some data =>
      mret (mkdownload data "application/octet-stream"
              [("Content-Disposition",
                "attachment; filename=" +:+ String Csv.dquote
                  ("church_records_backup.db" +:+ String Csv.dquote EmptyString))])
  end.

(** ** Requests

    One request to each route, with what the route draws from outside, and
    the world it leaves. *)

Inductive request :=
| GetRoot
| GetLoginPage (lib : Bcrypt.library) (rnd token : string)
| PostLogin (lib : Bcrypt.library) (username password csrf_token token : string)
| PostLogout (csrf_token : string)
| GetDashboard (token : string)
| GetList (e : Sql.engine) (q token : string)
| GetNew (token : string)
| PostCreate (rowid : Z)
             (full_name date_of_birth confirmation_date church_name priest_name
              sponsor_name remarks csrf_token : string)
| GetView (record_id : Z) (token : string)
| GetEdit (record_id : Z) (token : string)
| PostUpdate (record_id : Z)
             (full_name date_of_birth confirmation_date church_name priest_name
              sponsor_name remarks csrf_token : string)
| PostDelete (record_id : Z) (csrf_token : string)
| GetBackupDb (file : option string)
| GetExportCsv (e : Sql.engine).

Definition step (now : datetime) (r : request) (w : world) : world :=
  match r with
  | GetRoot => (run root w).2
  | GetLoginPage lib rnd token => (run (login_page lib rnd now token) w).2
  | PostLogin lib u p c t => (run (login lib u p c t) w).2
  | PostLogout c => (run (logout c) w).2
  | GetDashboard t => (run (dashboard t) w).2
  | GetList e q t => (run (list_confirmations e q t) w).2
  | GetNew t => (run (new_confirmation_form t) w).2
  | PostCreate k a b c d e f g tok =>
      (run (create_confirmation now k a b c d e f g tok) w).2
  | GetView i t => (run (view_confirmation i t) w).2
  | GetEdit i t => (run (edit_confirmation_form i t) w).2
  | PostUpdate i a b c d e f g tok =>
      (run (update_confirmation now i a b c d e f g tok) w).2
  | PostDelete i tok => (run (delete_confirmation now i tok) w).2
  | GetBackupDb file => (run (backup_db file) w).2
  | GetExportCsv e => (run (export_csv e) w).2
  end.

(** The world after a sequence of requests, each at its own time. *)
Definition steps (trace : list (datetime * request)) (w : world) : world :=
  fold_left (fun w '(now, r) => step now r w) trace w.

(** ** Vocabulary of the properties *)

(** The session carries a user: what [login_required] tests. *)
Definition authenticated (s : gmap string sval) : bool := truthy (s !! "user_id").

(** The submitted token passes [validate_csrf]. *)
Definition csrf_ok (s : gmap string sval) (submitted : string) : bool :=
  truthy (s !! "csrf_token") && bool_decide (Some (VStr submitted) = s !! "csrf_token").

Definition csrf_error : exn := HTTPException 400 (Some "Invalid CSRF token") [].
Definition login_redirect : exn := HTTPException 303 None [("Location", "/login")].
Definition not_found_error : exn := HTTPException 404 (Some "Record not found") [].
Definition date_error (field_name : string) : exn :=
  HTTPException 400
    (Some ("Invalid date format for " +:+ field_name +:+ ". Use YYYY-MM-DD")) [].


(** The texts [strptime] takes for a month and for a day of the month: the
    number with or without its leading zero, and for a day below ten also
    with a space in place of the zero. *)
Definition digit1 (n : Z) : string := String (digit_char n) EmptyString.

Definition month_texts (m : Z) : list string :=
  if m <? 10 then [digit1 m; pad2 m] else [pad2 m].

Definition day_texts (d : Z) : list string :=
  if d <? 10 then [digit1 d; pad2 d; String " " (digit1 d)] else [pad2 d].

(** [s] is a text [parse_date] turns into the date [d]. *)
Definition accepted_date_text (s : string) (d : date) : Prop :=
  date_ok d /\
  exists ms ds, ms ∈ month_texts (month d) /\ ds ∈ day_texts (day d) /\
    s = pad4 (year d) +:+ "-" +:+ ms +:+ "-" +:+ ds.

(** Case-insensitive substring, for the ASCII notion of case the database
    has: [needle] occurs in [hay] at some position, character by character
    up to [lower_char]. *)
Fixpoint prefix_ci (needle hay : string) : bool :=
  match needle, hay with
  | EmptyString, _ => true
  | String _ _, EmptyString => false
  | String c n', String c' h' =>
      Ascii.eqb (Sql.lower_char c) (Sql.lower_char c') && prefix_ci n' h'
  end.

Fixpoint any_suffix (f : string -> bool) (s : string) : bool :=
  f s || match s with
         | EmptyString => false
         | String _ s' => any_suffix f s'
         end.

Definition contains_ci (needle hay : string) : bool :=
  any_suffix (prefix_ci needle) hay.

(** The text holds none of the two wildcards of LIKE. *)
Fixpoint no_wildcard (s : string) : bool :=
  match s with
  | EmptyString => true
  | String c s' => negb (Ascii.eqb c "%") && negb (Ascii.eqb c "_") && no_wildcard s'
  end.

(** The text has no NUL character. *)
Definition no_nul (s : string) : bool := negb (Bcrypt.has_nul s).

(** The four searched texts of a record. *)
Definition searched_texts (r : Confirmation.t) : list string :=
  [Confirmation.full_name r; Confirmation.church_name r; Confirmation.priest_name r;
   isoformat (Confirmation.confirmation_date r)].

(** One of the four searched texts of a record holds [q] before its first
    NUL character. *)
Definition record_contains (q : string) (r : Confirmation.t) : bool :=
  existsb (fun text => contains_ci q (Sql.until_nul text)) (searched_texts r).

(** The pattern of the search for [q], and whether one of the four
    searched texts of a record matches a pattern: pattern and text are
    read up to their first NUL and compared up to ASCII case. *)
Definition search_pattern (q : string) : string := "%" +:+ PyStr.strip q +:+ "%".

Definition record_matches (pattern : string) (r : Confirmation.t) : bool :=
  existsb (fun text => Sql.pattern_compare (Sql.until_nul (Sql.lower pattern))
                                           (Sql.until_nul (Sql.lower text)))
          (searched_texts r).

(** The records the list shows for [q], and whether the search for [q]
    fails on a table: it does when there is a pattern, the pattern is too
    long and there is a row to try it on. *)
Definition list_match (q : string) : Confirmation.t -> bool :=
  if PyStr.nonempty (PyStr.strip q) then record_matches (search_pattern q)
  else fun _ => true.

Definition search_fails (q : string) (t : list Confirmation.t) : bool :=
  PyStr.nonempty (PyStr.strip q) && Sql.pattern_too_long (search_pattern q)
  && match t with [] => false | _ :: _ => true end.

(** Two engines: one visits the rows in table order, the other walks an
    index backwards. *)
Definition table_scan : Sql.engine := Sql.mkengine (fun l => l) (fun l => Permutation_refl l).
Definition reverse_scan : Sql.engine :=
  Sql.mkengine (@rev Confirmation.t) (fun l => Permutation_sym (Permutation_rev l)).

(** The text of a CSV file with the given rows. *)
Definition csv_lines (rows : list (list string)) : string :=
  fold_right (fun row acc => Csv.writerow row +:+ acc) EmptyString rows.

(** The row with a given key, as [db.get] finds it. *)
Definition find_record (record_id : Z) (t : list Confirmation.t) : option Confirmation.t :=
  List.find (fun r => Confirmation.id r =? record_id) t.

(** The row a successful create appends, under the key it was given. *)
Definition created_record (now : datetime) (key : Z)
    (full_name : string) (dob cd : date)
    (church_name priest_name sponsor_name remarks : string) : Confirmation.t :=
  Confirmation.mk key (PyStr.strip full_name) dob cd
    (PyStr.strip church_name) (PyStr.strip priest_name)
    (Some (PyStr.strip sponsor_name)) (Some (PyStr.strip remarks)) now.

(** Every key of the table is below the largest possible one: the next
    row gets the key [next_id]. *)
Definition keys_below_max (t : list Confirmation.t) : Prop :=
  Forall (fun r => Confirmation.id r < max_rowid) t.

(** The row a successful update leaves in place of [r]. *)
Definition updated_record (r : Confirmation.t)
    (full_name : string) (dob cd : date)
    (church_name priest_name sponsor_name remarks : string) : Confirmation.t :=
  Confirmation.mk (Confirmation.id r) (PyStr.strip full_name) dob cd
    (PyStr.strip church_name) (PyStr.strip priest_name)
    (Some (PyStr.strip sponsor_name)) (Some (PyStr.strip remarks))
    (Confirmation.created_at r).

(** The table with the rows of key [record_id] replaced by [r']. *)
Definition replace_row (record_id : Z) (r' : Confirmation.t)
    (t : list Confirmation.t) : list Confirmation.t :=
  map (fun x => if Confirmation.id x =? record_id then r' else x) t.

(** The table without the rows of key [record_id]. *)
Definition remove_row (record_id : Z) (t : list Confirmation.t) : list Confirmation.t :=
  List.filter (fun x => negb (Confirmation.id x =? record_id)) t.

(** What holds of the table whatever requests are made: the keys are
    unique and both dates of every row are calendar dates. *)
Definition dates_ok (r : Confirmation.t) : Prop :=
  date_ok (Confirmation.date_of_birth r) /\ date_ok (Confirmation.confirmation_date r).

Definition store_ok (t : list Confirmation.t) : Prop :=
  NoDup (map Confirmation.id t) /\ Forall dates_ok t.

(** The user [login] finds for a submitted name. *)
Definition find_user (username : string) (t : list User.t) : option User.t :=
  List.find (fun u => PyStr.eqb (User.username u) (PyStr.strip username)) t.

(** What [login] answers when the name or the password is wrong. *)
Definition login_refused (token : string) : response :=
  TemplateResponse "login.html"
    [("error", TStr "Invalid username or password"); ("csrf_token", TStr token)] 400.

(** The token a page with a form or a button stores in the session. *)
Definition issues (r : request) : option string :=
  match r with
  | GetDashboard t | GetList _ _ t | GetNew t => Some t
  | _ => None
  end.

(** The exception a request is answered with, if any. *)
Definition raised {A} (r : result A * world) : option exn :=
  match r.1 with
  | Raise e => Some e
  | Ok _ => None
  end.

Definition failed (now : datetime) (r : request) (w : world) : option exn :=
  match r with
  | GetRoot => raised (run root w)
  | GetLoginPage lib rnd token => raised (run (login_page lib rnd now token) w)
  | PostLogin lib u p c t => raised (run (login lib u p c t) w)
  | PostLogout c => raised (run (logout c) w)
  | GetDashboard t => raised (run (dashboard t) w)
  | GetList e q t => raised (run (list_confirmations e q t) w)
  | GetNew t => raised (run (new_confirmation_form t) w)
  | PostCreate k a b c d e f g tok =>
      raised (run (create_confirmation now k a b c d e f g tok) w)
  | GetView i t => raised (run (view_confirmation i t) w)
  | GetEdit i t => raised (run (edit_confirmation_form i t) w)
  | PostUpdate i a b c d e f g tok =>
      raised (run (update_confirmation now i a b c d e f g tok) w)
  | PostDelete i tok => raised (run (delete_confirmation now i tok) w)
  | GetBackupDb file => raised (run (backup_db file) w)
  | GetExportCsv e => raised (run (export_csv e) w)
  end.

(** The routes that need a logged-in session, and among them those that
    only show something. *)
Definition protected (r : request) : bool :=
  match r with
  | GetRoot | GetLoginPage _ _ _ | PostLogin _ _ _ _ _ | PostLogout _ => false
  | _ => true
  end.

Definition shows_only (r : request) : bool :=
  match r with
  | GetRoot | GetDashboard _ | GetList _ _ _ | GetNew _ | GetView _ _
  | GetEdit _ _ | GetBackupDb _ | GetExportCsv _ => true
  | _ => false
  end.

(** A text without white space at either end, and a row whose texts are
    all such (an absent sponsor or remark counts as one). *)
Definition trimmed_text (s : string) : Prop := PyStr.strip s = s.

Definition trimmed_opt (o : option string) : Prop :=
  match o with
  | Some s => trimmed_text s
  | None => True
  end.

Definition trimmed (r : Confirmation.t) : Prop :=
  trimmed_text (Confirmation.full_name r)
  /\ trimmed_text (Confirmation.church_name r)
  /\ trimmed_text (Confirmation.priest_name r)
  /\ trimmed_opt (Confirmation.sponsor_name r)
  /\ trimmed_opt (Confirmation.remarks r).

(** Every character is below 128. *)
Fixpoint is_ascii_text (s : string) : bool :=
  match s with
  | EmptyString => true
  | String c s' => (N_of_ascii c <? 128)%N && is_ascii_text s'
  end.

Fixpoint has_char (c : ascii) (s : string) : bool :=
  match s with
  | EmptyString => false
  | String c' s' => Ascii.eqb c' c || has_char c s'
  end.

(** ** The releases read what [gensalt] and [hashpw] write *)

Module BcryptFacts.
Import Bcrypt.

Lemma cons_append c (s t : string) : String c s +:+ t = String c (s +:+ t).
Proof. reflexivity. Qed.

Lemma append_empty (s : string) : s +:+ EmptyString = s.
Proof. induction s as [|c s IH]; [reflexivity|]. by rewrite cons_append, IH. Qed.

Lemma encode_ascii s : is_ascii_text s = true -> encode_utf8 s = s.
Proof.
  induction s as [|c s IH]; [done|]. simpl.
  intros [Hc Hs]%andb_true_iff. by rewrite Hc, IH.
Qed.

Lemma decode_ascii s : is_ascii_text s = true -> decode_utf8 s = Ok s.
Proof.
  induction s as [|c s IH]; [done|]. simpl.
  intros [Hc Hs]%andb_true_iff. by rewrite Hc, IH.
Qed.

Lemma is_ascii_append (a b : string) :
  is_ascii_text (a +:+ b) = is_ascii_text a && is_ascii_text b.
Proof.
  induction a as [|c a IH]; [done|].
  rewrite cons_append. simpl. by rewrite IH, andb_assoc.
Qed.

Lemma has_char_append c (a b : string) :
  has_char c (a +:+ b) = has_char c a || has_char c b.
Proof.
  induction a as [|x a IH]; [done|].
  rewrite cons_append. simpl. by rewrite IH, orb_assoc.
Qed.

Lemma has_nul_append (a b : string) : has_nul (a +:+ b) = has_nul a || has_nul b.
Proof.
  induction a as [|x a IH]; [done|].
  rewrite cons_append. simpl. by rewrite IH, orb_assoc.
Qed.

(** The characters of the alphabet are ASCII, none is [$] and none is
    NUL; each is the character of its index. *)
Lemma b64_index_char c :
  is_Some (b64_index c) ->
  (N_of_ascii c <? 128)%N = true /\ Ascii.eqb c "$" = false
  /\ Ascii.eqb c "000" = false.
Proof.
  destruct c as [[] [] [] [] [] [] [] []]; vm_compute;
    first [ by intros [? [=]] | done ].
Qed.

Lemma b64_char_of_index c i : b64_index c = Some i -> b64_char i = c.
Proof.
  destruct c as [[] [] [] [] [] [] [] []]; vm_compute;
    first [ discriminate | by intros [= <-] ].
Qed.

Lemma all_b64_ascii s : all_b64 s = true -> is_ascii_text s = true.
Proof.
  induction s as [|c s IH]; [done|]. simpl.
  intros [Hc%bool_decide_eq_true Hs]%andb_true_iff.
  apply b64_index_char in Hc as (-> & _ & _). by rewrite IH.
Qed.

Lemma all_b64_no_dollar s : all_b64 s = true -> has_char "$" s = false.
Proof.
  induction s as [|c s IH]; [done|]. simpl.
  intros [Hc%bool_decide_eq_true Hs]%andb_true_iff.
  apply b64_index_char in Hc as (_ & -> & _). by rewrite IH.
Qed.

Lemma all_b64_no_nul s : all_b64 s = true -> has_nul s = false.
Proof.
  induction s as [|c s IH]; [done|]. simpl.
  intros [Hc%bool_decide_eq_true Hs]%andb_true_iff.
  apply b64_index_char in Hc as (_ & _ & ->). by rewrite IH.
Qed.

Lemma b64_char_index n : is_Some (b64_index (b64_char n)).
Proof.
  unfold b64_char.
  assert (H : In (N.to_nat (n mod 64)) (seq 0 64)).
  { apply in_seq. assert (Hlt : (n mod 64 < 64)%N) by (by apply N.mod_lt).
    revert Hlt. generalize (n mod 64)%N. intros m Hlt. lia. }
  generalize dependent (N.to_nat (n mod 64)). intros k H.
  cbv in H. repeat (destruct H as [<-|H]; [vm_compute; eauto|]). destruct H.
Qed.

Lemma b64_text_all groups : all_b64 (b64_text groups) = true.
Proof.
  induction groups as [|g groups IH]; [done|]. simpl.
  rewrite IH, andb_true_r. apply bool_decide_eq_true, b64_char_index.
Qed.

Lemma all_b64_append (a b : string) : all_b64 (a +:+ b) = all_b64 a && all_b64 b.
Proof.
  induction a as [|c a IH]; [done|].
  rewrite cons_append. simpl. by rewrite IH, andb_assoc.
Qed.

Lemma split_no_sep sep s : has_char sep s = false -> split sep s = [s].
Proof.
  induction s as [|c s IH]; [done|]. simpl.
  intros [Hc Hs]%orb_false_iff. rewrite Hc, IH by done. done.
Qed.

Lemma substring_prefix (a b : string) :
  String.substring 0 (String.length a) (a +:+ b) = a.
Proof.
  induction a as [|c a IH]; simpl.
  - by destruct b.
  - by rewrite IH.
Qed.

Lemma length_append (a b : string) :
  String.length (a +:+ b) = (String.length a + String.length b)%nat.
Proof. induction a as [|c a IH]; [done|]. rewrite cons_append. simpl. by rewrite IH. Qed.

Lemma salt_ok_parts s :
  salt_ok s = true -> String.length s = 22%nat /\ all_b64 s = true.
Proof.
  unfold salt_ok. intros [[Hl Ha]%andb_true_iff _]%andb_true_iff.
  by apply Nat.eqb_eq in Hl.
Qed.

(** Reading back what [gensalt] and [hashpw] write: releases 4.1 and
    later. *)
Lemma parse_salt_hash_text rnd digest :
  salt_ok rnd = true ->
  parse_salt ("$2b$12$" +:+ rnd +:+ b64_text digest) = Some ("2b", 12, rnd).
Proof.
  intros Hok. destruct (salt_ok_parts _ Hok) as [Hlen Hb64].
  unfold parse_salt.
  assert (Hsplit : split "$" ("$2b$12$" +:+ rnd +:+ b64_text digest)
                   = [EmptyString; "2b"; "12"; rnd +:+ b64_text digest]).
  { change ("$2b$12$" +:+ rnd +:+ b64_text digest)
      with (String "$" (String "2" (String "b" (String "$" (String "1" (String "2"
             (String "$" (rnd +:+ b64_text digest)))))))).
    simpl. rewrite split_no_sep; [done|].
    rewrite has_char_append, !all_b64_no_dollar; auto using b64_text_all. }
  rewrite Hsplit. simpl.
  assert (Hne : PyStr.nonempty (rnd +:+ b64_text digest) = true).
  { destruct rnd; [discriminate|done]. }
  rewrite Hne. simpl.
  assert (Hsub : String.substring 0 22 (rnd +:+ b64_text digest) = rnd)
    by (rewrite <- Hlen; apply substring_prefix).
  rewrite !Hsub, Hok. reflexivity.
Qed.

Lemma read_salt_v4_ok rnd digest :
  salt_ok rnd = true ->
  read_salt_v4 ("$2b$12$" +:+ rnd +:+ b64_text digest) = Ok ("2b", 12, rnd).
Proof. intros Hok. unfold read_salt_v4. by rewrite parse_salt_hash_text. Qed.

(** A salt text is what its 16 bytes are written as. *)
Lemma reencode_salt rnd : salt_ok rnd = true -> reencode rnd = rnd.
Proof.
  unfold salt_ok, reencode.
  intros [[Hl%Nat.eqb_eq _]%andb_true_iff Hlast]%andb_true_iff.
  do 22 (destruct rnd as [|? rnd]; [discriminate Hl|]).
  destruct rnd; [|discriminate Hl]. simpl in *.
  apply bool_decide_eq_true in Hlast.
  destruct (b64_index _) as [i|] eqn:Hi;
    [|repeat (apply elem_of_cons in Hlast as [Hlast|Hlast]; [discriminate|]);
      by apply elem_of_nil in Hlast].
  simpl. apply b64_char_of_index in Hi as Hc.
  assert (Hsame : (16 * (i / 16))%N = i).
  { repeat (apply elem_of_cons in Hlast as [Hlast|Hlast];
            [injection Hlast as ->; reflexivity|]).
    by apply elem_of_nil in Hlast. }
  by rewrite Hsame, Hc.
Qed.

(** The same for release 3. *)
Lemma read_salt_v3_ok rnd digest :
  salt_ok rnd = true ->
  read_salt_v3 ("$2b$12$" +:+ rnd +:+ b64_text digest) = Ok ("2b", 12, rnd).
Proof.
  intros Hok. destruct (salt_ok_parts _ Hok) as [Hlen Hb64].
  unfold read_salt_v3.
  change ("$2b$12$" +:+ rnd +:+ b64_text digest)
    with (String "$" (String "2" (String "b" (String "$" (String "1" (String "2"
           (String "$" (rnd +:+ b64_text digest)))))))).
  assert (Hnul : has_nul (String "$" (String "2" (String "b" (String "$" (String "1"
                   (String "2" (String "$" (rnd +:+ b64_text digest)))))))) = false).
  { simpl. rewrite has_nul_append, !all_b64_no_nul; auto using b64_text_all. }
  rewrite Hnul.
  assert (Hsub : String.substring 0 22 (rnd +:+ b64_text digest) = rnd)
    by (rewrite <- Hlen; apply substring_prefix).
  assert (H22 : (22 <=? String.length (rnd +:+ b64_text digest))%nat = true).
  { apply Nat.leb_le. rewrite length_append. lia. }
  cbv zeta. rewrite Hsub, H22, Hb64, reencode_salt by done. reflexivity.
Qed.

Lemma parse_salt_gensalt rnd :
  salt_ok rnd = true -> parse_salt (gensalt rnd) = Some ("2b", 12, rnd).
Proof.
  intros Hok. unfold gensalt.
  rewrite <- (append_empty rnd) at 1.
  apply (parse_salt_hash_text rnd []), Hok.
Qed.

Lemma read_salt_gensalt lib rnd :
  salt_ok rnd = true -> read_salt lib (gensalt rnd) = Ok ("2b", 12, rnd).
Proof.
  intros Hok. unfold gensalt.
  rewrite <- (append_empty rnd) at 1.
  apply (read_salt_ok lib rnd []), Hok.
Qed.

Lemma hash_text_2b12 rnd digest :
  hash_text "2b" 12 rnd digest = "$2b$12$" +:+ rnd +:+ b64_text digest.
Proof. reflexivity. Qed.

Lemma hash_text_ascii rnd digest :
  salt_ok rnd = true -> is_ascii_text (hash_text "2b" 12 rnd digest) = true.
Proof.
  intros Hok. destruct (salt_ok_parts _ Hok) as [_ Hb64].
  rewrite hash_text_2b12, !is_ascii_append.
  rewrite (all_b64_ascii rnd Hb64), (all_b64_ascii _ (b64_text_all digest)).
  reflexivity.
Qed.

End BcryptFacts.

(** ** Sample data for the examples *)

Module Sample.

(** A stand-in for the key derivation: the six-bit groups are taken from
    the bytes of the key, the salt and the cost. *)
Definition kdf (cost : Z) (salt key : string) : list N :=
  map N_of_ascii (list_ascii_of_string (key +:+ salt)) ++ [Z.to_N cost].

(** Release 3.2, releases 4.1 to 4.3 and release 5.0 with that key
    derivation. *)
Definition lib3 : Bcrypt.library :=
  Bcrypt.mklib Bcrypt.prepare_v3 Bcrypt.read_salt_v3 kdf BcryptFacts.read_salt_v3_ok.
Definition lib4 : Bcrypt.library :=
  Bcrypt.mklib Bcrypt.prepare_v4 Bcrypt.read_salt_v4 kdf BcryptFacts.read_salt_v4_ok.
Definition lib5 : Bcrypt.library :=
  Bcrypt.mklib Bcrypt.prepare_v5 Bcrypt.read_salt_v4 kdf BcryptFacts.read_salt_v4_ok.

Definition rnd : string := "abcdefghijklmnopqrstuO".
Definition rnd' : string := "ABCDEFGHIJKLMNOPQRSTUe".

(** Two passwords of 73 bytes that differ in the last one. *)
Definition a72 : string :=
  "aaaaaaaaaaaaaaaaaaaaaaaaaaaaaaaaaaaaaaaaaaaaaaaaaaaaaaaaaaaaaaaaaaaaaaaa".
Definition long_b : string := a72 +:+ "b".
Definition long_c : string := a72 +:+ "c".

Definition now : datetime := mkdatetime (mkdate 2024 1 15) 9 30 0 0.

(** A query of 50000 letters: with the two [%] around it the pattern has
    50002 bytes. *)
Definition long_query : string :=
  string_of_list_ascii (repeat "a"%char (Z.to_nat 50000)).

Definition jane : Confirmation.t :=
  Confirmation.mk 1 "Jane Doe" (mkdate 2010 1 1) (mkdate 2023 5 1)
    "St. Mary" "Fr. John" (Some EmptyString) (Some EmptyString)
    (mkdatetime (mkdate 2023 5 2) 8 0 0 0).

Definition paul : Confirmation.t :=
  Confirmation.mk 2 "Paul Roe" (mkdate 2011 3 9) (mkdate 2023 5 1)
    "St. Luke" "Fr. Adam" (Some "Ann Roe") (Some EmptyString)
    (mkdatetime (mkdate 2023 5 3) 8 0 0 0).

Definition db : database := mkdb [] [jane; paul].

(** A logged-in session holding the CSRF token [tok]. *)
Definition sess : gmap string sval :=
  {[ "user_id" := VInt 1; "username" := VStr "admin"; "csrf_token" := VStr "tok" ]}.

Definition w : world := mkworld sess db.

(** The same session with an empty database. *)
Definition w0 : world := mkworld sess (mkdb [] []).

(** The bootstrap account and the worlds of the end-to-end scenario: the
    login page shown, the administrator logged in, the form for a new
    record shown, the record created. *)
Definition admin : User.t :=
  User.mk 1 "admin"
    (match hash_password lib4 rnd "admin123" with
     | Ok h => h
     | Raise _ => EmptyString
     end)
    now.

Definition fresh : world :=
  mkworld {[ "csrf_token" := VStr "t0" ]} (mkdb [admin] []).

Definition logged_in : world :=
  (run (login lib4 " admin " "admin123" "t0" "t1") fresh).2.

Definition form_shown : world :=
  mkworld (<["csrf_token" := VStr "t2"]> (w_session logged_in)) (w_db logged_in).

Definition created : world :=
  (run (create_confirmation now 0 "Jane Doe" "2010-01-01" "2023-05-01"
          "St. Mary" "Fr. John" EmptyString EmptyString "t2") form_shown).2.

Definition jane_doe : Confirmation.t :=
  Confirmation.mk 1 "Jane Doe" (mkdate 2010 1 1) (mkdate 2023 5 1) "St. Mary"
    "Fr. John" (Some EmptyString) (Some EmptyString) now.

End Sample.
(* ===================================================================== *)
(** * Properties *)
(* ===================================================================== *)

(** ** The guards *)

Lemma login_required_eq st :
  login_required st =
  if authenticated (session st) then (Ok tt, st) else (Raise login_redirect, st).
Proof.
  unfold login_required, authenticated, mbind, M_bind, session_get; simpl.
  destruct (truthy (session st !! "user_id")); reflexivity.
Qed.

Lemma validate_csrf_eq tok st :
  validate_csrf tok st =
  if csrf_ok (session st) tok then (Ok tt, st) else (Raise csrf_error, st).
Proof.
  unfold validate_csrf, csrf_ok, mbind, M_bind, session_get; simpl.
  destruct (truthy (session st !! "csrf_token")); simpl; [|reflexivity].
  destruct (bool_decide _); reflexivity.
Qed.

Lemma csrf_ok_spec s tok :
  csrf_ok s tok = true <->
  s !! "csrf_token" = Some (VStr tok) /\ tok <> EmptyString.
Proof.
  unfold csrf_ok. rewrite andb_true_iff, bool_decide_eq_true. split.
  - intros [Ht He]. rewrite <- He in Ht. simpl in Ht. split; [done|].
    intros ->. discriminate.
  - intros [He Hn]. rewrite He. simpl. split; [|done].
    destruct tok; [done|reflexivity].
Qed.

Lemma csrf_mismatch_not_ok s tok :
  s !! "csrf_token" = None \/ s !! "csrf_token" <> Some (VStr tok) ->
  csrf_ok s tok = false.
Proof.
  intros H. destruct (csrf_ok s tok) eqn:E; [|done].
  apply csrf_ok_spec in E as [E _]. destruct H as [H|H]; congruence.
Qed.

(** Unfolds the monad so that a handler computes on a request state. *)
Ltac step_guards :=
  repeat first
    [ progress (unfold mbind, M_bind)
    | rewrite login_required_eq
    | rewrite validate_csrf_eq
    | progress simpl ].

Lemma create_csrf_fail now k a b c d e f g tok w :
  authenticated (w_session w) = true -> csrf_ok (w_session w) tok = false ->
  run (create_confirmation now k a b c d e f g tok) w = (Raise csrf_error, w).
Proof.
  intros Ha Hc. unfold run, create_confirmation. step_guards.
  rewrite Ha. step_guards. rewrite Hc. by destruct w.
Qed.

Lemma update_csrf_fail now i a b c d e f g tok w :
  authenticated (w_session w) = true -> csrf_ok (w_session w) tok = false ->
  run (update_confirmation now i a b c d e f g tok) w = (Raise csrf_error, w).
Proof.
  intros Ha Hc. unfold run, update_confirmation. step_guards.
  rewrite Ha. step_guards. rewrite Hc. by destruct w.
Qed.

Lemma delete_csrf_fail now i tok w :
  authenticated (w_session w) = true -> csrf_ok (w_session w) tok = false ->
  run (delete_confirmation now i tok) w = (Raise csrf_error, w).
Proof.
  intros Ha Hc. unfold run, delete_confirmation. step_guards.
  rewrite Ha. step_guards. rewrite Hc. by destruct w.
Qed.

Lemma login_csrf_fail lib u p tok t w :
  csrf_ok (w_session w) tok = false ->
  run (login lib u p tok t) w = (Raise csrf_error, w).
Proof.
  intros Hc. unfold run, login. step_guards. rewrite Hc. by destruct w.
Qed.

Lemma logout_csrf_fail tok w :
  csrf_ok (w_session w) tok = false ->
  run (logout tok) w = (Raise csrf_error, w).
Proof.
  intros Hc. unfold run, logout. step_guards. rewrite Hc. by destruct w.
Qed.

(** A request that does not pass [login_required] is answered by the
    redirect to the login page and changes nothing. *)
Lemma create_unauthenticated now k a b c d e f g tok w :
  authenticated (w_session w) = false ->
  run (create_confirmation now k a b c d e f g tok) w = (Raise login_redirect, w).
Proof.
  intros Ha. unfold run, create_confirmation. step_guards.
  rewrite Ha. by destruct w.
Qed.

Lemma update_unauthenticated now i a b c d e f g tok w :
  authenticated (w_session w) = false ->
  run (update_confirmation now i a b c d e f g tok) w = (Raise login_redirect, w).
Proof.
  intros Ha. unfold run, update_confirmation. step_guards.
  rewrite Ha. by destruct w.
Qed.

Lemma delete_unauthenticated now i tok w :
  authenticated (w_session w) = false ->
  run (delete_confirmation now i tok) w = (Raise login_redirect, w).
Proof.
  intros Ha. unfold run, delete_confirmation. step_guards.
  rewrite Ha. by destruct w.
Qed.

(** ** CSRF validation *)

(** [validate_csrf] lets a request through exactly when the session holds a
    non-empty token and the submitted text is that token. *)
Lemma validate_csrf_accepts_iff tok st :
  validate_csrf tok st = (Ok tt, st) <->
  session st !! "csrf_token" = Some (VStr tok) /\ tok <> EmptyString.
Proof.
  rewrite validate_csrf_eq, <- csrf_ok_spec.
  destruct (csrf_ok (session st) tok); split; intros H; congruence.
Qed.

(** C10: when the session holds no CSRF token, or holds the empty string as
    its token, [validate_csrf] rejects every submitted token with the 400
    error and leaves the request state as it was; this includes the
    submitted empty string, which is equal to a stored empty token.  Being
    equal to the stored token is thus not enough: the stored token has to be
    non-empty as well. *)
Theorem C10_empty_stored_token_rejects_all (st : req) :
  session st !! "csrf_token" = None \/
  session st !! "csrf_token" = Some (VStr EmptyString) ->
  (forall submitted, validate_csrf submitted st = (Raise csrf_error, st))
  /\ (session st !! "csrf_token" = Some (VStr EmptyString) ->
      Some (VStr EmptyString) = session st !! "csrf_token"
      /\ validate_csrf EmptyString st = (Raise csrf_error, st)).
Proof.
  intros H.
  assert (Hall : forall submitted, validate_csrf submitted st = (Raise csrf_error, st)).
  { intros submitted. rewrite validate_csrf_eq.
    destruct (csrf_ok (session st) submitted) eqn:E; [|reflexivity].
    apply csrf_ok_spec in E as [E Hne].
    destruct H as [H|H]; rewrite H in E; [discriminate|].
    injection E as <-. by destruct Hne. }
  split; [exact Hall|]. intros He. split; [by rewrite He | apply Hall].
Qed.

Lemma C10_witness :
  let st := mkreq {[ "csrf_token" := VStr EmptyString ]} (mkdb [] []) orm_empty in
  (session st !! "csrf_token" = None \/
   session st !! "csrf_token" = Some (VStr EmptyString))
  /\ validate_csrf EmptyString st = (Raise csrf_error, st).
Proof.
  intros st.
  assert (H : session st !! "csrf_token" = None \/
              session st !! "csrf_token" = Some (VStr EmptyString))
    by (right; reflexivity).
  split; [exact H|].
  exact (proj1 (C10_empty_stored_token_rejects_all st H) EmptyString).
Defined.

(** C2: a state-mutating request whose submitted CSRF token is not the one
    the session holds (none is held, or a different one) is answered by the
    400 CSRF error and the whole state -- record store, user table and
    session -- is exactly what it was.  For [login] and [logout] this holds
    for every session; [create], [update] and [delete] run [validate_csrf]
    as their first statement, after the [login_required] dependency, so for
    them the session is one that passed it.  Whatever the session, the
    database is unchanged. *)
Theorem C2_csrf_mismatch_changes_nothing
    (lib : Bcrypt.library) (now : datetime) (rowid : Z) (w : world)
    (submitted : string) (username password token : string) (record_id : Z)
    (full_name date_of_birth confirmation_date church_name priest_name
     sponsor_name remarks : string) :
  w_session w !! "csrf_token" = None \/
  w_session w !! "csrf_token" <> Some (VStr submitted) ->
  let create := create_confirmation now rowid full_name date_of_birth
                  confirmation_date church_name priest_name sponsor_name remarks
                  submitted in
  let update := update_confirmation now record_id full_name date_of_birth
                  confirmation_date church_name priest_name sponsor_name remarks
                  submitted in
  let delete := delete_confirmation now record_id submitted in
  run (login lib username password submitted token) w = (Raise csrf_error, w)
  /\ run (logout submitted) w = (Raise csrf_error, w)
  /\ (authenticated (w_session w) = true ->
      run create w = (Raise csrf_error, w)
      /\ run update w = (Raise csrf_error, w)
      /\ run delete w = (Raise csrf_error, w))
  /\ w_db (run create w).2 = w_db w
  /\ w_db (run update w).2 = w_db w
  /\ w_db (run delete w).2 = w_db w.
Proof.
  intros H create update delete.
  apply csrf_mismatch_not_ok in H.
  split; [by apply login_csrf_fail|].
  split; [by apply logout_csrf_fail|].
  split.
  { intros Ha. subst create update delete.
    by rewrite create_csrf_fail, update_csrf_fail, delete_csrf_fail. }
  subst create update delete.
  destruct (authenticated (w_session w)) eqn:Ha.
  - by rewrite create_csrf_fail, update_csrf_fail, delete_csrf_fail.
  - by rewrite create_unauthenticated, update_unauthenticated, delete_unauthenticated.
Qed.

Lemma C2_witness :
  (w_session Sample.w !! "csrf_token" = None \/
   w_session Sample.w !! "csrf_token" <> Some (VStr "forged"))
  /\ run (delete_confirmation Sample.now 1 "forged") Sample.w
     = (Raise csrf_error, Sample.w)
  /\ run (logout "forged") Sample.w = (Raise csrf_error, Sample.w).
Proof.
  assert (H : w_session Sample.w !! "csrf_token" = None \/
              w_session Sample.w !! "csrf_token" <> Some (VStr "forged"))
    by (right; vm_compute; discriminate).
  split; [exact H|].
  pose proof (C2_csrf_mismatch_changes_nothing Sample.lib4 Sample.now 0 Sample.w
                "forged" "admin" "admin123" "t1" 1
                "Jane" "2010-01-01" "2023-05-01" "St. Mary" "Fr. John"
                EmptyString EmptyString H) as (_ & Hlogout & Hrec & _).
  split; [|exact Hlogout].
  exact (proj2 (proj2 (Hrec eq_refl))).
Defined.

(** ** The record store *)

Lemma strptime_raises_value_error s e :
  Strptime.strptime_date s = Raise e -> exists m, e = ValueError m.
Proof.
  unfold Strptime.strptime_date.
  destruct (head _) as [[[[y m] d] rest]|]; [|intros [= <-]; eauto].
  destruct (PyStr.nonempty rest); [intros [= <-]; eauto|].
  destruct (valid_date y m d); [discriminate|intros [= <-]; eauto].
Qed.

Lemma parse_date_eq value field_name st :
  parse_date value field_name st =
  match Strptime.strptime_date value with
  | Ok d => (Ok d, st)
  | Raise _ => (Raise (date_error field_name), st)
  end.
Proof.
  unfold parse_date.
  destruct (Strptime.strptime_date value) as [d|e] eqn:E; [reflexivity|].
  apply strptime_raises_value_error in E as [m ->]. reflexivity.
Qed.

Lemma find_record_id record_id t r :
  find_record record_id t = Some r -> Confirmation.id r = record_id.
Proof.
  unfold find_record. intros H. apply find_some in H as [_ H]. lia.
Qed.

Lemma find_record_None record_id t :
  find_record record_id t = None <-> record_id ∉ map Confirmation.id t.
Proof.
  unfold find_record. induction t as [|x t IH]; simpl.
  - split; [intros _; apply not_elem_of_nil|done].
  - rewrite not_elem_of_cons. destruct (Z.eqb_spec (Confirmation.id x) record_id).
    + split; [discriminate|]. intros [H _]. congruence.
    + rewrite IH. split; [intros H; split; [congruence|done]|by intros [_ H]].
Qed.

Lemma db_get_fresh record_id s db :
  db_get record_id (mkreq s db orm_empty) =
  match find_record record_id (confirmations db) with
  | Some r => (Ok (Some r), mkreq s db (mkorm {[record_id := r]} [] []))
  | None =>
      if in_int64 record_id then (Ok None, mkreq s db orm_empty)
      else (Raise overflow_error, mkreq s db orm_empty)
  end.
Proof.
  unfold db_get, find_record; simpl. rewrite lookup_empty.
  destruct (List.find _ _); [|reflexivity]. by rewrite insert_empty.
Qed.

Lemma filter_notin_nil (t : list Confirmation.t) :
  filter (fun r => Confirmation.id r ∉ @nil Z) t = t.
Proof.
  induction t as [|x t IH]; [reflexivity|].
  rewrite filter_cons_True by apply not_elem_of_nil. by rewrite IH.
Qed.

Lemma filter_notin_singleton record_id (t : list Confirmation.t) :
  filter (fun r => Confirmation.id r ∉ [record_id]) t = remove_row record_id t.
Proof.
  unfold remove_row. induction t as [|x t IH]; [reflexivity|]. simpl.
  destruct (Z.eqb_spec (Confirmation.id x) record_id) as [E|E]; simpl.
  - rewrite filter_cons_False; [done|]. intros H. apply H. rewrite E. by left.
  - rewrite filter_cons_True; [by rewrite IH|].
    intros H. apply list_elem_of_singleton in H. done.
Qed.

Lemma map_default_empty (t : list Confirmation.t) :
  map (fun r => default r ((∅ : gmap Z Confirmation.t) !! Confirmation.id r)) t = t.
Proof.
  induction t as [|x t IH]; [reflexivity|]. simpl.
  by rewrite lookup_empty, IH.
Qed.

Lemma map_default_singleton record_id r' (t : list Confirmation.t) :
  map (fun r => default r (({[record_id := r']} : gmap Z Confirmation.t)
                             !! Confirmation.id r)) t
  = replace_row record_id r' t.
Proof.
  unfold replace_row. apply map_ext. intros x.
  destruct (Z.eqb_spec (Confirmation.id x) record_id) as [->|E].
  - by rewrite lookup_singleton_eq.
  - by rewrite lookup_singleton_ne.
Qed.

(** What a commit writes, for the three units of work the handlers build. *)
Lemma flush_insert now n t :
  flush now (mkorm ∅ [n] []) t = insert_row now t n.
Proof.
  unfold flush; simpl. rewrite map_default_empty.
  destruct (insert_row now t n); simpl; [by rewrite filter_notin_nil|done].
Qed.

Lemma flush_update now record_id r' t :
  flush now (mkorm {[record_id := r']} [] []) t = Some (replace_row record_id r' t).
Proof.
  unfold flush; simpl. by rewrite map_default_singleton, filter_notin_nil.
Qed.

(** The key of a new row. *)
Lemma largest_key_above (keys : list Z) m x :
  largest_key keys = Some m -> x ∈ keys -> x <= m.
Proof.
  destruct keys as [|k ks]; [discriminate|]. simpl. intros [= <-].
  revert k. induction ks as [|y ks IH]; intros k; simpl.
  - intros ->%list_elem_of_singleton. lia.
  - intros [->|[->|H]%elem_of_cons]%elem_of_cons; [| |].
    + specialize (IH k ltac:(left)). lia.
    + lia.
    + specialize (IH k ltac:(by right)). lia.
Qed.

Lemma largest_key_in (keys : list Z) m : largest_key keys = Some m -> m ∈ keys.
Proof.
  destruct keys as [|k ks]; [discriminate|]. simpl. intros [= <-].
  revert k. induction ks as [|y ks IH]; intros k; simpl; [by left|].
  destruct (Z.max_spec y (fold_right Z.max k ks)) as [[_ ->]|[_ ->]].
  - specialize (IH k). apply elem_of_cons in IH as [IH|IH].
    + rewrite IH. by left.
    + right. by right.
  - right. by left.
Qed.

Lemma new_rowid_below draw t :
  keys_below_max t -> new_rowid draw t = Some (next_id t).
Proof.
  intros Hk. unfold new_rowid, next_id.
  destruct (largest_key _) as [m|] eqn:E; [|done].
  apply largest_key_in, list_elem_of_In, in_map_iff in E as (r & <- & Hr).
  unfold keys_below_max in Hk. rewrite Forall_forall in Hk.
  apply list_elem_of_In, Hk in Hr.
  by destruct (Z.ltb_spec (Confirmation.id r) max_rowid); [|lia].
Qed.

(** A key that is given is one that no row has. *)
Lemma new_rowid_fresh draw t key :
  new_rowid draw t = Some key -> key ∉ map Confirmation.id t.
Proof.
  unfold new_rowid. destruct (largest_key _) as [m|] eqn:E.
  - destruct (m <? max_rowid).
    + intros [= <-] H. apply (largest_key_above _ _ _ E) in H. lia.
    + destruct (_ && _) eqn:Hd; [|discriminate]. intros [= <-].
      apply andb_true_iff in Hd as [_ Hd]. by apply bool_decide_eq_true in Hd.
  - destruct (map Confirmation.id t); [|discriminate].
    intros _. apply not_elem_of_nil.
Qed.

Lemma remove_replace record_id r' t :
  Confirmation.id r' = record_id ->
  remove_row record_id (replace_row record_id r' t) = remove_row record_id t.
Proof.
  intros Hid. unfold remove_row, replace_row.
  induction t as [|x t IH]; [reflexivity|]. simpl.
  destruct (Z.eqb_spec (Confirmation.id x) record_id) as [E|E]; simpl.
  - rewrite Hid, Z.eqb_refl. simpl. exact IH.
  - destruct (Z.eqb_spec (Confirmation.id x) record_id); [done|]. simpl.
    by rewrite IH.
Qed.

Lemma flush_delete now record_id r t :
  Confirmation.id r = record_id ->
  flush now (mkorm {[record_id := r]} [] [record_id]) t = Some (remove_row record_id t).
Proof.
  intros Hid. unfold flush; simpl.
  rewrite map_default_singleton, filter_notin_singleton.
  by rewrite remove_replace.
Qed.

Lemma find_remove_row record_id t :
  find_record record_id (remove_row record_id t) = None.
Proof.
  unfold find_record, remove_row. induction t as [|x t IH]; [reflexivity|]. simpl.
  destruct (Z.eqb_spec (Confirmation.id x) record_id) as [E|E]; simpl; [exact IH|].
  destruct (Z.eqb_spec (Confirmation.id x) record_id); [done|exact IH].
Qed.

Lemma find_replace_row_eq record_id r' t r :
  Confirmation.id r' = record_id ->
  find_record record_id t = Some r ->
  find_record record_id (replace_row record_id r' t) = Some r'.
Proof.
  intros Hid. unfold find_record, replace_row.
  induction t as [|x t IH]; [discriminate|]. simpl.
  destruct (Z.eqb_spec (Confirmation.id x) record_id) as [E|E]; simpl.
  - intros _. by rewrite Hid, Z.eqb_refl.
  - destruct (Z.eqb_spec (Confirmation.id x) record_id); [done|exact IH].
Qed.

Lemma find_replace_row_ne record_id other r' t :
  Confirmation.id r' = record_id -> other <> record_id ->
  find_record other (replace_row record_id r' t) = find_record other t.
Proof.
  intros Hid Hne. unfold find_record, replace_row.
  induction t as [|x t IH]; [reflexivity|]. simpl.
  destruct (Z.eqb_spec (Confirmation.id x) record_id) as [E|E]; simpl.
  - rewrite Hid, E. destruct (Z.eqb_spec record_id other); [congruence|exact IH].
  - by rewrite IH.
Qed.

(** ** What each handler does once the guards are passed *)

Section Handlers.
Context (now : datetime) (w : world).
Hypothesis Hauth : authenticated (w_session w) = true.

Ltac enter h :=
  unfold run, h; step_guards; rewrite Hauth; step_guards.

Lemma view_eq record_id token :
  run (view_confirmation record_id token) w =
  match find_record record_id (confirmations (w_db w)) with
  | Some r =>
      (Ok (TemplateResponse "confirmation_detail.html"
             [("record", TRecord r); ("csrf_token", TStr token)] 200),
       mkworld (<["csrf_token" := VStr token]> (w_session w)) (w_db w))
  | None =>
      (Raise (if in_int64 record_id then not_found_error else overflow_error), w)
  end.
Proof.
  enter view_confirmation. rewrite db_get_fresh.
  destruct (find_record _ _); simpl; [reflexivity|].
  destruct (in_int64 record_id); by destruct w.
Qed.

Context (tok : string).
Hypothesis Hcsrf : csrf_ok (w_session w) tok = true.

Ltac enter_csrf h := enter h; rewrite Hcsrf; step_guards.

Lemma create_eq k a b c d e f g :
  run (create_confirmation now k a b c d e f g tok) w =
  match Strptime.strptime_date b, Strptime.strptime_date c with
  | Ok dob, Ok cd =>
      match new_rowid k (confirmations (w_db w)) with
      | Some key =>
          (Ok (RedirectResponse "/confirmations" 303),
           mkworld (w_session w)
             (mkdb (users (w_db w))
                   (confirmations (w_db w)
                    ++ [created_record now key a dob cd d e f g])))
      | None => (Raise database_full, w)
      end
  | Ok _, Raise _ => (Raise (date_error "confirmation_date"), w)
  | Raise _, _ => (Raise (date_error "date_of_birth"), w)
  end.
Proof.
  enter_csrf create_confirmation. rewrite !parse_date_eq.
  destruct (Strptime.strptime_date b); simpl; [|by destruct w].
  rewrite parse_date_eq.
  destruct (Strptime.strptime_date c); simpl; [|by destruct w].
  unfold db_commit. simpl. rewrite flush_insert. unfold insert_row. simpl.
  destruct (new_rowid k (confirmations (w_db w))); simpl; [done|by destruct w].
Qed.

Lemma update_eq record_id a b c d e f g :
  run (update_confirmation now record_id a b c d e f g tok) w =
  match find_record record_id (confirmations (w_db w)) with
  | None =>
      (Raise (if in_int64 record_id then not_found_error else overflow_error), w)
  | Some r =>
      match Strptime.strptime_date b, Strptime.strptime_date c with
      | Ok dob, Ok cd =>
          (Ok (RedirectResponse ("/confirmations/" +:+ str_int record_id) 303),
           mkworld (w_session w)
             (mkdb (users (w_db w))
                   (replace_row record_id (updated_record r a dob cd d e f g)
                      (confirmations (w_db w)))))
      | Ok _, Raise _ => (Raise (date_error "confirmation_date"), w)
      | Raise _, _ => (Raise (date_error "date_of_birth"), w)
      end
  end.
Proof.
  enter_csrf update_confirmation. rewrite db_get_fresh.
  destruct (find_record _ _) as [r|] eqn:Hf; simpl;
    [|destruct (in_int64 record_id); by destruct w].
  apply find_record_id in Hf.
  rewrite parse_date_eq.
  destruct (Strptime.strptime_date b); simpl; [|by destruct w].
  rewrite parse_date_eq.
  destruct (Strptime.strptime_date c); simpl; [|by destruct w].
  unfold db_commit. simpl. rewrite Hf, !alter_singleton_eq.
  by rewrite map_default_singleton, filter_notin_nil.
Qed.

Lemma delete_eq record_id :
  run (delete_confirmation now record_id tok) w =
  match find_record record_id (confirmations (w_db w)) with
  | None =>
      (Raise (if in_int64 record_id then not_found_error else overflow_error), w)
  | Some r =>
      (Ok (RedirectResponse "/confirmations" 303),
       mkworld (w_session w)
         (mkdb (users (w_db w)) (remove_row record_id (confirmations (w_db w)))))
  end.
Proof.
  enter_csrf delete_confirmation. rewrite db_get_fresh.
  destruct (find_record _ _) as [r|] eqn:Hf; simpl;
    [|destruct (in_int64 record_id); by destruct w].
  apply find_record_id in Hf.
  unfold db_commit. simpl. rewrite Hf.
  by rewrite map_default_singleton, filter_notin_singleton, remove_replace.
Qed.

End Handlers.

(** ** Not found, delete, update *)

Lemma find_record_Some_iff record_id t :
  is_Some (find_record record_id t) <-> record_id ∈ map Confirmation.id t.
Proof.
  rewrite <- not_eq_None_Some, find_record_None.
  destruct (decide (record_id ∈ map Confirmation.id t)); tauto.
Qed.

(** The key 2^63 is one that no row can have.  A request for it is not
    answered with the 404 error: the driver cannot hand the number to the
    engine and raises [OverflowError], which the client sees as status
    500. *)
Lemma C9_counterexample :
  (9223372036854775808 ∉ map Confirmation.id (confirmations (w_db Sample.w)))
  /\ run (view_confirmation 9223372036854775808 "t2") Sample.w
     = (Raise (Error "OverflowError"
                 "Python int too large to convert to SQLite INTEGER"), Sample.w)
  /\ run (update_confirmation Sample.now 9223372036854775808 "x" "2010-01-01"
            "2023-05-01" "y" "z" "s" "r" "tok") Sample.w
     = (Raise (Error "OverflowError"
                 "Python int too large to convert to SQLite INTEGER"), Sample.w)
  /\ run (delete_confirmation Sample.now 9223372036854775808 "tok") Sample.w
     = (Raise (Error "OverflowError"
                 "Python int too large to convert to SQLite INTEGER"), Sample.w)
  /\ Error "OverflowError" "Python int too large to convert to SQLite INTEGER"
     <> not_found_error.
Proof.
  split; [apply (bool_decide_unpack _); by vm_compute|].
  split; [rewrite view_eq by reflexivity; reflexivity|].
  split; [rewrite update_eq by reflexivity; reflexivity|].
  split; [rewrite delete_eq by reflexivity; reflexivity|discriminate].
Qed.

(** C9 (amended): for a key that no stored record has and that is a
    64-bit integer, viewing, updating and deleting each fail with the 404
    error and change nothing (update and delete: once the request has
    passed the CSRF check that comes first); for a key outside the 64-bit
    range they fail with [OverflowError] instead, and change nothing
    either.  Deleting a stored record succeeds; in the state it leaves,
    viewing, updating and deleting the same key, a 64-bit integer, all fail
    with the 404 error. *)
Theorem C9_absent_key_not_found
    (now : datetime) (w : world) (token : string) (record_id : Z)
    (full_name date_of_birth confirmation_date church_name priest_name
     sponsor_name remarks : string) :
  authenticated (w_session w) = true ->
  let view := view_confirmation record_id token in
  let update tok := update_confirmation now record_id full_name date_of_birth
                      confirmation_date church_name priest_name sponsor_name
                      remarks tok in
  let delete tok := delete_confirmation now record_id tok in
  ((record_id ∉ map Confirmation.id (confirmations (w_db w))) ->
   in_int64 record_id = true ->
     run view w = (Raise (HTTPException 404 (Some "Record not found") []), w)
     /\ forall tok, csrf_ok (w_session w) tok = true ->
          run (update tok) w = (Raise (HTTPException 404 (Some "Record not found") []), w)
          /\ run (delete tok) w
             = (Raise (HTTPException 404 (Some "Record not found") []), w))
  /\ ((record_id ∉ map Confirmation.id (confirmations (w_db w))) ->
      in_int64 record_id = false ->
        run view w = (Raise overflow_error, w)
        /\ forall tok, csrf_ok (w_session w) tok = true ->
             run (update tok) w = (Raise overflow_error, w)
             /\ run (delete tok) w = (Raise overflow_error, w))
  /\ ((record_id ∈ map Confirmation.id (confirmations (w_db w))) ->
      in_int64 record_id = true ->
      forall tok, csrf_ok (w_session w) tok = true ->
      exists w',
        run (delete tok) w = (Ok (RedirectResponse "/confirmations" 303), w')
        /\ (record_id ∉ map Confirmation.id (confirmations (w_db w')))
        /\ run view w' = (Raise not_found_error, w')
        /\ run (update tok) w' = (Raise not_found_error, w')
        /\ run (delete tok) w' = (Raise not_found_error, w')).
Proof.
  intros Hauth view update delete. subst view update delete.
  split; [|split].
  - intros Habs Hr. apply find_record_None in Habs.
    rewrite view_eq by done. rewrite Habs, Hr. split; [done|].
    intros tok Hcsrf. rewrite update_eq, delete_eq by done. by rewrite Habs, Hr.
  - intros Habs Hr. apply find_record_None in Habs.
    rewrite view_eq by done. rewrite Habs, Hr. split; [done|].
    intros tok Hcsrf. rewrite update_eq, delete_eq by done. by rewrite Habs, Hr.
  - intros Hin Hrange tok Hcsrf. apply find_record_Some_iff in Hin as [r Hr].
    eexists. rewrite delete_eq by done. rewrite Hr. split; [reflexivity|].
    split; [apply find_record_None, find_remove_row|].
    rewrite view_eq, update_eq, delete_eq by done. simpl.
    by rewrite find_remove_row, Hrange.
Qed.

Lemma C9_witness :
  authenticated (w_session Sample.w) = true
  /\ (7 ∉ map Confirmation.id (confirmations (w_db Sample.w)))
  /\ in_int64 7 = true
  /\ csrf_ok (w_session Sample.w) "tok" = true
  /\ run (view_confirmation 7 "t2") Sample.w = (Raise not_found_error, Sample.w)
  /\ run (delete_confirmation Sample.now 7 "tok") Sample.w
     = (Raise not_found_error, Sample.w)
  /\ exists w',
       run (delete_confirmation Sample.now 1 "tok") Sample.w
       = (Ok (RedirectResponse "/confirmations" 303), w')
       /\ run (delete_confirmation Sample.now 1 "tok") w' = (Raise not_found_error, w').
Proof.
  assert (Ha : authenticated (w_session Sample.w) = true) by reflexivity.
  assert (Hc : csrf_ok (w_session Sample.w) "tok" = true) by reflexivity.
  assert (H7 : 7 ∉ map Confirmation.id (confirmations (w_db Sample.w)))
    by (apply (bool_decide_unpack _); by vm_compute).
  assert (H1 : 1 ∈ map Confirmation.id (confirmations (w_db Sample.w)))
    by (apply (bool_decide_unpack _); by vm_compute).
  split; [exact Ha|]. split; [exact H7|]. split; [reflexivity|]. split; [exact Hc|].
  destruct (proj1 (C9_absent_key_not_found Sample.now Sample.w "t2" 7
                     "x" "2010-01-01" "2023-05-01" "y" "z" "s" "r" Ha) H7 eq_refl)
    as [Hview Hrest].
  split; [exact Hview|]. split; [exact (proj2 (Hrest "tok" Hc))|].
  destruct (proj2 (proj2 (C9_absent_key_not_found Sample.now Sample.w "t2" 1
                            "x" "2010-01-01" "2023-05-01" "y" "z" "s" "r" Ha))
              H1 eq_refl "tok" Hc) as (w' & Hdel & _ & _ & _ & Hagain).
  exists w'. by split.
Defined.

(** C6: updating a stored record with field values whose two dates parse
    succeeds, and viewing the record afterwards shows exactly the new
    values -- the trimmed texts and the parsed dates -- under the key and
    the creation time the record had before.  Every row with another key is
    left as it was, and so is the user table. *)
Theorem C6_update_then_get
    (now : datetime) (w : world) (tok token : string) (record_id : Z)
    (r : Confirmation.t) (dob cd : date)
    (full_name date_of_birth confirmation_date church_name priest_name
     sponsor_name remarks : string) :
  authenticated (w_session w) = true ->
  csrf_ok (w_session w) tok = true ->
  find_record record_id (confirmations (w_db w)) = Some r ->
  Strptime.strptime_date date_of_birth = Ok dob ->
  Strptime.strptime_date confirmation_date = Ok cd ->
  exists w',
    run (update_confirmation now record_id full_name date_of_birth
           confirmation_date church_name priest_name sponsor_name remarks tok) w
    = (Ok (RedirectResponse ("/confirmations/" +:+ str_int record_id) 303), w')
    /\ (run (view_confirmation record_id token) w').1
       = Ok (TemplateResponse "confirmation_detail.html"
               [("record",
                 TRecord (Confirmation.mk record_id (PyStr.strip full_name) dob cd
                            (PyStr.strip church_name) (PyStr.strip priest_name)
                            (Some (PyStr.strip sponsor_name))
                            (Some (PyStr.strip remarks))
                            (Confirmation.created_at r)));
                ("csrf_token", TStr token)] 200)
    /\ (forall other, other <> record_id ->
          find_record other (confirmations (w_db w'))
          = find_record other (confirmations (w_db w)))
    /\ (forall (i : nat) x, confirmations (w_db w) !! i = Some x ->
          Confirmation.id x <> record_id ->
          confirmations (w_db w') !! i = Some x)
    /\ length (confirmations (w_db w')) = length (confirmations (w_db w))
    /\ users (w_db w') = users (w_db w)
    /\ w_session w' = w_session w
    /\ Confirmation.id r = record_id.
Proof.
  intros Hauth Hcsrf Hf Hb Hc.
  pose proof (find_record_id _ _ _ Hf) as Hid.
  eexists. rewrite update_eq by done. rewrite Hf, Hb, Hc.
  split; [reflexivity|]. simpl.
  set (r' := updated_record r _ _ _ _ _ _ _).
  assert (Hid' : Confirmation.id r' = record_id) by exact Hid.
  split.
  { rewrite view_eq by done. simpl.
    rewrite (find_replace_row_eq _ _ _ r) by done.
    simpl. unfold r', updated_record. by rewrite Hid. }
  split; [intros other Hne; by apply find_replace_row_ne|].
  split.
  { intros i x Hx Hne. unfold replace_row. rewrite list_lookup_fmap, Hx. simpl.
    destruct (Z.eqb_spec (Confirmation.id x) record_id); [done|reflexivity]. }
  split; [unfold replace_row; by rewrite length_map|]. by repeat split.
Qed.

Lemma C6_witness :
  exists w',
    run (update_confirmation Sample.now 1 " Jane D. Roe " "2010-01-02" "2023-05-07"
           "St. Mary" "Fr. John " "Ann" "moved" "tok") Sample.w
    = (Ok (RedirectResponse "/confirmations/1" 303), w')
    /\ (run (view_confirmation 1 "t2") w').1
       = Ok (TemplateResponse "confirmation_detail.html"
               [("record",
                 TRecord (Confirmation.mk 1 "Jane D. Roe" (mkdate 2010 1 2)
                            (mkdate 2023 5 7) "St. Mary" "Fr. John" (Some "Ann")
                            (Some "moved") (Confirmation.created_at Sample.jane)));
                ("csrf_token", TStr "t2")] 200)
    /\ find_record 2 (confirmations (w_db w')) = Some Sample.paul.
Proof.
  destruct (C6_update_then_get Sample.now Sample.w "tok" "t2" 1 Sample.jane
              (mkdate 2010 1 2) (mkdate 2023 5 7)
              " Jane D. Roe " "2010-01-02" "2023-05-07" "St. Mary" "Fr. John "
              "Ann" "moved" eq_refl eq_refl eq_refl eq_refl eq_refl)
    as (w' & Hrun & Hview & Hother & _).
  exists w'. split; [exact Hrun|]. split; [exact Hview|].
  rewrite (Hother 2); [reflexivity|lia].
Defined.

(** ** The texts [strptime] accepts *)

Module StrptimeFacts.
Import Strptime.

Lemma is_digit_range c :
  is_digit c = true <-> 0 <= digit_val c <= 9.
Proof.
  unfold is_digit, in_range, digit_val. simpl.
  rewrite andb_true_iff, !N.leb_le. lia.
Qed.

Lemma in_range_val lo hi c :
  in_range lo hi c = true <->
  digit_val lo <= digit_val c <= digit_val hi.
Proof.
  unfold in_range, digit_val. rewrite andb_true_iff, !N.leb_le. lia.
Qed.

Lemma digit_char_val c : digit_char (digit_val c) = c.
Proof.
  unfold digit_char, digit_val.
  replace (48 + (Z.of_N (N_of_ascii c) - 48)) with (Z.of_N (N_of_ascii c)) by lia.
  by rewrite N2Z.id, ascii_N_embedding.
Qed.

Lemma digit_val_char k : 0 <= k <= 9 -> digit_val (digit_char k) = k.
Proof.
  intros H. unfold digit_char, digit_val.
  rewrite N_ascii_embedding by lia. lia.
Qed.

Lemma is_digit_char k : 0 <= k <= 9 -> is_digit (digit_char k) = true.
Proof. intros H. apply is_digit_range. rewrite digit_val_char; lia. Qed.

Lemma digit_val_inj c1 c2 : digit_val c1 = digit_val c2 -> c1 = c2.
Proof. intros H. by rewrite <- (digit_char_val c1), H, digit_char_val. Qed.

Lemma re_class_In p v r s :
  In (v, r) (re_class p s) <-> exists c, s = String c r /\ p c = true /\ v = digit_val c.
Proof.
  unfold re_class. destruct s as [|c s].
  - split; [intros []|intros (c & [=] & _)].
  - destruct (p c) eqn:E; simpl.
    + split; [intros [[= <- <-]|[]]; eauto|].
      intros (c' & [= <- <-] & _ & ->). by left.
    + split; [intros []|]. intros (c' & [= <- <-] & E' & _). congruence.
Qed.

Lemma re_bind_In {A B} (r : re A) (k : A -> re B) s x :
  In x (re_bind r k s) <-> exists a rest, In (a, rest) (r s) /\ In x (k a rest).
Proof.
  unfold re_bind. rewrite in_flat_map. split.
  - intros ([a rest] & H1 & H2). eauto.
  - intros (a & rest & H1 & H2). exists (a, rest). eauto.
Qed.

Lemma re_ret_In {A} (a : A) s x : In x (re_ret a s) <-> x = (a, s).
Proof. unfold re_ret. simpl. split; [intros [<-|[]]; done|intros ->; by left]. Qed.

Lemma re_char_In ch v r s :
  In (v, r) (re_char ch s) <-> s = String ch r /\ v = digit_val ch.
Proof.
  unfold re_char. rewrite re_class_In. split.
  - intros (c & -> & E & ->). apply Ascii.eqb_eq in E as ->. done.
  - intros [-> ->]. exists ch. by rewrite Ascii.eqb_refl.
Qed.

Lemma two_In r1 r2 v r s :
  In (v, r) (two r1 r2 s) <->
  exists a s1 b, In (a, s1) (r1 s) /\ In (b, r) (r2 s1) /\ v = 10 * a + b.
Proof.
  unfold two. rewrite re_bind_In. split.
  - intros (a & s1 & H1 & H2). apply re_bind_In in H2 as (b & s2 & H2 & H3).
    apply re_ret_In in H3 as [= -> ->]. eauto 10.
  - intros (a & s1 & b & H1 & H2 & ->). exists a, s1. split; [done|].
    apply re_bind_In. exists b, r. split; [done|]. by apply re_ret_In.
Qed.

(** A year is four digits. *)
Lemma re_Y_In y r s :
  In (y, r) (re_Y s) -> 0 <= y <= 9999 /\ s = pad4 y +:+ r.
Proof.
  unfold re_Y. intros H.
  apply re_bind_In in H as (a & s1 & Ha & H). apply re_class_In in Ha as (c1 & -> & D1 & ->).
  apply re_bind_In in H as (a & s2 & Ha & H). apply re_class_In in Ha as (c2 & -> & D2 & ->).
  apply re_bind_In in H as (a & s3 & Ha & H). apply re_class_In in Ha as (c3 & -> & D3 & ->).
  apply re_bind_In in H as (a & s4 & Ha & H). apply re_class_In in Ha as (c4 & -> & D4 & ->).
  apply re_ret_In in H as [= -> ->].
  apply is_digit_range in D1, D2, D3, D4.
  set (y := 1000 * digit_val c1 + 100 * digit_val c2 + 10 * digit_val c3 + digit_val c4).
  assert (E1 : y / 1000 mod 10 = digit_val c1) by (subst y; Z.div_mod_to_equations; lia).
  assert (E2 : y / 100 mod 10 = digit_val c2) by (subst y; Z.div_mod_to_equations; lia).
  assert (E3 : y / 10 mod 10 = digit_val c3) by (subst y; Z.div_mod_to_equations; lia).
  assert (E4 : y mod 10 = digit_val c4) by (subst y; Z.div_mod_to_equations; lia).
  split; [subst y; lia|].
  unfold pad4, pad2. rewrite E1, E2, E3, E4, !digit_char_val. reflexivity.
Qed.

Lemma re_Y_pad4 y rest :
  0 <= y <= 9999 -> re_Y (pad4 y +:+ rest) = [(y, rest)].
Proof.
  intros Hy. unfold pad4, pad2, re_Y, re_bind, re_class. simpl.
  assert (H1 : 0 <= y / 1000 mod 10 <= 9) by (Z.div_mod_to_equations; lia).
  assert (H2 : 0 <= y / 100 mod 10 <= 9) by (Z.div_mod_to_equations; lia).
  assert (H3 : 0 <= y / 10 mod 10 <= 9) by (Z.div_mod_to_equations; lia).
  assert (H4 : 0 <= y mod 10 <= 9) by (Z.div_mod_to_equations; lia).
  rewrite !is_digit_char by done. simpl.
  rewrite !is_digit_char by done. simpl.
  rewrite !is_digit_char by done. simpl.
  rewrite !is_digit_char by done. simpl.
  rewrite !digit_val_char by done. unfold re_ret. do 3 f_equal.
  Z.div_mod_to_equations; lia.
Qed.

Lemma pad2_digits c1 c2 :
  is_digit c1 = true -> is_digit c2 = true ->
  pad2 (10 * digit_val c1 + digit_val c2) = String c1 (String c2 EmptyString).
Proof.
  intros D1%is_digit_range D2%is_digit_range. unfold pad2.
  replace ((10 * digit_val c1 + digit_val c2) / 10 mod 10) with (digit_val c1)
    by (Z.div_mod_to_equations; lia).
  replace ((10 * digit_val c1 + digit_val c2) mod 10) with (digit_val c2)
    by (Z.div_mod_to_equations; lia).
  by rewrite !digit_char_val.
Qed.

Lemma in_range_digit lo hi c :
  in_range lo hi c = true ->
  is_digit lo = true -> is_digit hi = true -> is_digit c = true.
Proof.
  intros R%in_range_val L%is_digit_range H%is_digit_range.
  apply is_digit_range. lia.
Qed.

Lemma digit1_val c : digit1 (digit_val c) = String c EmptyString.
Proof. unfold digit1. by rewrite digit_char_val. Qed.

Ltac range_of R lo hi :=
  apply in_range_val in R;
  change (digit_val lo) with (Z.of_N (N_of_ascii lo) - 48) in R;
  change (digit_val hi) with (Z.of_N (N_of_ascii hi) - 48) in R;
  simpl in R.

(** A month is [1[0-2]], [0[1-9]] or [[1-9]]. *)
Lemma re_m_In m r s :
  In (m, r) (re_m s) ->
  1 <= m <= 12 /\ exists ms, ms ∈ month_texts m /\ s = ms +:+ r.
Proof.
  unfold re_m, re_alt. rewrite !in_app_iff, !two_In.
  intros [(a & s1 & b & Ha & Hb & ->)|[(a & s1 & b & Ha & Hb & ->)|H]].
  - apply re_char_In in Ha as [-> ->]. apply re_class_In in Hb as (c & -> & R & ->).
    pose proof (in_range_digit _ _ _ R eq_refl eq_refl) as D.
    pose proof (pad2_digits "1" c eq_refl D) as P.
    range_of R "0"%char "2"%char. change (digit_val "1") with 1 in *.
    split; [lia|]. exists (String "1" (String c EmptyString)). split; [|reflexivity].
    unfold month_texts. destruct (Z.ltb_spec (10 * 1 + digit_val c) 10); [lia|].
    rewrite P. apply list_elem_of_In. by left.
  - apply re_char_In in Ha as [-> ->]. apply re_class_In in Hb as (c & -> & R & ->).
    pose proof (in_range_digit _ _ _ R eq_refl eq_refl) as D.
    pose proof (pad2_digits "0" c eq_refl D) as P.
    range_of R "1"%char "9"%char. change (digit_val "0") with 0 in *.
    split; [lia|]. exists (String "0" (String c EmptyString)). split; [|reflexivity].
    unfold month_texts. destruct (Z.ltb_spec (10 * 0 + digit_val c) 10); [|lia].
    rewrite P. apply list_elem_of_In. right. by left.
  - apply re_class_In in H as (c & -> & R & ->).
    range_of R "1"%char "9"%char.
    split; [lia|]. exists (String c EmptyString). split; [|reflexivity].
    unfold month_texts. destruct (Z.ltb_spec (digit_val c) 10); [|lia].
    rewrite digit1_val. apply list_elem_of_In. by left.
Qed.

(** A day is [3[0-1]], [[1-2]\d], [0[1-9]], [[1-9]] or a space and [[1-9]]. *)
Lemma re_d_In d r s :
  In (d, r) (re_d s) ->
  1 <= d <= 31 /\ exists ds, ds ∈ day_texts d /\ s = ds +:+ r.
Proof.
  unfold re_d, re_alt. rewrite !in_app_iff, !two_In.
  intros [(a & s1 & b & Ha & Hb & ->)|[(a & s1 & b & Ha & Hb & ->)
          |[(a & s1 & b & Ha & Hb & ->)|[H|H]]]].
  - apply re_char_In in Ha as [-> ->]. apply re_class_In in Hb as (c & -> & R & ->).
    pose proof (in_range_digit _ _ _ R eq_refl eq_refl) as D.
    pose proof (pad2_digits "3" c eq_refl D) as P.
    range_of R "0"%char "1"%char. change (digit_val "3") with 3 in *.
    split; [lia|]. exists (String "3" (String c EmptyString)). split; [|reflexivity].
    unfold day_texts. destruct (Z.ltb_spec (10 * 3 + digit_val c) 10); [lia|].
    rewrite P. apply list_elem_of_In. by left.
  - apply re_class_In in Ha as (c1 & -> & R & ->).
    apply re_class_In in Hb as (c & -> & D & ->).
    pose proof (in_range_digit _ _ _ R eq_refl eq_refl) as D1.
    pose proof (pad2_digits c1 c D1 D) as P.
    range_of R "1"%char "2"%char. apply is_digit_range in D.
    split; [lia|]. exists (String c1 (String c EmptyString)). split; [|reflexivity].
    unfold day_texts. destruct (Z.ltb_spec (10 * digit_val c1 + digit_val c) 10); [lia|].
    rewrite P. apply list_elem_of_In. by left.
  - apply re_char_In in Ha as [-> ->]. apply re_class_In in Hb as (c & -> & R & ->).
    pose proof (in_range_digit _ _ _ R eq_refl eq_refl) as D.
    pose proof (pad2_digits "0" c eq_refl D) as P.
    range_of R "1"%char "9"%char. change (digit_val "0") with 0 in *.
    split; [lia|]. exists (String "0" (String c EmptyString)). split; [|reflexivity].
    unfold day_texts. destruct (Z.ltb_spec (10 * 0 + digit_val c) 10); [|lia].
    rewrite P. apply list_elem_of_In. right. by left.
  - apply re_class_In in H as (c & -> & R & ->).
    range_of R "1"%char "9"%char.
    split; [lia|]. exists (String c EmptyString). split; [|reflexivity].
    unfold day_texts. destruct (Z.ltb_spec (digit_val c) 10); [|lia].
    rewrite digit1_val. apply list_elem_of_In. by left.
  - apply re_bind_In in H as (a & s1 & Ha & H).
    apply re_char_In in Ha as [-> ->]. apply re_class_In in H as (c & -> & R & ->).
    range_of R "1"%char "9"%char.
    split; [lia|]. exists (String " " (String c EmptyString)). split; [|reflexivity].
    unfold day_texts. destruct (Z.ltb_spec (digit_val c) 10); [|lia].
    rewrite digit1_val. apply list_elem_of_In. right. right. by left.
Qed.

Lemma range_In lo (n : nat) m :
  lo <= m < lo + Z.of_nat n -> In m (map (fun k => lo + Z.of_nat k) (seq 0 n)).
Proof.
  intros H. apply in_map_iff. exists (Z.to_nat (m - lo)). split; [lia|].
  apply in_seq. lia.
Qed.

Ltac enum H := cbv in H; repeat (destruct H as [<-|H]); [..|destruct H].

(** After the text of a month and a hyphen, only the match of the whole
    text goes on: the shorter match of a two-digit month stops at its
    second digit. *)
Lemma re_m_text {B} (k : Z -> Z -> re B) m ms rest :
  1 <= m <= 12 -> ms ∈ month_texts m ->
  re_bind re_m (fun m' => re_bind (re_char "-") (k m')) (ms +:+ String "-" rest)
  = k m (digit_val "-") rest.
Proof.
  intros Hm Hms.
  assert (H : In m (map (fun k => 1 + Z.of_nat k) (seq 0 12))) by (apply range_In; lia).
  clear Hm. apply list_elem_of_In in Hms.
  enum H; enum Hms; unfold re_bind at 1;
    match goal with
    | |- flat_map _ ?l = _ => let l' := eval vm_compute in l in change l with l'
    end;
    unfold re_bind, re_char, re_class; simpl; rewrite ?app_nil_r; reflexivity.
Qed.

Lemma re_d_text d ds :
  1 <= d <= 31 -> ds ∈ day_texts d ->
  exists others, re_d ds = (d, EmptyString) :: others.
Proof.
  intros Hd Hds.
  assert (H : In d (map (fun k => 1 + Z.of_nat k) (seq 0 31))) by (apply range_In; lia).
  clear Hd. apply list_elem_of_In in Hds.
  enum H; enum Hds; eexists; vm_compute; reflexivity.
Qed.

Lemma append_nil_r (s : string) : s +:+ EmptyString = s.
Proof.
  induction s as [|c s IH]; [reflexivity|].
  change (String c (s +:+ EmptyString) = String c s). by rewrite IH.
Qed.

Lemma valid_date_bounds y m d :
  valid_date y m d = true -> 1 <= y <= 9999 /\ 1 <= m <= 12 /\ 1 <= d <= 31.
Proof.
  unfold valid_date. rewrite !andb_true_iff, !Z.leb_le.
  intros [[[[[? ?] ?] ?] ?] Hd].
  assert (days_in_month y m <= 31).
  { unfold days_in_month. repeat case_match; lia. }
  lia.
Qed.

Lemma re_bind_single {A B} (r : re A) (k : A -> re B) s a rest :
  r s = [(a, rest)] -> re_bind r k s = k a rest.
Proof. intros H. unfold re_bind. rewrite H. simpl. apply app_nil_r. Qed.

Lemma re_char_here c rest : re_char c (String c rest) = [(digit_val c, rest)].
Proof. unfold re_char, re_class. by rewrite Ascii.eqb_refl. Qed.

(** The texts [strptime_date] turns into a date are exactly the accepted
    ones. *)
Theorem strptime_date_accepts s d :
  strptime_date s = Ok d <-> accepted_date_text s d.
Proof.
  split.
  - unfold strptime_date.
    destruct (head (format_regex s)) as [[[[y m] dd] rest]|] eqn:Hh; [|discriminate].
    destruct rest as [|? ?]; [|discriminate]. simpl.
    destruct (valid_date y m dd) eqn:Hv; [|discriminate]. intros [= <-].
    split; [exact Hv|]. simpl.
    apply head_Some_elem_of, list_elem_of_In in Hh. unfold format_regex in Hh.
    apply re_bind_In in Hh as (y' & s1 & HY & Hh). apply re_Y_In in HY as [_ ->].
    apply re_bind_In in Hh as (? & s2 & H1 & Hh). apply re_char_In in H1 as [-> _].
    apply re_bind_In in Hh as (m' & s3 & HM & Hh).
    apply re_m_In in HM as (_ & ms & Hms & ->).
    apply re_bind_In in Hh as (? & s4 & H2 & Hh). apply re_char_In in H2 as [-> _].
    apply re_bind_In in Hh as (d' & s5 & HD & Hh).
    apply re_d_In in HD as (_ & ds & Hds & ->).
    apply re_ret_In in Hh as [= <- <- <- <-].
    exists ms, ds. rewrite append_nil_r. done.
  - intros [Hv (ms & ds & Hms & Hds & ->)]. destruct d as [y m dd]. simpl in *.
    unfold date_ok in Hv. simpl in Hv.
    destruct (valid_date_bounds _ _ _ Hv) as (Hy & Hm & Hd).
    destruct (re_d_text dd ds Hd Hds) as [others Hre].
    unfold strptime_date, format_regex.
    rewrite (re_bind_single _ _ _ _ _ (re_Y_pad4 y _ ltac:(lia))).
    change ("-" +:+ ms +:+ "-" +:+ ds) with (String "-" (ms +:+ String "-" ds)).
    rewrite (re_bind_single _ _ _ _ _ (re_char_here _ _)).
    rewrite (re_m_text (fun m _ => re_bind re_d (fun d => re_ret (y, m, d)))
               m ms ds Hm Hms).
    unfold re_bind. rewrite Hre. simpl. by rewrite Hv.
Qed.

End StrptimeFacts.

(** ** Trimming *)

Module PyStrFacts.
Import PyStr.

Lemma append_cons c (s t : string) : String c s +:+ t = String c (s +:+ t).
Proof. reflexivity. Qed.

Lemma append_assoc (a b c : string) : (a +:+ b) +:+ c = a +:+ (b +:+ c).
Proof.
  induction a as [|x a IH]; [reflexivity|].
  by rewrite !append_cons, IH.
Qed.

Lemma rev_app_append (s acc : string) :
  String.rev_app s acc = String.rev s +:+ acc.
Proof.
  unfold String.rev. revert acc.
  induction s as [|c s IH]; intros acc; [reflexivity|]. simpl.
  rewrite (IH (String c acc)), (IH (String c EmptyString)).
  by rewrite append_assoc.
Qed.

Lemma rev_cons c (s : string) :
  String.rev (String c s) = String.rev s +:+ String c EmptyString.
Proof. unfold String.rev at 1. simpl. apply rev_app_append. Qed.

Lemma append_nonempty (a : string) c b : nonempty (a +:+ String c b) = true.
Proof. by destruct a. Qed.

Lemma lstrip_keeps_last (a : string) c :
  is_space c = false -> nonempty (lstrip (a +:+ String c EmptyString)) = true.
Proof.
  intros Hc. induction a as [|x a IH]; simpl.
  - change (EmptyString +:+ String c EmptyString) with (String c EmptyString).
    simpl. by rewrite Hc.
  - destruct (is_space x); [exact IH|reflexivity].
Qed.

Lemma rev_nonempty (s : string) : nonempty s = true -> nonempty (String.rev s) = true.
Proof. destruct s as [|c s]; [done|]. intros _. rewrite rev_cons. apply append_nonempty. Qed.

(** A text that starts with a character that is not white space does not
    trim to the empty text. *)
Lemma strip_nonempty c (s : string) :
  is_space c = false -> strip (String c s) <> EmptyString.
Proof.
  intros Hc. unfold strip, rstrip. simpl. rewrite Hc, rev_cons.
  intros H. pose proof (lstrip_keeps_last (String.rev s) c Hc) as Hl.
  apply rev_nonempty in Hl. by rewrite H in Hl.
Qed.

End PyStrFacts.

(** ** Validation of the fields on create and update *)

Lemma digit_char_not_space k : 0 <= k <= 9 -> PyStr.is_space (digit_char k) = false.
Proof.
  intros H. assert (Hk : In k (map (fun i => 0 + Z.of_nat i) (seq 0 10)))
    by (apply StrptimeFacts.range_In; lia).
  cbv in Hk. repeat (destruct Hk as [<-|Hk]); try reflexivity. destruct Hk.
Qed.

Lemma strptime_ok_date s d : Strptime.strptime_date s = Ok d -> date_ok d.
Proof. intros H. by apply StrptimeFacts.strptime_date_accepts in H as [H _]. Qed.

(** A text that parses as a date is not empty and not white space only. *)
Lemma strptime_ok_not_blank s d :
  Strptime.strptime_date s = Ok d -> PyStr.strip s <> EmptyString.
Proof.
  intros H. apply StrptimeFacts.strptime_date_accepts in H
    as [Hv (ms & ds & _ & _ & ->)].
  apply StrptimeFacts.valid_date_bounds in Hv as (Hy & _ & _).
  unfold pad4. rewrite PyStrFacts.append_cons.
  apply PyStrFacts.strip_nonempty, digit_char_not_space.
  Z.div_mod_to_equations; lia.
Qed.

Lemma pad2_month_text m : pad2 m ∈ month_texts m.
Proof.
  unfold month_texts. destruct (m <? 10); apply list_elem_of_In; simpl; auto.
Qed.

Lemma pad2_day_text d : pad2 d ∈ day_texts d.
Proof.
  unfold day_texts. destruct (d <? 10); apply list_elem_of_In; simpl; auto.
Qed.

(** The strict form [YYYY-MM-DD] of a valid date parses to that date. *)
Lemma strptime_isoformat d : date_ok d -> Strptime.strptime_date (isoformat d) = Ok d.
Proof.
  intros Hd. apply StrptimeFacts.strptime_date_accepts. split; [exact Hd|].
  exists (pad2 (month d)), (pad2 (day d)).
  split; [apply pad2_month_text|]. split; [apply pad2_day_text|reflexivity].
Qed.

Lemma isoformat_length d : String.length (isoformat d) = 10%nat.
Proof. reflexivity. Qed.

(** ** What the three mutating handlers keep *)

Lemma next_id_above t x : x ∈ map Confirmation.id t -> x < next_id t.
Proof.
  unfold next_id. destruct (largest_key _) as [m|] eqn:E.
  - intros H. apply (largest_key_above _ _ _ E) in H. lia.
  - destruct (map Confirmation.id t); [|discriminate].
    intros H. by apply elem_of_nil in H.
Qed.

Lemma replace_row_keys record_id r' t :
  Confirmation.id r' = record_id ->
  map Confirmation.id (replace_row record_id r' t) = map Confirmation.id t.
Proof.
  intros Hid. unfold replace_row. rewrite map_map. apply map_ext_in.
  intros x _. destruct (Z.eqb_spec (Confirmation.id x) record_id); congruence.
Qed.

Lemma remove_row_keys_unique record_id t :
  NoDup (map Confirmation.id t) -> NoDup (map Confirmation.id (remove_row record_id t)).
Proof.
  unfold remove_row. induction t as [|x t IH]; simpl; [done|].
  intros [Hx Hnd]%NoDup_cons. destruct (negb _); simpl; [|auto].
  apply NoDup_cons. split; [|auto].
  intros H. apply Hx. apply list_elem_of_In, in_map_iff in H as (y & Hy & Hin).
  apply filter_In in Hin as [Hin _]. rewrite <- Hy.
  apply list_elem_of_In, in_map, Hin.
Qed.

(** A request either leaves the world as it was or does the one change
    its handler is for. *)
Lemma create_cases now k a b c d e f g tok w :
  (run (create_confirmation now k a b c d e f g tok) w).2 = w
  \/ exists dob cd key,
       Strptime.strptime_date b = Ok dob /\ Strptime.strptime_date c = Ok cd
       /\ new_rowid k (confirmations (w_db w)) = Some key
       /\ (run (create_confirmation now k a b c d e f g tok) w).2
          = mkworld (w_session w)
              (mkdb (users (w_db w))
                 (confirmations (w_db w)
                  ++ [created_record now key a dob cd d e f g])).
Proof.
  destruct (authenticated (w_session w)) eqn:Ha;
    [|left; by rewrite create_unauthenticated].
  destruct (csrf_ok (w_session w) tok) eqn:Hc;
    [|left; by rewrite create_csrf_fail].
  rewrite create_eq by done.
  destruct (Strptime.strptime_date b) as [dob|]; [|by left].
  destruct (Strptime.strptime_date c) as [cd|]; [|by left].
  destruct (new_rowid k (confirmations (w_db w))) as [key|] eqn:E; [|by left].
  right. by exists dob, cd, key.
Qed.

Lemma update_cases now record_id a b c d e f g tok w :
  (run (update_confirmation now record_id a b c d e f g tok) w).2 = w
  \/ exists r dob cd,
       find_record record_id (confirmations (w_db w)) = Some r
       /\ Strptime.strptime_date b = Ok dob /\ Strptime.strptime_date c = Ok cd
       /\ (run (update_confirmation now record_id a b c d e f g tok) w).2
          = mkworld (w_session w)
              (mkdb (users (w_db w))
                 (replace_row record_id (updated_record r a dob cd d e f g)
                    (confirmations (w_db w)))).
Proof.
  destruct (authenticated (w_session w)) eqn:Ha;
    [|left; by rewrite update_unauthenticated].
  destruct (csrf_ok (w_session w) tok) eqn:Hc;
    [|left; by rewrite update_csrf_fail].
  rewrite update_eq by done.
  destruct (find_record _ _) as [r|]; [|by left].
  destruct (Strptime.strptime_date b) as [dob|]; [|by left].
  destruct (Strptime.strptime_date c) as [cd|]; [|by left].
  right. by exists r, dob, cd.
Qed.

Lemma delete_cases now record_id tok w :
  (run (delete_confirmation now record_id tok) w).2 = w
  \/ (run (delete_confirmation now record_id tok) w).2
     = mkworld (w_session w)
         (mkdb (users (w_db w)) (remove_row record_id (confirmations (w_db w)))).
Proof.
  destruct (authenticated (w_session w)) eqn:Ha;
    [|left; by rewrite delete_unauthenticated].
  destruct (csrf_ok (w_session w) tok) eqn:Hc;
    [|left; by rewrite delete_csrf_fail].
  rewrite delete_eq by done.
  destruct (find_record _ _) as [r|]; [by right|by left].
Qed.

Lemma create_keeps_store_ok now k a b c d e f g tok w :
  store_ok (confirmations (w_db w)) ->
  store_ok (confirmations (w_db (run (create_confirmation now k a b c d e f g tok) w).2)).
Proof.
  intros [Hnd Hd].
  destruct (create_cases now k a b c d e f g tok w)
    as [->|(dob & cd & key & Hb & Hc & Hk & ->)]; [done|]. simpl. split.
  - rewrite map_app. simpl. apply NoDup_app. split; [done|]. split.
    + intros x Hx [->|H]%elem_of_cons; [|by apply elem_of_nil in H].
      by apply new_rowid_fresh in Hk.
    + apply NoDup_singleton.
  - apply Forall_app. split; [done|]. apply Forall_singleton.
    split; simpl; eauto using strptime_ok_date.
Qed.

Lemma update_keeps_store_ok now record_id a b c d e f g tok w :
  store_ok (confirmations (w_db w)) ->
  store_ok (confirmations
              (w_db (run (update_confirmation now record_id a b c d e f g tok) w).2)).
Proof.
  intros [Hnd Hd].
  destruct (update_cases now record_id a b c d e f g tok w)
    as [->|(r & dob & cd & Hf & Hb & Hc & ->)]; [done|]. simpl.
  pose proof (find_record_id _ _ _ Hf) as Hid. split.
  - by rewrite replace_row_keys.
  - unfold replace_row. rewrite Forall_forall in Hd. apply Forall_forall.
    intros x (y & <- & Hy)%list_elem_of_In%in_map_iff.
    destruct (Confirmation.id y =? record_id).
    + split; simpl; eauto using strptime_ok_date.
    + by apply Hd, list_elem_of_In.
Qed.

Lemma delete_keeps_store_ok now record_id tok w :
  store_ok (confirmations (w_db w)) ->
  store_ok (confirmations (w_db (run (delete_confirmation now record_id tok) w).2)).
Proof.
  intros [Hnd Hd].
  destruct (delete_cases now record_id tok w) as [->| ->]; [done|]. simpl. split.
  - by apply remove_row_keys_unique.
  - unfold remove_row. rewrite Forall_forall in Hd. apply Forall_forall.
    intros x [Hx _]%list_elem_of_In%filter_In. by apply Hd, list_elem_of_In.
Qed.







(** ** LIKE and substrings *)

Module LikeFacts.
Import Sql.

Lemma lower_char_idem c : lower_char (lower_char c) = lower_char c.
Proof. destruct c as [[] [] [] [] [] [] [] []]; reflexivity. Qed.

Lemma lower_char_percent c : Ascii.eqb (lower_char c) "%" = Ascii.eqb c "%".
Proof. destruct c as [[] [] [] [] [] [] [] []]; reflexivity. Qed.

Lemma lower_char_underscore c : Ascii.eqb (lower_char c) "_" = Ascii.eqb c "_".
Proof. destruct c as [[] [] [] [] [] [] [] []]; reflexivity. Qed.

Lemma lower_append (a b : string) : lower (a +:+ b) = lower a +:+ lower b.
Proof.
  induction a as [|c a IH]; [reflexivity|].
  rewrite PyStrFacts.append_cons. simpl. by rewrite IH.
Qed.

Lemma no_wildcard_lower q : no_wildcard (lower q) = no_wildcard q.
Proof.
  induction q as [|c q IH]; [reflexivity|]. simpl.
  by rewrite lower_char_percent, lower_char_underscore, IH.
Qed.

(** A leading [%] lets the rest of the pattern start anywhere. *)
Lemma like_percent p s : pattern_compare (String "%" p) s = any_suffix (pattern_compare p) s.
Proof.
  induction s as [|c s IH]; [reflexivity|].
  simpl in *. by rewrite IH.
Qed.

Lemma like_percent_only s : pattern_compare "%" s = true.
Proof.
  rewrite like_percent. induction s as [|c s IH]; [reflexivity|].
  simpl in *. by rewrite IH.
Qed.

(** A pattern without wildcards followed by [%] is a prefix test. *)
Lemma like_prefix p s :
  no_wildcard p = true -> pattern_compare (p +:+ "%") s = prefix_ci p s.
Proof.
  revert s. induction p as [|c p IH]; intros s Hp.
  - apply like_percent_only.
  - simpl in Hp. apply andb_true_iff in Hp as [Hc Hp].
    apply andb_true_iff in Hc as [H1%negb_true_iff H2%negb_true_iff].
    rewrite PyStrFacts.append_cons. simpl. rewrite H1.
    destruct s as [|c' s]; [reflexivity|]. rewrite H2. simpl. by rewrite IH.
Qed.

Lemma any_suffix_ext f g s :
  (forall t, f t = g t) -> any_suffix f s = any_suffix g s.
Proof.
  intros H. induction s as [|c s IH]; simpl; [by rewrite H|].
  by rewrite H, IH.
Qed.

Lemma prefix_ci_lower q s : prefix_ci (lower q) (lower s) = prefix_ci q s.
Proof.
  revert s. induction q as [|c q IH]; intros s; [reflexivity|].
  destruct s as [|c' s]; [reflexivity|]. simpl.
  by rewrite !lower_char_idem, IH.
Qed.

Lemma contains_ci_lower q s :
  any_suffix (prefix_ci (lower q)) (lower s) = contains_ci q s.
Proof.
  unfold contains_ci. induction s as [|c s IH].
  - simpl. f_equal. exact (prefix_ci_lower q EmptyString).
  - change (lower (String c s)) with (String (lower_char c) (lower s)).
    simpl any_suffix. rewrite IH.
    change (String (lower_char c) (lower s)) with (lower (String c s)).
    by rewrite prefix_ci_lower.
Qed.

(** For a text free of wildcards, the comparison with the pattern [%q%]
    is the case-insensitive substring test. *)
Lemma compare_contains q column :
  no_wildcard q = true ->
  pattern_compare (lower ("%" +:+ q +:+ "%")) (lower column) = contains_ci q column.
Proof.
  intros Hq.
  change ("%" +:+ q +:+ "%") with (String "%" (q +:+ "%")).
  change (lower (String "%" (q +:+ "%"))) with (String "%" (lower (q +:+ "%"))).
  rewrite like_percent, lower_append.
  change (lower "%") with "%".
  rewrite (any_suffix_ext _ (prefix_ci (lower q)))
    by (intros t; apply like_prefix; by rewrite no_wildcard_lower).
  apply contains_ci_lower.
Qed.

(** Texts up to their first NUL. *)
Lemma lower_char_nul c : Ascii.eqb (lower_char c) "000" = Ascii.eqb c "000".
Proof. destruct c as [[] [] [] [] [] [] [] []]; reflexivity. Qed.

Lemma until_nul_lower s : until_nul (lower s) = lower (until_nul s).
Proof.
  induction s as [|c s IH]; [reflexivity|]. simpl.
  rewrite lower_char_nul. destruct (Ascii.eqb c "000"); [reflexivity|].
  simpl. by rewrite IH.
Qed.

Lemma until_nul_id s : Bcrypt.has_nul s = false -> until_nul s = s.
Proof.
  induction s as [|c s IH]; [reflexivity|]. simpl.
  intros [-> Hs]%orb_false_iff. by rewrite IH.
Qed.

Lemma until_nul_pattern q :
  Bcrypt.has_nul q = false -> until_nul ("%" +:+ q +:+ "%") = "%" +:+ q +:+ "%".
Proof.
  intros Hq. apply until_nul_id.
  change ("%" +:+ q +:+ "%") with (String "%" (q +:+ "%")). simpl.
  by rewrite BcryptFacts.has_nul_append, Hq.
Qed.

(** The length of a pattern in bytes does not depend on its case. *)
Lemma lower_char_ascii c :
  (N_of_ascii (lower_char c) <? 128)%N = (N_of_ascii c <? 128)%N.
Proof. destruct c as [[] [] [] [] [] [] [] []]; reflexivity. Qed.

Lemma encode_lower_length s :
  String.length (encode_utf8 (lower s)) = String.length (encode_utf8 s).
Proof.
  induction s as [|c s IH]; [reflexivity|]. simpl.
  rewrite lower_char_ascii. destruct (N_of_ascii c <? 128)%N; simpl; by rewrite IH.
Qed.

Lemma pattern_too_long_lower p : pattern_too_long (lower p) = pattern_too_long p.
Proof. unfold pattern_too_long. by rewrite encode_lower_length. Qed.

(** A WHERE clause whose test never fails is a filter; one whose test
    always fails ends the query on the first row. *)
Lemma where_ok (p : Confirmation.t -> result bool) (f : Confirmation.t -> bool) l :
  (forall r, p r = Ok (f r)) -> where_ p l = Ok (List.filter f l).
Proof.
  intros H. induction l as [|r l IH]; [reflexivity|]. simpl.
  by rewrite H, IH.
Qed.

Lemma where_raise (p : Confirmation.t -> result bool) e r l :
  (forall r, p r = Raise e) -> where_ p (r :: l) = Raise e.
Proof. intros H. simpl. by rewrite H. Qed.

(** What the two tests mean. *)
Lemma prefix_ci_spec q s :
  prefix_ci q s = true <-> exists mid post, s = mid +:+ post /\ lower mid = lower q.
Proof.
  revert s. induction q as [|c q IH]; intros s.
  - split; [intros _; by exists EmptyString, s|done].
  - destruct s as [|c' s].
    + split; [discriminate|]. intros (mid & post & H & Hm).
      destruct mid; [discriminate|discriminate].
    + simpl. rewrite andb_true_iff, Ascii.eqb_eq, IH. split.
      * intros [Hc (mid & post & -> & Hm)]. exists (String c' mid), post.
        split; [reflexivity|]. simpl. by rewrite Hm, Hc.
      * intros (mid & post & H & Hm). destruct mid as [|x mid]; [discriminate|].
        rewrite PyStrFacts.append_cons in H. injection H as -> ->.
        simpl in Hm. injection Hm as Hc Hm. split; [done|]. by exists mid, post.
Qed.

Lemma any_suffix_spec f s :
  any_suffix f s = true <-> exists pre t, s = pre +:+ t /\ f t = true.
Proof.
  induction s as [|c s IH]; simpl.
  - rewrite orb_false_r. split; [intros H; by exists EmptyString, EmptyString|].
    intros (pre & t & H & Hf). destruct pre; [|discriminate].
    change (EmptyString +:+ t) with t in H. by subst.
  - rewrite orb_true_iff, IH. split.
    + intros [H|(pre & t & -> & H)]; [by exists EmptyString, (String c s)|].
      by exists (String c pre), t.
    + intros (pre & t & H & Hf). destruct pre as [|x pre].
      * change (EmptyString +:+ t) with t in H. subst. by left.
      * rewrite PyStrFacts.append_cons in H. injection H as -> ->. right. eauto.
Qed.

Lemma contains_ci_spec q s :
  contains_ci q s = true <->
  exists pre mid post, s = pre +:+ mid +:+ post /\ lower mid = lower q.
Proof.
  unfold contains_ci. rewrite any_suffix_spec. split.
  - intros (pre & t & -> & (mid & post & -> & H)%prefix_ci_spec). eauto.
  - intros (pre & mid & post & -> & H). exists pre, (mid +:+ post).
    split; [done|]. apply prefix_ci_spec. eauto.
Qed.

End LikeFacts.

(** ** Search *)

Lemma date_leb_total a b : date_leb a b = true \/ date_leb b a = true.
Proof.
  unfold date_leb.
  rewrite !orb_true_iff, !andb_true_iff, !orb_true_iff, !andb_true_iff,
    !Z.ltb_lt, !Z.eqb_eq, !Z.leb_le. lia.
Qed.

Lemma date_leb_trans a b c :
  date_leb a b = true -> date_leb b c = true -> date_leb a c = true.
Proof.
  unfold date_leb.
  rewrite !orb_true_iff, !andb_true_iff, !orb_true_iff, !andb_true_iff,
    !Z.ltb_lt, !Z.eqb_eq, !Z.leb_le. lia.
Qed.

Global Instance confirmation_date_desc_total : Total Sql.confirmation_date_desc.
Proof.
  intros a b. unfold Sql.confirmation_date_desc. rewrite !Is_true_true.
  destruct (date_leb_total (Confirmation.confirmation_date a)
              (Confirmation.confirmation_date b)); auto.
Qed.

Global Instance confirmation_date_desc_trans : Transitive Sql.confirmation_date_desc.
Proof.
  intros a b c. unfold Sql.confirmation_date_desc. rewrite !Is_true_true.
  intros H1 H2. eapply date_leb_trans; eauto.
Qed.

Global Instance id_asc_total : Total Sql.id_asc.
Proof. intros a b. unfold Sql.id_asc. lia. Qed.

Global Instance id_asc_trans : Transitive Sql.id_asc.
Proof. intros a b c. unfold Sql.id_asc. lia. Qed.

Lemma filter_Permutation {A} (p : A -> bool) (l l' : list A) :
  l ≡ₚ l' -> List.filter p l ≡ₚ List.filter p l'.
Proof.
  induction 1 as [|x l l' _ IH|x y l|l l' l'' _ IH1 _ IH2]; simpl.
  - done.
  - destruct (p x); [by constructor|done].
  - destruct (p x), (p y); try done. apply perm_swap.
  - by etrans.
Qed.

Lemma filter_all {A} (l : list A) : List.filter (fun _ => true) l = l.
Proof. induction l as [|x l IH]; simpl; [done|by rewrite IH]. Qed.

(** The rows a query hands back: those of the table that pass the filter,
    each once, sorted by the key. *)
Lemma query_result (e : Sql.engine) (p : Confirmation.t -> bool)
    (R : relation Confirmation.t) `{!RelDecision R} `{!Total R} `{!Transitive R}
    (t : list Confirmation.t) :
  let records := merge_sort R (List.filter p (Sql.scan e t)) in
  records ≡ₚ List.filter p t /\ StronglySorted R records.
Proof.
  intros records. split.
  - subst records. rewrite merge_sort_Permutation.
    apply filter_Permutation, Sql.scan_perm.
  - apply StronglySorted_merge_sort; apply _.
Qed.

Lemma lower_search_pattern q :
  Sql.lower (search_pattern q) = "%" +:+ Sql.lower (PyStr.strip q) +:+ "%".
Proof.
  unfold search_pattern.
  change ("%" +:+ PyStr.strip q +:+ "%") with (String "%" (PyStr.strip q +:+ "%")).
  change (Sql.lower (String "%" (PyStr.strip q +:+ "%")))
    with (String "%" (Sql.lower (PyStr.strip q +:+ "%"))).
  by rewrite LikeFacts.lower_append.
Qed.

(** The test of the search on one row: it fails when the pattern is too
    long, and otherwise tells whether one of the four texts matches. *)
Lemma matches_term_eq term r :
  matches_term term r =
  if Sql.pattern_too_long term then Raise Sql.pattern_error
  else Ok (record_matches term r).
Proof.
  unfold matches_term, record_matches, Sql.ilike, Sql.like, searched_texts.
  cbn [existsb]. rewrite LikeFacts.pattern_too_long_lower.
  destruct (Sql.pattern_too_long term); [reflexivity|].
  repeat (destruct (Sql.pattern_compare _ _); simpl; try reflexivity).
Qed.

Lemma nonempty_false s : PyStr.nonempty s = false <-> s = EmptyString.
Proof. destruct s; simpl; split; congruence. Qed.

Lemma scan_nil (e : Sql.engine) : Sql.scan e [] = [].
Proof. apply Permutation_nil_r, Sql.scan_perm. Qed.

Lemma scan_cons (e : Sql.engine) r t : exists r' t', Sql.scan e (r :: t) = r' :: t'.
Proof.
  destruct (Sql.scan e (r :: t)) as [|r' t'] eqn:E; [|eauto].
  pose proof (Sql.scan_perm e (r :: t)) as H. rewrite E in H.
  by apply Permutation_nil_l in H.
Qed.

(** The rows the query of the list hands back, or its failure. *)
Lemma list_rows (e : Sql.engine) q t :
  Sql.where_ (list_filter q) (Sql.scan e t) =
  if search_fails q t then Raise Sql.pattern_error
  else Ok (List.filter (list_match q) (Sql.scan e t)).
Proof.
  unfold list_filter, list_match, search_fails.
  destruct (PyStr.nonempty (PyStr.strip q)); simpl;
    [|by apply LikeFacts.where_ok].
  fold (search_pattern q).
  destruct (Sql.pattern_too_long (search_pattern q)) eqn:El; simpl.
  - destruct t as [|r t]; [by rewrite scan_nil|].
    destruct (scan_cons e r t) as (r' & t' & ->).
    apply LikeFacts.where_raise. intros x. by rewrite matches_term_eq, El.
  - apply LikeFacts.where_ok. intros x. by rewrite matches_term_eq, El.
Qed.

Lemma list_eq (e : Sql.engine) q token w :
  authenticated (w_session w) = true ->
  run (list_confirmations e q token) w =
  if search_fails q (confirmations (w_db w)) then (Raise Sql.pattern_error, w)
  else
    (Ok (TemplateResponse "confirmations_list.html"
           [("records",
             TRecords (merge_sort Sql.confirmation_date_desc
                         (List.filter (list_match q)
                            (Sql.scan e (confirmations (w_db w))))));
            ("q", TStr q); ("csrf_token", TStr token)] 200),
     mkworld (<["csrf_token" := VStr token]> (w_session w)) (w_db w)).
Proof.
  intros Hauth. unfold run, list_confirmations. step_guards. rewrite Hauth.
  step_guards. unfold db_query_all. simpl. rewrite list_rows.
  destruct (search_fails q _); simpl; [by destruct w|reflexivity].
Qed.

(** Without wildcards and NUL in the query, a record matches the pattern
    of the search exactly when one of its four texts holds the query
    before its first NUL, up to ASCII case. *)
Lemma record_matches_contains q r :
  no_wildcard q = true -> no_nul q = true ->
  record_matches ("%" +:+ q +:+ "%") r = record_contains q r.
Proof.
  intros Hq Hn. unfold no_nul in Hn. apply negb_true_iff in Hn.
  unfold record_matches, record_contains.
  assert (H : forall text,
             Sql.pattern_compare (Sql.until_nul (Sql.lower ("%" +:+ q +:+ "%")))
                                 (Sql.until_nul (Sql.lower text))
             = contains_ci q (Sql.until_nul text)).
  { intros text. rewrite !LikeFacts.until_nul_lower.
    rewrite LikeFacts.until_nul_pattern by done.
    by apply LikeFacts.compare_contains. }
  unfold searched_texts. cbn [existsb]. by rewrite !H.
Qed.

(** The query text is a LIKE pattern, and ties are in the engine's hand:
    the query [J_ne] finds "Jane Doe", none of whose four texts holds
    [J_ne]; the query [ mary ] finds "St. Mary", which does not hold the
    query with its spaces; the query that is one NUL character finds every
    record, though no text holds a NUL; and with an engine that walks the
    rows backwards two records confirmed on the same day come out last
    inserted first. *)
Lemma C5_counterexample :
  ((run (list_confirmations table_scan "J_ne" "t") Sample.w).1
   = Ok (TemplateResponse "confirmations_list.html"
           [("records", TRecords [Sample.jane]); ("q", TStr "J_ne");
            ("csrf_token", TStr "t")] 200)
   /\ record_contains "J_ne" Sample.jane = false)
  /\ ((run (list_confirmations table_scan " mary " "t") Sample.w).1
      = Ok (TemplateResponse "confirmations_list.html"
              [("records", TRecords [Sample.jane]); ("q", TStr " mary ");
               ("csrf_token", TStr "t")] 200)
      /\ record_contains " mary " Sample.jane = false)
  /\ ((run (list_confirmations table_scan (String "000" EmptyString) "t") Sample.w).1
      = Ok (TemplateResponse "confirmations_list.html"
              [("records", TRecords [Sample.jane; Sample.paul]);
               ("q", TStr (String "000" EmptyString)); ("csrf_token", TStr "t")] 200)
      /\ record_contains (String "000" EmptyString) Sample.jane = false
      /\ record_contains (String "000" EmptyString) Sample.paul = false)
  /\ ((run (list_confirmations reverse_scan EmptyString "t") Sample.w).1
      = Ok (TemplateResponse "confirmations_list.html"
              [("records", TRecords [Sample.paul; Sample.jane]);
               ("q", TStr EmptyString); ("csrf_token", TStr "t")] 200)
      /\ confirmations (w_db Sample.w) = [Sample.jane; Sample.paul]
      /\ Confirmation.confirmation_date Sample.jane
         = Confirmation.confirmation_date Sample.paul).
Proof. repeat split; reflexivity. Qed.

(** C5 (amended): the search trims the query.  When the trimmed query is
    empty the result holds every stored record.  Otherwise the pattern is
    [%], the trimmed query and [%]; it is compared, up to ASCII case and
    each text read up to its first NUL character, with four texts of each
    record -- [full_name], [church_name], [priest_name], the confirmation
    date as [YYYY-MM-DD] -- and the result holds exactly the records one of
    whose texts matches.  A pattern of more than 50000 bytes is refused by
    the engine once there is a row to try it on: the request then fails
    with [OperationalError] and changes nothing.  For a trimmed query
    without the wildcards [%] and [_] and without NUL the records found are
    exactly those one of whose four texts, read up to its first NUL, holds
    the trimmed query as a substring up to ASCII case.  The result is
    ordered by confirmation date, latest first; the order among records of
    one date is the engine's. *)
Theorem C5_search_is_a_like_pattern
    (e : Sql.engine) (w : world) (q token : string) :
  authenticated (w_session w) = true ->
  let table := confirmations (w_db w) in
  let list := run (list_confirmations e q token) w in
  let shown records :=
    (Ok (TemplateResponse "confirmations_list.html"
           [("records", TRecords records); ("q", TStr q);
            ("csrf_token", TStr token)] 200),
     mkworld (<["csrf_token" := VStr token]> (w_session w)) (w_db w)) in
  (PyStr.strip q = EmptyString ->
   exists records,
     list = shown records /\ records ≡ₚ table
     /\ StronglySorted Sql.confirmation_date_desc records)
  /\ (PyStr.strip q <> EmptyString -> table <> [] ->
      Sql.pattern_too_long ("%" +:+ PyStr.strip q +:+ "%") = true ->
      list = (Raise (Error "OperationalError" "LIKE or GLOB pattern too complex"), w))
  /\ (PyStr.strip q <> EmptyString ->
      table = [] \/ Sql.pattern_too_long ("%" +:+ PyStr.strip q +:+ "%") = false ->
      exists records,
        list = shown records
        /\ records ≡ₚ List.filter (record_matches ("%" +:+ PyStr.strip q +:+ "%")) table
        /\ StronglySorted Sql.confirmation_date_desc records
        /\ (no_wildcard (PyStr.strip q) = true -> no_nul (PyStr.strip q) = true ->
            forall r, r ∈ records <->
                      r ∈ table /\ record_contains (PyStr.strip q) r = true)).
Proof.
  intros Hauth table list shown. subst table list shown. cbv beta.
  rewrite list_eq by done.
  pose proof (query_result e (list_match q) Sql.confirmation_date_desc
                (confirmations (w_db w))) as [Hperm Hsorted].
  unfold search_fails, list_match in *. fold (search_pattern q).
  split; [|split].
  - intros Hq. rewrite Hq in *. simpl in *. eexists. split; [reflexivity|].
    split; [|exact Hsorted]. by rewrite Hperm, filter_all.
  - intros Hq Ht Hl.
    destruct (PyStr.nonempty (PyStr.strip q)) eqn:E; [|by apply nonempty_false in E].
    rewrite Hl. by destruct (confirmations (w_db w)).
  - intros Hq Hl.
    destruct (PyStr.nonempty (PyStr.strip q)) eqn:E; [|by apply nonempty_false in E].
    assert (Hok : Sql.pattern_too_long (search_pattern q)
                  && match confirmations (w_db w) with [] => false | _ :: _ => true end
                  = false).
    { destruct Hl as [-> | ->]; [apply andb_false_r|reflexivity]. }
    simpl. rewrite Hok. eexists. split; [reflexivity|].
    split; [exact Hperm|]. split; [exact Hsorted|].
    intros Hw Hn r. rewrite Hperm.
    rewrite list_elem_of_In, filter_In, <- list_elem_of_In.
    unfold search_pattern. by rewrite record_matches_contains.
Qed.

Lemma C5_witness :
  authenticated (w_session Sample.w) = true
  /\ PyStr.strip " MARY " <> EmptyString
  /\ Sql.pattern_too_long ("%" +:+ PyStr.strip " MARY " +:+ "%") = false
  /\ exists records,
       (run (list_confirmations reverse_scan " MARY " "t") Sample.w).1
       = Ok (TemplateResponse "confirmations_list.html"
               [("records", TRecords records); ("q", TStr " MARY ");
                ("csrf_token", TStr "t")] 200)
       /\ (forall r, r ∈ records <->
                     r ∈ confirmations (w_db Sample.w)
                     /\ record_contains "MARY" r = true).
Proof.
  assert (Ha : authenticated (w_session Sample.w) = true) by reflexivity.
  assert (Hq : PyStr.strip " MARY " <> EmptyString) by (vm_compute; discriminate).
  split; [exact Ha|]. split; [exact Hq|]. split; [reflexivity|].
  destruct (proj2 (proj2 (C5_search_is_a_like_pattern reverse_scan Sample.w
                            " MARY " "t" Ha)) Hq (or_intror eq_refl))
    as (records & Hrun & _ & _ & Hin).
  exists records. split; [by rewrite Hrun|].
  apply Hin; reflexivity.
Defined.

(** ** CSV export *)

Lemma write_loop (records : list Confirmation.t) (out : string) :
  fold_left (fun out record => out +:+ Csv.writerow (csv_row record)) records out
  = out +:+ csv_lines (map csv_row records).
Proof.
  revert out. induction records as [|r records IH]; intros out; simpl.
  - by rewrite StrptimeFacts.append_nil_r.
  - by rewrite IH, PyStrFacts.append_assoc.
Qed.

Lemma export_eq (e : Sql.engine) w :
  authenticated (w_session w) = true ->
  run (export_csv e) w =
  (Ok (StreamingResponse
         (csv_lines (csv_header
                     :: map csv_row (merge_sort Sql.id_asc
                                       (Sql.scan e (confirmations (w_db w))))))
         "text/csv"
         [("Content-Disposition",
           "attachment; filename=" +:+ String Csv.dquote
             ("confirmations_export.csv" +:+ String Csv.dquote EmptyString))]),
   w).
Proof.
  intros Hauth. unfold run, export_csv. step_guards. rewrite Hauth. step_guards.
  unfold db_query_all. simpl.
  rewrite (LikeFacts.where_ok _ (fun _ => true)) by done.
  rewrite filter_all, write_loop. by destruct w.
Qed.

Lemma key_determines_row (l : list Confirmation.t) x y :
  NoDup (map Confirmation.id l) -> x ∈ l -> y ∈ l ->
  Confirmation.id x = Confirmation.id y -> x = y.
Proof.
  induction l as [|z l IH]; intros Hnd Hx Hy Hid; [by apply elem_of_nil in Hx|].
  simpl in Hnd. apply NoDup_cons in Hnd as [Hz Hnd].
  apply elem_of_cons in Hx as [->|Hx], Hy as [->|Hy]; auto.
  - destruct Hz. rewrite Hid. by apply list_elem_of_fmap_2.
  - destruct Hz. rewrite <- Hid. by apply list_elem_of_fmap_2.
Qed.

(** With unique keys there is one way to put the rows in key order. *)
Lemma key_order_unique (l1 l2 : list Confirmation.t) :
  NoDup (map Confirmation.id l1) -> l1 ≡ₚ l2 ->
  StronglySorted Sql.id_asc l1 -> StronglySorted Sql.id_asc l2 -> l1 = l2.
Proof.
  revert l2. induction l1 as [|x l1 IH]; intros l2 Hnd Hp H1 H2.
  - by apply Permutation_nil_l in Hp.
  - destruct l2 as [|y l2]; [by apply Permutation_nil_r in Hp|].
    apply StronglySorted_inv in H1 as [H1 Hx], H2 as [H2 Hy].
    assert (Hxy : x = y).
    { assert (Hx2 : x ∈ y :: l2) by (rewrite <- Hp; left).
      assert (Hy1 : y ∈ x :: l1) by (rewrite Hp; left).
      apply (key_determines_row (x :: l1)); [done|left|done|].
      apply elem_of_cons in Hx2 as [->|Hx2]; [done|].
      apply elem_of_cons in Hy1 as [->|Hy1]; [done|].
      rewrite Forall_forall in Hx, Hy.
      pose proof (Hx _ Hy1). pose proof (Hy _ Hx2). unfold Sql.id_asc in *. lia. }
    subst y. f_equal. simpl in Hnd. apply NoDup_cons in Hnd as [_ Hnd].
    apply IH; [done| |done|done]. by apply Permutation_cons_inv in Hp.
Qed.

(** C8: the CSV export is the header row [ID, Full Name, Date of Birth,
    Confirmation Date, Church Name, Priest Name, Sponsor Name, Remarks,
    Created At] followed by one row for each stored record -- its key, its
    name, its two dates in ISO form, church, priest, sponsor and remarks
    (empty when absent) and its creation time -- the records taken in
    ascending order of their key.  The keys being unique, the file does not
    depend on how the engine visits the rows: the export is deterministic.
    Exporting changes nothing. *)
Theorem C8_csv_export (e : Sql.engine) (w : world) :
  authenticated (w_session w) = true ->
  let row (r : Confirmation.t) : list string :=
    [str_int (Confirmation.id r);
     Confirmation.full_name r;
     isoformat (Confirmation.date_of_birth r);
     isoformat (Confirmation.confirmation_date r);
     Confirmation.church_name r;
     Confirmation.priest_name r;
     default EmptyString (Confirmation.sponsor_name r);
     default EmptyString (Confirmation.remarks r);
     str_datetime (Confirmation.created_at r)] in
  let header : list string :=
    ["ID"; "Full Name"; "Date of Birth"; "Confirmation Date"; "Church Name";
     "Priest Name"; "Sponsor Name"; "Remarks"; "Created At"] in
  exists records,
    run (export_csv e) w
    = (Ok (StreamingResponse
             (Csv.writerow header
              +:+ fold_right (fun r text => Csv.writerow (row r) +:+ text)
                    EmptyString records)
             "text/csv"
             [("Content-Disposition",
               "attachment; filename=" +:+ String Csv.dquote
                 ("confirmations_export.csv" +:+ String Csv.dquote EmptyString))]),
       w)
    /\ Csv.writerow header
       = "ID,Full Name,Date of Birth,Confirmation Date,Church Name,Priest Name,Sponsor Name,Remarks,Created At"
         +:+ String Csv.CR (String Csv.LF EmptyString)
    /\ records ≡ₚ confirmations (w_db w)
    /\ length records = length (confirmations (w_db w))
    /\ StronglySorted Sql.id_asc records
    /\ (NoDup (map Confirmation.id (confirmations (w_db w))) ->
        forall e', run (export_csv e') w = run (export_csv e) w).
Proof.
  intros Hauth row header. subst row header.
  exists (merge_sort Sql.id_asc (Sql.scan e (confirmations (w_db w)))).
  rewrite export_eq by done. split.
  { unfold csv_lines. cbn [fold_right]. do 4 f_equal.
    generalize (merge_sort Sql.id_asc (Sql.scan e (confirmations (w_db w)))).
    intros l. induction l as [|r l IH]; [reflexivity|]. cbn [map fold_right].
    by rewrite IH. }
  split; [reflexivity|].
  assert (Hq : forall e0 : Sql.engine,
             merge_sort Sql.id_asc (Sql.scan e0 (confirmations (w_db w)))
               ≡ₚ confirmations (w_db w)
             /\ StronglySorted Sql.id_asc
                  (merge_sort Sql.id_asc (Sql.scan e0 (confirmations (w_db w))))).
  { intros e0. split.
    - by rewrite merge_sort_Permutation, Sql.scan_perm.
    - apply StronglySorted_merge_sort; apply _. }
  destruct (Hq e) as [Hperm Hsorted].
  split; [exact Hperm|]. split; [by rewrite Hperm|].
  split; [exact Hsorted|].
  intros Hnd e'. rewrite !export_eq by done.
  destruct (Hq e') as [Hperm' Hsorted'].
  assert (Hnd' : NoDup (map Confirmation.id
                          (merge_sort Sql.id_asc (Sql.scan e' (confirmations (w_db w)))))).
  { pose proof (Permutation_map Confirmation.id Hperm') as Hm. by rewrite Hm. }
  rewrite (key_order_unique _ _ Hnd' (transitivity Hperm' (symmetry Hperm))
             Hsorted' Hsorted).
  reflexivity.
Qed.

Lemma C8_witness :
  authenticated (w_session Sample.w) = true
  /\ NoDup (map Confirmation.id (confirmations (w_db Sample.w)))
  /\ run (export_csv reverse_scan) Sample.w
     = (Ok (StreamingResponse
              ("ID,Full Name,Date of Birth,Confirmation Date,Church Name,Priest Name,Sponsor Name,Remarks,Created At"
               +:+ String Csv.CR (String Csv.LF
              ("1,Jane Doe,2010-01-01,2023-05-01,St. Mary,Fr. John,,,2023-05-02 08:00:00"
               +:+ String Csv.CR (String Csv.LF
              ("2,Paul Roe,2011-03-09,2023-05-01,St. Luke,Fr. Adam,Ann Roe,,2023-05-03 08:00:00"
               +:+ String Csv.CR (String Csv.LF EmptyString))))))
              "text/csv"
              [("Content-Disposition",
                "attachment; filename=" +:+ String Csv.dquote
                  ("confirmations_export.csv" +:+ String Csv.dquote EmptyString))]),
        Sample.w).
Proof.
  assert (Ha : authenticated (w_session Sample.w) = true) by reflexivity.
  assert (Hnd : NoDup (map Confirmation.id (confirmations (w_db Sample.w))))
    by (apply (bool_decide_unpack _); by vm_compute).
  split; [exact Ha|]. split; [exact Hnd|].
  destruct (C8_csv_export table_scan Sample.w Ha) as (records & _ & _ & _ & _ & _ & Hdet).
  rewrite (Hdet Hnd reverse_scan). reflexivity.
Defined.

(** ** Password hashes *)

Lemma append_inj_length (a a' b b' : string) :
  a +:+ b = a' +:+ b' -> String.length a = String.length a' -> a = a' /\ b = b'.
Proof.
  revert a'. induction a as [|c a IH]; intros [|c' a'] H Hl; try discriminate.
  - done.
  - rewrite !PyStrFacts.append_cons in H. injection H as -> H.
    injection Hl as Hl. destruct (IH _ H Hl) as [-> ->]. done.
Qed.

Lemma hash_text_inj rnd rnd' d d' :
  Bcrypt.salt_ok rnd = true -> Bcrypt.salt_ok rnd' = true ->
  Bcrypt.hash_text "2b" 12 rnd d = Bcrypt.hash_text "2b" 12 rnd' d' ->
  rnd = rnd' /\ Bcrypt.b64_text d = Bcrypt.b64_text d'.
Proof.
  intros [Hl _]%BcryptFacts.salt_ok_parts [Hl' _]%BcryptFacts.salt_ok_parts H.
  rewrite !BcryptFacts.hash_text_2b12 in H.
  apply String.app_inj in H. apply append_inj_length in H; [done|congruence].
Qed.

Lemma hash_password_eq lib rnd password key :
  Bcrypt.salt_ok rnd = true ->
  Bcrypt.prepare lib (encode_utf8 password) = Ok key ->
  hash_password lib rnd password
  = Ok (Bcrypt.hash_text "2b" 12 rnd (Bcrypt.eks lib 12 rnd key)).
Proof.
  intros Hok Hp. unfold hash_password, Bcrypt.hashpw.
  rewrite Hp, BcryptFacts.read_salt_gensalt by done.
  by apply BcryptFacts.decode_ascii, BcryptFacts.hash_text_ascii.
Qed.

Lemma verify_password_hash_text lib rnd digest password :
  Bcrypt.salt_ok rnd = true ->
  verify_password lib password (Bcrypt.hash_text "2b" 12 rnd digest)
  = match Bcrypt.prepare lib (encode_utf8 password) with
    | Raise e => Raise e
    | Ok key =>
        Ok (bool_decide (Bcrypt.b64_text (Bcrypt.eks lib 12 rnd key)
                         = Bcrypt.b64_text digest))
    end.
Proof.
  intros Hok. unfold verify_password, Bcrypt.checkpw, Bcrypt.hashpw.
  rewrite (BcryptFacts.encode_ascii (Bcrypt.hash_text "2b" 12 rnd digest))
    by by apply BcryptFacts.hash_text_ascii.
  destruct (Bcrypt.prepare lib (encode_utf8 password)) as [key|e]; [|done].
  rewrite BcryptFacts.hash_text_2b12 at 1.
  rewrite Bcrypt.read_salt_ok by done.
  f_equal. unfold PyStr.eqb. apply bool_decide_ext. split.
  - intros H. by apply hash_text_inj in H as [_ H].
  - intros H. by rewrite !BcryptFacts.hash_text_2b12, H.
Qed.

(** What the three releases take as a password. *)
Lemma substring_all (s : string) (n : nat) :
  (String.length s <= n)%nat -> String.substring 0 n s = s.
Proof.
  revert n. induction s as [|c s IH]; intros n Hn.
  - by destruct n.
  - destruct n as [|n]; simpl in *; [lia|]. rewrite IH; [done|lia].
Qed.

Lemma releases_take_short_passwords (p : string) :
  (String.length p <= 72)%nat ->
  Bcrypt.prepare_v4 p = Ok p
  /\ Bcrypt.prepare_v5 p = Ok p
  /\ (Bcrypt.has_nul p = false -> Bcrypt.prepare_v3 p = Ok p).
Proof.
  intros Hl. unfold Bcrypt.prepare_v4, Bcrypt.prepare_v5, Bcrypt.prepare_v3.
  rewrite substring_all by done. split; [done|]. split.
  - destruct (Nat.ltb_spec 72 (String.length p)); [lia|done].
  - by intros ->.
Qed.

(** A text without [$] is not read as a hash by any of the releases. *)
Lemma no_dollar_v4 h :
  has_char "$" h = false -> Bcrypt.read_salt_v4 h = Raise (ValueError "Invalid salt").
Proof.
  intros Hd. unfold Bcrypt.read_salt_v4, Bcrypt.parse_salt.
  rewrite BcryptFacts.split_no_sep by done. simpl.
  by destruct (PyStr.nonempty _).
Qed.

Lemma no_dollar_v3 h :
  has_char "$" h = false -> exists msg, Bcrypt.read_salt_v3 h = Raise (ValueError msg).
Proof.
  intros Hd. unfold Bcrypt.read_salt_v3.
  destruct (Bcrypt.has_nul h); [eauto|].
  destruct h as [|c h]; [eauto|]. simpl in Hd.
  apply orb_false_iff in Hd as [Hc _].
  destruct c as [[] [] [] [] [] [] [] []]; try discriminate Hc; eauto.
Qed.

Lemma verify_password_eq lib password hashed_password :
  verify_password lib password hashed_password
  = match Bcrypt.prepare lib (encode_utf8 password) with
    | Raise e => Raise e
    | Ok key =>
        match Bcrypt.read_salt lib (encode_utf8 hashed_password) with
        | Raise e => Raise e
        | Ok (v, cost, s22) =>
            Ok (bool_decide
                  (Bcrypt.hash_text v cost s22 (Bcrypt.eks lib cost s22 key)
                   = encode_utf8 hashed_password))
        end
    end.
Proof.
  unfold verify_password, Bcrypt.checkpw, Bcrypt.hashpw.
  destruct (Bcrypt.prepare lib _) as [key|e]; [|done].
  by destruct (Bcrypt.read_salt lib _) as [[[v cost] s22]|e].
Qed.


(** Which texts are read as a hash depends on the release.  A text with a
    salt whose last character has low bits set and without a digest:
    release 3 reads it, computes a hash of 60 characters and answers
    [false]; the later releases refuse it. *)
Example releases_differ_on_a_salt :
  verify_password Sample.lib3 "secret" "$2b$04$abcdefghijklmnopqrstuv" = Ok false
  /\ verify_password Sample.lib4 "secret" "$2b$04$abcdefghijklmnopqrstuv"
     = Raise (ValueError "Invalid salt")
  /\ verify_password Sample.lib5 "secret" "$2b$04$abcdefghijklmnopqrstuv"
     = Raise (ValueError "Invalid salt").
Proof. repeat split; reflexivity. Qed.


(** Whatever the key derivation: where passwords are cut at 72 bytes, two
    passwords with the same first 72 bytes verify against each other's
    hashes. *)
Lemma truncation_collision lib rnd p1 p2 h :
  (forall p, Bcrypt.prepare lib p = Bcrypt.prepare_v4 p) ->
  Bcrypt.salt_ok rnd = true ->
  String.substring 0 72 (encode_utf8 p1) = String.substring 0 72 (encode_utf8 p2) ->
  hash_password lib rnd p1 = Ok h ->
  verify_password lib p2 h = Ok true.
Proof.
  intros Hlib Hok Heq Hh.
  rewrite (hash_password_eq _ rnd p1 (String.substring 0 72 (encode_utf8 p1)))
    in Hh by (by rewrite ?Hlib).
  injection Hh as <-. rewrite verify_password_hash_text by done.
  rewrite Hlib. unfold Bcrypt.prepare_v4. rewrite Heq.
  by rewrite bool_decide_eq_true_2.
Qed.

(** Two passwords of 73 bytes that differ in the last byte only: a release
    that cuts passwords at 72 bytes verifies the one against the hash of
    the other, and a release that refuses 73 bytes has no hash for either
    to verify against. *)
Lemma C7_counterexample :
  Sample.long_c <> Sample.long_b
  /\ (exists h, hash_password Sample.lib4 Sample.rnd Sample.long_b = Ok h
        /\ verify_password Sample.lib4 Sample.long_c h = Ok true)
  /\ (exists h, hash_password Sample.lib3 Sample.rnd Sample.long_b = Ok h
        /\ verify_password Sample.lib3 Sample.long_c h = Ok true)
  /\ hash_password Sample.lib5 Sample.rnd Sample.long_b
     = Raise (ValueError "password cannot be longer than 72 bytes").
Proof.
  split; [discriminate|].
  split; [eexists; split; [vm_compute; reflexivity|vm_compute; reflexivity]|].
  split; [eexists; split; [vm_compute; reflexivity|vm_compute; reflexivity]|].
  reflexivity.
Qed.

(** C7 (amended): for a password the library takes and a salt [gensalt]
    can draw, [hash_password] gives a hash that the password verifies
    against.  Another password verifies against that hash exactly when the
    library takes it and derives the same digest for it under the same
    salt; otherwise the result is [false], or the library's error when it
    refuses that password.  The hash is a function of the password and the
    salt drawn: two calls differ whenever the salts they draw differ.  All
    three releases take a password of at most 72 bytes without NUL bytes
    as it is. *)
Theorem C7_hash_then_verify
    (lib : Bcrypt.library) (rnd password key : string) :
  Bcrypt.salt_ok rnd = true ->
  Bcrypt.prepare lib (encode_utf8 password) = Ok key ->
  exists h,
    hash_password lib rnd password = Ok h
    /\ verify_password lib password h = Ok true
    /\ (forall wrong,
          verify_password lib wrong h = Ok true <->
          exists key', Bcrypt.prepare lib (encode_utf8 wrong) = Ok key'
            /\ Bcrypt.b64_text (Bcrypt.eks lib 12 rnd key')
               = Bcrypt.b64_text (Bcrypt.eks lib 12 rnd key))
    /\ (forall wrong,
          verify_password lib wrong h = Ok true
          \/ verify_password lib wrong h = Ok false
          \/ exists e, Bcrypt.prepare lib (encode_utf8 wrong) = Raise e
               /\ verify_password lib wrong h = Raise e)
    /\ (forall rnd' h', Bcrypt.salt_ok rnd' = true ->
          hash_password lib rnd' password = Ok h' -> rnd' <> rnd -> h' <> h)
    /\ (forall p, (String.length p <= 72)%nat ->
          Bcrypt.prepare_v4 p = Ok p /\ Bcrypt.prepare_v5 p = Ok p
          /\ (Bcrypt.has_nul p = false -> Bcrypt.prepare_v3 p = Ok p)).
Proof.
  intros Hok Hp. eexists. rewrite (hash_password_eq lib rnd password key) by done.
  split; [reflexivity|].
  split; [rewrite verify_password_hash_text, Hp by done;
          by rewrite bool_decide_eq_true_2|].
  split; [|split; [|split]].
  - intros wrong. rewrite verify_password_hash_text by done.
    destruct (Bcrypt.prepare lib (encode_utf8 wrong)) as [key'|e]; split.
    + intros [= H%bool_decide_eq_true]. eauto.
    + intros (k & [= <-] & H). by rewrite bool_decide_eq_true_2.
    + discriminate.
    + intros (k & [=] & _).
  - intros wrong. rewrite verify_password_hash_text by done.
    destruct (Bcrypt.prepare lib (encode_utf8 wrong)) as [key'|e]; [|eauto].
    destruct (bool_decide _); auto.
  - intros rnd' h' Hok' Hh' Hne Heq. subst h'.
    rewrite (hash_password_eq lib rnd' password key) in Hh' by done.
    assert (E : Bcrypt.hash_text "2b" 12 rnd' (Bcrypt.eks lib 12 rnd' key)
                = Bcrypt.hash_text "2b" 12 rnd (Bcrypt.eks lib 12 rnd key))
      by congruence.
    apply hash_text_inj in E as [? _]; done.
  - apply releases_take_short_passwords.
Qed.

Lemma C7_witness :
  Bcrypt.salt_ok Sample.rnd = true
  /\ Bcrypt.prepare Sample.lib4 (encode_utf8 "admin123") = Ok "admin123"
  /\ exists h,
       hash_password Sample.lib4 Sample.rnd "admin123" = Ok h
       /\ verify_password Sample.lib4 "admin123" h = Ok true
       /\ verify_password Sample.lib4 "admin124" h = Ok false
       /\ (forall h', hash_password Sample.lib4 Sample.rnd' "admin123" = Ok h' -> h' <> h).
Proof.
  assert (Hs : Bcrypt.salt_ok Sample.rnd = true) by reflexivity.
  assert (Hp : Bcrypt.prepare Sample.lib4 (encode_utf8 "admin123") = Ok "admin123")
    by reflexivity.
  split; [exact Hs|]. split; [exact Hp|].
  destruct (C7_hash_then_verify Sample.lib4 Sample.rnd "admin123" "admin123" Hs Hp)
    as (h & Hh & Hv & Hw & Hcases & Hsalt & _).
  exists h. split; [exact Hh|]. split; [exact Hv|]. split.
  - destruct (Hcases "admin124") as [H|[H|(e & He & _)]]; [|exact H|discriminate He].
    apply Hw in H as (key' & [= <-] & H). vm_compute in H. discriminate H.
  - intros h' Hh'. apply (Hsalt Sample.rnd' h'); [reflexivity|exact Hh'|discriminate].
Defined.

(** ** Worked examples *)

Example strptime_strict :
  Strptime.strptime_date "2023-05-01" = Ok (mkdate 2023 5 1).
Proof. reflexivity. Qed.

Example strptime_lenient :
  Strptime.strptime_date "2023-5-1" = Ok (mkdate 2023 5 1)
  /\ Strptime.strptime_date "2024-2- 9" = Ok (mkdate 2024 2 9).
Proof. split; reflexivity. Qed.

Example strptime_month_13 :
  Strptime.strptime_date "2023-13-01"
  = Raise (ValueError "time data does not match format").
Proof. reflexivity. Qed.

Example strptime_not_a_leap_year :
  Strptime.strptime_date "2023-02-29" = Raise (ValueError "date value out of range")
  /\ Strptime.strptime_date "2024-02-29" = Ok (mkdate 2024 2 29).
Proof. split; reflexivity. Qed.

Example strptime_trailing_text :
  Strptime.strptime_date "2023-01-012" = Raise (ValueError "unconverted data remains")
  /\ Strptime.strptime_date "2023-01-01 " = Raise (ValueError "unconverted data remains").
Proof. split; reflexivity. Qed.

Example like_examples :
  Sql.ilike "St. Mary" "%mary%" = Ok true
  /\ Sql.ilike "St. Mary" "%xyz%" = Ok false
  /\ Sql.ilike "Jane Doe" "%J_ne%" = Ok true
  /\ Sql.ilike "2023-05-01" "%05-0%" = Ok true.
Proof. repeat split; reflexivity. Qed.

(** A NUL character ends pattern and text: the pattern [%], NUL, [%] is
    the pattern [%], and a text is searched up to its first NUL only. *)
Example like_nul :
  Sql.ilike "Anna" (String "%" (String "000" "%")) = Ok true
  /\ Sql.ilike (String "a" (String "b" (String "000" "cd"))) "%cd%" = Ok false
  /\ Sql.ilike (String "a" (String "b" (String "000" "cd"))) "%ab%" = Ok true.
Proof. repeat split; reflexivity. Qed.

(** A pattern of more than 50000 bytes is refused as soon as there is a
    row to try it on; on an empty table the same query is answered with an
    empty list. *)
Example long_pattern_is_refused :
  run (list_confirmations table_scan Sample.long_query "t") Sample.w
  = (Raise (Error "OperationalError" "LIKE or GLOB pattern too complex"), Sample.w)
  /\ run (list_confirmations table_scan Sample.long_query "t") Sample.w0
     = (Ok (TemplateResponse "confirmations_list.html"
              [("records", TRecords []); ("q", TStr Sample.long_query);
               ("csrf_token", TStr "t")] 200),
        mkworld (<["csrf_token" := VStr "t"]> (w_session Sample.w0)) (w_db Sample.w0)).
Proof.
  rewrite !list_eq by reflexivity.
  assert (H : search_fails Sample.long_query (confirmations (w_db Sample.w)) = true)
    by (vm_compute; reflexivity).
  rewrite H. split; reflexivity.
Qed.

(** The keys of new rows: 1 in an empty table, one more than the largest
    key otherwise, the draw when the largest key is the largest possible
    one, and no key when the draw is in use. *)
Example rowid_examples :
  new_rowid 0 [] = Some 1
  /\ new_rowid 0 [Sample.jane; Sample.paul] = Some 3
  /\ new_rowid 0 [Confirmation.set_full_name "x"
                    (Confirmation.mk (-5) "x" (mkdate 2010 1 1) (mkdate 2023 5 1)
                       "c" "p" None None Sample.now)] = Some (-4)
  /\ new_rowid 77 [Confirmation.mk 9223372036854775807 "x" (mkdate 2010 1 1)
                     (mkdate 2023 5 1) "c" "p" None None Sample.now] = Some 77
  /\ new_rowid 9223372036854775807
       [Confirmation.mk 9223372036854775807 "x" (mkdate 2010 1 1)
          (mkdate 2023 5 1) "c" "p" None None Sample.now] = None.
Proof. repeat split; reflexivity. Qed.

Example csv_quoting :
  Csv.writerow ["1"; "Doe, Jane"; String Csv.dquote "x"]
  = "1," +:+ String Csv.dquote ("Doe, Jane" +:+ String Csv.dquote (","
      +:+ String Csv.dquote (String Csv.dquote (String Csv.dquote ("x"
      +:+ String Csv.dquote (String Csv.CR (String Csv.LF EmptyString))))))).
Proof. reflexivity. Qed.

(** The end-to-end scenario: log in with the bootstrap credentials, create
    the record of Jane Doe, find it with the query [Jane] and in the first
    data row of the export. *)
Example login_ok :
  (run (login Sample.lib4 " admin " "admin123" "t0" "t1") Sample.fresh).1
  = Ok (RedirectResponse "/dashboard" 303)
  /\ w_session Sample.logged_in !! "user_id" = Some (VInt 1)
  /\ w_session Sample.logged_in !! "username" = Some (VStr "admin").
Proof. repeat split; reflexivity. Qed.

Example login_wrong_password :
  run (login Sample.lib4 "admin" "admin124" "t0" "t1") Sample.fresh
  = (Ok (TemplateResponse "login.html"
           [("error", TStr "Invalid username or password"); ("csrf_token", TStr "t1")]
           400),
     mkworld {[ "csrf_token" := VStr "t1" ]} (mkdb [Sample.admin] []))
  /\ (run (login Sample.lib4 "nobody" "admin123" "t0" "t1") Sample.fresh).1
     = (run (login Sample.lib4 "admin" "admin124" "t0" "t1") Sample.fresh).1.
Proof. split; reflexivity. Qed.

Example end_to_end :
  confirmations (w_db Sample.created) = [Sample.jane_doe]
  /\ (run (list_confirmations table_scan "Jane" "t3") Sample.created).1
     = Ok (TemplateResponse "confirmations_list.html"
             [("records", TRecords [Sample.jane_doe]); ("q", TStr "Jane");
              ("csrf_token", TStr "t3")] 200)
  /\ (run (export_csv table_scan) Sample.created).1
     = Ok (StreamingResponse
             (csv_lines
                [csv_header;
                 ["1"; "Jane Doe"; "2010-01-01"; "2023-05-01"; "St. Mary"; "Fr. John";
                  EmptyString; EmptyString; "2024-01-15 09:30:00"]])
             "text/csv"
             [("Content-Disposition",
               "attachment; filename=" +:+ String Csv.dquote
                 ("confirmations_export.csv" +:+ String Csv.dquote EmptyString))]).
Proof. repeat split; reflexivity. Qed.

Example logout_clears_the_session :
  run (logout "t2") Sample.form_shown
  = (Ok (RedirectResponse "/login" 303), mkworld ∅ (w_db Sample.form_shown)).
Proof. reflexivity. Qed.

(** ** The remaining routes *)

Lemma root_eq w :
  run root w
  = (Ok (RedirectResponse (if authenticated (w_session w) then "/dashboard" else "/login") 303),
     w).
Proof.
  unfold run, root, authenticated. step_guards. unfold session_get. simpl.
  destruct (truthy (w_session w !! "user_id")); by destruct w.
Qed.

Lemma dashboard_eq token w :
  run (dashboard token) w =
  if authenticated (w_session w)
  then (Ok (mkdashboard (w_session w !! "username")
              (Z.of_nat (length (confirmations (w_db w)))) token),
        mkworld (<["csrf_token" := VStr token]> (w_session w)) (w_db w))
  else (Raise login_redirect, w).
Proof.
  unfold run, dashboard. step_guards.
  destruct (authenticated (w_session w)); step_guards; [|by destruct w].
  unfold session_get. simpl. by rewrite lookup_insert_ne.
Qed.

Lemma new_form_eq token w :
  run (new_confirmation_form token) w =
  if authenticated (w_session w)
  then (Ok (TemplateResponse "confirmation_form.html"
              [("mode", TStr "create"); ("csrf_token", TStr token)] 200),
        mkworld (<["csrf_token" := VStr token]> (w_session w)) (w_db w))
  else (Raise login_redirect, w).
Proof.
  unfold run, new_confirmation_form. step_guards.
  destruct (authenticated (w_session w)); step_guards; [done|by destruct w].
Qed.

Lemma edit_form_eq record_id token w :
  run (edit_confirmation_form record_id token) w =
  if authenticated (w_session w) then
    match find_record record_id (confirmations (w_db w)) with
    | Some r =>
        (Ok (TemplateResponse "confirmation_form.html"
               [("mode", TStr "edit"); ("record", TRecord r);
                ("csrf_token", TStr token)] 200),
         mkworld (<["csrf_token" := VStr token]> (w_session w)) (w_db w))
    | None =>
        (Raise (if in_int64 record_id then not_found_error else overflow_error), w)
    end
  else (Raise login_redirect, w).
Proof.
  unfold run, edit_confirmation_form. step_guards.
  destruct (authenticated (w_session w)); step_guards; [|by destruct w].
  rewrite db_get_fresh. destruct (find_record _ _); simpl; [done|].
  destruct (in_int64 record_id); by destruct w.
Qed.

Lemma backup_eq file w :
  run (backup_db file) w =
  if authenticated (w_session w) then
    match file with
    | Some data =>
        (Ok (mkdownload data "application/octet-stream"
               [("Content-Disposition",
                 "attachment; filename=" +:+ String Csv.dquote
                   ("church_records_backup.db" +:+ String Csv.dquote EmptyString))]),
         w)
    | None => (Raise (HTTPException 404 (Some "Database file not found") []), w)
    end
  else (Raise login_redirect, w).
Proof.
  unfold run, backup_db. step_guards.
  destruct (authenticated (w_session w)); step_guards; [|by destruct w].
  destruct file; by destruct w.
Qed.

Lemma view_full_eq record_id token w :
  run (view_confirmation record_id token) w =
  if authenticated (w_session w) then
    match find_record record_id (confirmations (w_db w)) with
    | Some r =>
        (Ok (TemplateResponse "confirmation_detail.html"
               [("record", TRecord r); ("csrf_token", TStr token)] 200),
         mkworld (<["csrf_token" := VStr token]> (w_session w)) (w_db w))
    | None =>
        (Raise (if in_int64 record_id then not_found_error else overflow_error), w)
    end
  else (Raise login_redirect, w).
Proof.
  destruct (authenticated (w_session w)) eqn:Ha; [by apply view_eq|].
  unfold run, view_confirmation. step_guards. rewrite Ha. by destruct w.
Qed.

Lemma list_unauthenticated e q token w :
  authenticated (w_session w) = false ->
  run (list_confirmations e q token) w = (Raise login_redirect, w).
Proof.
  intros Ha. unfold run, list_confirmations. step_guards. rewrite Ha. by destruct w.
Qed.

Lemma export_unauthenticated e w :
  authenticated (w_session w) = false ->
  run (export_csv e) w = (Raise login_redirect, w).
Proof.
  intros Ha. unfold run, export_csv. step_guards. rewrite Ha. by destruct w.
Qed.

(** ** Tokens *)

(** X1: [generate_csrf_token] stores the token it is given under
    [csrf_token], touches nothing else and never fails.  After it,
    [validate_csrf] lets a submitted text through exactly when it is that
    token and the token is not empty; every other text -- a token issued
    before, say, and every text when the token is empty -- is answered
    with the 400 error [Invalid CSRF token].  Validating changes nothing,
    whether it passes or fails. *)
Theorem issued_token_is_the_only_valid_one (token submitted : string) (st : req) :
  exists st',
    generate_csrf_token token st = (Ok token, st')
    /\ session st' = <["csrf_token" := VStr token]> (session st)
    /\ store st' = store st /\ uow st' = uow st
    /\ (submitted = token /\ token <> EmptyString ->
        validate_csrf submitted st' = (Ok tt, st'))
    /\ (submitted <> token \/ token = EmptyString ->
        validate_csrf submitted st'
        = (Raise (HTTPException 400 (Some "Invalid CSRF token") []), st')).
Proof.
  eexists. split; [reflexivity|]. simpl. split; [done|]. split; [done|].
  split; [done|]. split.
  - intros [-> Hne]. apply validate_csrf_accepts_iff. simpl.
    by rewrite lookup_insert_eq.
  - intros Hne. rewrite validate_csrf_eq.
    destruct (csrf_ok _ _) eqn:E; [|done].
    apply csrf_ok_spec in E as [E Ht]. simpl in E. rewrite lookup_insert_eq in E.
    injection E as <-. by destruct Hne.
Qed.

(** ** Requests without a logged-in session *)

Lemma step_unauthenticated now r w :
  protected r = true -> authenticated (w_session w) = false ->
  failed now r w = Some login_redirect /\ step now r w = w.
Proof.
  intros Hp Ha. destruct r; try discriminate Hp; simpl; unfold raised.
  - by rewrite dashboard_eq, Ha.
  - by rewrite list_unauthenticated.
  - by rewrite new_form_eq, Ha.
  - by rewrite create_unauthenticated.
  - by rewrite view_full_eq, Ha.
  - by rewrite edit_form_eq, Ha.
  - by rewrite update_unauthenticated.
  - by rewrite delete_unauthenticated.
  - by rewrite backup_eq, Ha.
  - by rewrite export_unauthenticated.
Qed.

(** X2: a request to any of the ten protected routes on a session without a
    user (no [user_id], or a [user_id] that is 0) is answered by the
    redirect to [/login], whatever it submits, and the world -- database
    and session -- is exactly what it was. *)
Theorem unauthenticated_request_is_redirected
    (now : datetime) (r : request) (w : world) :
  protected r = true ->
  w_session w !! "user_id" = None \/ w_session w !! "user_id" = Some (VInt 0) ->
  failed now r w = Some (HTTPException 303 None [("Location", "/login")])
  /\ step now r w = w.
Proof.
  intros Hp Hs. apply step_unauthenticated; [done|].
  unfold authenticated. by destruct Hs as [-> | ->].
Qed.

Lemma unauthenticated_request_is_redirected_witness :
  protected (PostDelete 1 "tok") = true
  /\ (w_session (mkworld {[ "csrf_token" := VStr "tok" ]} Sample.db) !! "user_id" = None
      \/ w_session (mkworld {[ "csrf_token" := VStr "tok" ]} Sample.db) !! "user_id"
         = Some (VInt 0))
  /\ step Sample.now (PostDelete 1 "tok") (mkworld {[ "csrf_token" := VStr "tok" ]} Sample.db)
     = mkworld {[ "csrf_token" := VStr "tok" ]} Sample.db.
Proof.
  split; [reflexivity|]. split; [left; reflexivity|].
  exact (proj2 (unauthenticated_request_is_redirected Sample.now (PostDelete 1 "tok")
                  (mkworld {[ "csrf_token" := VStr "tok" ]} Sample.db)
                  eq_refl (or_introl eq_refl))).
Defined.

(** ** Logging in *)

Lemma flush_nothing now t : flush now orm_empty t = Some t.
Proof. unfold flush. simpl. by rewrite map_default_empty, filter_notin_nil. Qed.

Lemma run_raise {A} (h : M A) w e :
  h (mkreq (w_session w) (w_db w) orm_empty)
  = (Raise e, mkreq (w_session w) (w_db w) orm_empty) ->
  run h w = (Raise e, w).
Proof. intros H. unfold run. rewrite H. destruct e; by destruct w. Qed.

Lemma login_eq lib username password tok token w :
  run (login lib username password tok token) w =
  if csrf_ok (w_session w) tok then
    match find_user username (users (w_db w)) with
    | None =>
        (Ok (login_refused token),
         mkworld (<["csrf_token" := VStr token]> (w_session w)) (w_db w))
    | Some u =>
        match verify_password lib password (User.password_hash u) with
        | Ok true =>
            (Ok (RedirectResponse "/dashboard" 303),
             mkworld (<["username" := VStr (User.username u)]>
                        (<["user_id" := VInt (User.id u)]> (w_session w)))
                     (w_db w))
        | Ok false =>
            (Ok (login_refused token),
             mkworld (<["csrf_token" := VStr token]> (w_session w)) (w_db w))
        | Raise e => (Raise e, w)
        end
    end
  else (Raise csrf_error, w).
Proof.
  destruct (csrf_ok (w_session w) tok) eqn:Hc; [|by apply login_csrf_fail].
  unfold find_user.
  destruct (List.find _ (users (w_db w))) as [u|] eqn:Hu.
  - destruct (verify_password lib password (User.password_hash u)) as [[]|e] eqn:Hv.
    + unfold run, login. step_guards. rewrite Hc. step_guards.
      unfold db_user_by_name, lift. simpl. rewrite Hu. simpl. by rewrite Hv.
    + unfold run, login. step_guards. rewrite Hc. step_guards.
      unfold db_user_by_name, lift. simpl. rewrite Hu. simpl. by rewrite Hv.
    + apply run_raise. unfold login. step_guards. rewrite Hc. step_guards.
      unfold db_user_by_name, lift. simpl. rewrite Hu. simpl. by rewrite Hv.
  - unfold run, login. step_guards. rewrite Hc. step_guards.
    unfold db_user_by_name. simpl. by rewrite Hu.
Qed.

Lemma logout_eq tok w :
  run (logout tok) w =
  if csrf_ok (w_session w) tok
  then (Ok (RedirectResponse "/login" 303), mkworld ∅ (w_db w))
  else (Raise csrf_error, w).
Proof.
  destruct (csrf_ok (w_session w) tok) eqn:Hc; [|by apply logout_csrf_fail].
  unfold run, logout. step_guards. by rewrite Hc.
Qed.

Lemma login_page_eq lib rnd now token w :
  run (login_page lib rnd now token) w =
  match users (w_db w) with
  | _ :: _ =>
      (Ok (TemplateResponse "login.html" [("csrf_token", TStr token)] 200),
       mkworld (<["csrf_token" := VStr token]> (w_session w)) (w_db w))
  | [] =>
      match hash_password lib rnd "admin123" with
      | Ok h =>
          (Ok (TemplateResponse "login.html" [("csrf_token", TStr token)] 200),
           mkworld (<["csrf_token" := VStr token]> (w_session w))
             (mkdb [User.mk 1 "admin" h now] (confirmations (w_db w))))
      | Raise e => (Raise e, w)
      end
  end.
Proof.
  destruct (users (w_db w)) as [|u us] eqn:Hu.
  - destruct (hash_password lib rnd "admin123") as [h|e] eqn:Hh.
    + unfold run, login_page, ensure_admin_exists. step_guards.
      unfold db_count_users, lift. simpl. rewrite Hu. simpl. rewrite Hh. simpl.
      unfold db_add_user_commit, db_commit. simpl. rewrite Hu. simpl.
      by rewrite map_default_empty, filter_notin_nil.
    + apply run_raise. unfold login_page, ensure_admin_exists. step_guards.
      unfold db_count_users, lift. simpl. rewrite Hu. simpl. by rewrite Hh.
  - unfold run, login_page, ensure_admin_exists. step_guards.
    unfold db_count_users. simpl. rewrite Hu. simpl. by destruct (w_db w).
Qed.

(** ** Every route, whatever the session *)

Lemma create_full_eq now k a b c d e f g tok w :
  run (create_confirmation now k a b c d e f g tok) w =
  if authenticated (w_session w) then
    if csrf_ok (w_session w) tok then
      match Strptime.strptime_date b, Strptime.strptime_date c with
      | Ok dob, Ok cd =>
          match new_rowid k (confirmations (w_db w)) with
          | Some key =>
              (Ok (RedirectResponse "/confirmations" 303),
               mkworld (w_session w)
                 (mkdb (users (w_db w))
                       (confirmations (w_db w)
                        ++ [created_record now key a dob cd d e f g])))
          | None => (Raise database_full, w)
          end
      | Ok _, Raise _ => (Raise (date_error "confirmation_date"), w)
      | Raise _, _ => (Raise (date_error "date_of_birth"), w)
      end
    else (Raise csrf_error, w)
  else (Raise login_redirect, w).
Proof.
  destruct (authenticated (w_session w)) eqn:Ha; [|by apply create_unauthenticated].
  destruct (csrf_ok (w_session w) tok) eqn:Hc; [|by apply create_csrf_fail].
  by apply create_eq.
Qed.

Lemma update_full_eq now record_id a b c d e f g tok w :
  run (update_confirmation now record_id a b c d e f g tok) w =
  if authenticated (w_session w) then
    if csrf_ok (w_session w) tok then
      match find_record record_id (confirmations (w_db w)) with
      | None =>
          (Raise (if in_int64 record_id then not_found_error else overflow_error), w)
      | Some r =>
          match Strptime.strptime_date b, Strptime.strptime_date c with
          | Ok dob, Ok cd =>
              (Ok (RedirectResponse ("/confirmations/" +:+ str_int record_id) 303),
               mkworld (w_session w)
                 (mkdb (users (w_db w))
                       (replace_row record_id (updated_record r a dob cd d e f g)
                          (confirmations (w_db w)))))
          | Ok _, Raise _ => (Raise (date_error "confirmation_date"), w)
          | Raise _, _ => (Raise (date_error "date_of_birth"), w)
          end
      end
    else (Raise csrf_error, w)
  else (Raise login_redirect, w).
Proof.
  destruct (authenticated (w_session w)) eqn:Ha; [|by apply update_unauthenticated].
  destruct (csrf_ok (w_session w) tok) eqn:Hc; [|by apply update_csrf_fail].
  by apply update_eq.
Qed.

Lemma delete_full_eq now record_id tok w :
  run (delete_confirmation now record_id tok) w =
  if authenticated (w_session w) then
    if csrf_ok (w_session w) tok then
      match find_record record_id (confirmations (w_db w)) with
      | None =>
          (Raise (if in_int64 record_id then not_found_error else overflow_error), w)
      | Some r =>
          (Ok (RedirectResponse "/confirmations" 303),
           mkworld (w_session w)
             (mkdb (users (w_db w)) (remove_row record_id (confirmations (w_db w)))))
      end
    else (Raise csrf_error, w)
  else (Raise login_redirect, w).
Proof.
  destruct (authenticated (w_session w)) eqn:Ha; [|by apply delete_unauthenticated].
  destruct (csrf_ok (w_session w) tok) eqn:Hc; [|by apply delete_csrf_fail].
  by apply delete_eq.
Qed.

Lemma list_full_eq (e : Sql.engine) q token w :
  run (list_confirmations e q token) w =
  if authenticated (w_session w) then
    if search_fails q (confirmations (w_db w)) then (Raise Sql.pattern_error, w)
    else
      (Ok (TemplateResponse "confirmations_list.html"
             [("records",
               TRecords (merge_sort Sql.confirmation_date_desc
                           (List.filter (list_match q)
                              (Sql.scan e (confirmations (w_db w))))));
              ("q", TStr q); ("csrf_token", TStr token)] 200),
       mkworld (<["csrf_token" := VStr token]> (w_session w)) (w_db w))
  else (Raise login_redirect, w).
Proof.
  destruct (authenticated (w_session w)) eqn:Ha;
    [by apply list_eq|by apply list_unauthenticated].
Qed.

Lemma export_full_eq (e : Sql.engine) w :
  run (export_csv e) w =
  if authenticated (w_session w) then
    (Ok (StreamingResponse
           (csv_lines (csv_header
                       :: map csv_row (merge_sort Sql.id_asc
                                         (Sql.scan e (confirmations (w_db w))))))
           "text/csv"
           [("Content-Disposition",
             "attachment; filename=" +:+ String Csv.dquote
               ("confirmations_export.csv" +:+ String Csv.dquote EmptyString))]),
     w)
  else (Raise login_redirect, w).
Proof.
  destruct (authenticated (w_session w)) eqn:Ha;
    [by apply export_eq|by apply export_unauthenticated].
Qed.

(** Rewrites a request to what its route does. *)
Ltac route_eq :=
  rewrite ?root_eq, ?login_page_eq, ?login_eq, ?logout_eq, ?dashboard_eq,
    ?list_full_eq, ?new_form_eq, ?create_full_eq, ?view_full_eq, ?edit_form_eq,
    ?update_full_eq, ?delete_full_eq, ?backup_eq, ?export_full_eq.

(** X3: a request that is answered by an exception -- the redirect to the
    login page, a CSRF, date or not-found error, an error of the password
    library -- leaves the world exactly as it was: nothing is written to
    the database, an attribute assigned before the failure is dropped with
    the database session, and the web session is not touched. *)
Theorem failed_request_changes_nothing
    (now : datetime) (r : request) (w : world) (e : exn) :
  failed now r w = Some e -> step now r w = w.
Proof.
  destruct r; simpl; unfold raised; route_eq;
    repeat (case_match; simpl; try done).
Qed.

Lemma failed_request_changes_nothing_witness :
  failed Sample.now
    (PostUpdate 1 "New Name" "2010-01-01" "2023-02-30" "St. Mary" "Fr. John"
       EmptyString EmptyString "tok") Sample.w
  = Some (date_error "confirmation_date")
  /\ step Sample.now
       (PostUpdate 1 "New Name" "2010-01-01" "2023-02-30" "St. Mary" "Fr. John"
          EmptyString EmptyString "tok") Sample.w
     = Sample.w.
Proof.
  assert (H : failed Sample.now
                (PostUpdate 1 "New Name" "2010-01-01" "2023-02-30" "St. Mary"
                   "Fr. John" EmptyString EmptyString "tok") Sample.w
              = Some (date_error "confirmation_date")) by reflexivity.
  split; [exact H|].
  exact (failed_request_changes_nothing _ _ _ _ H).
Defined.

(** X4: the routes that only show something -- root, dashboard, list, the
    two forms, view, the two downloads -- never change the database, and
    in the session they change at most the CSRF token. *)
Theorem showing_changes_only_the_token
    (now : datetime) (r : request) (w : world) :
  shows_only r = true ->
  w_db (step now r w) = w_db w
  /\ forall k, k <> "csrf_token" ->
       w_session (step now r w) !! k = w_session w !! k.
Proof.
  intros Hr. destruct r; try discriminate Hr; simpl; route_eq;
    repeat (case_match; simpl; try done);
    split; try done; intros k Hk; by rewrite lookup_insert_ne.
Qed.

Lemma showing_changes_only_the_token_witness :
  shows_only (GetView 1 "t9") = true
  /\ w_db (step Sample.now (GetView 1 "t9") Sample.w) = w_db Sample.w
  /\ w_session (step Sample.now (GetView 1 "t9") Sample.w) !! "user_id"
     = w_session Sample.w !! "user_id".
Proof.
  split; [reflexivity|].
  destruct (showing_changes_only_the_token Sample.now (GetView 1 "t9") Sample.w eq_refl)
    as [Hdb Hs].
  split; [exact Hdb|]. apply Hs. discriminate.
Defined.

(** ** Create, delete and update once more *)

Lemma find_record_app record_id t x :
  find_record record_id (t ++ [x]) =
  match find_record record_id t with
  | Some r => Some r
  | None => if Confirmation.id x =? record_id then Some x else None
  end.
Proof.
  unfold find_record. induction t as [|y t IH]; simpl; [done|].
  destruct (Confirmation.id y =? record_id); [done|exact IH].
Qed.

Lemma next_id_fresh t : next_id t ∉ map Confirmation.id t.
Proof. intros H%next_id_above. lia. Qed.

(** X5: a create request whose two dates parse and whose row is given a
    key stores one new row and changes nothing else.  The key is one that
    no stored row has: 1 in an empty table, one more than the largest key
    while that is below the largest possible one.  The row has the texts
    trimmed, the dates parsed and the time of the request; viewing its key
    afterwards shows exactly this record, every other key still leads to
    the record it led to, and the table has one row more. *)
Theorem create_then_get
    (now : datetime) (rowid key : Z) (w : world) (tok token : string) (dob cd : date)
    (full_name date_of_birth confirmation_date church_name priest_name
     sponsor_name remarks : string) :
  authenticated (w_session w) = true ->
  csrf_ok (w_session w) tok = true ->
  Strptime.strptime_date date_of_birth = Ok dob ->
  Strptime.strptime_date confirmation_date = Ok cd ->
  new_rowid rowid (confirmations (w_db w)) = Some key ->
  exists w',
    run (create_confirmation now rowid full_name date_of_birth confirmation_date
           church_name priest_name sponsor_name remarks tok) w
    = (Ok (RedirectResponse "/confirmations" 303), w')
    /\ (key ∉ map Confirmation.id (confirmations (w_db w)))
    /\ (confirmations (w_db w) = [] -> key = 1)
    /\ (keys_below_max (confirmations (w_db w)) ->
        forall m, largest_key (map Confirmation.id (confirmations (w_db w))) = Some m ->
                  key = m + 1)
    /\ (run (view_confirmation key token) w').1
       = Ok (TemplateResponse "confirmation_detail.html"
               [("record",
                 TRecord (Confirmation.mk key (PyStr.strip full_name) dob cd
                            (PyStr.strip church_name) (PyStr.strip priest_name)
                            (Some (PyStr.strip sponsor_name))
                            (Some (PyStr.strip remarks)) now));
                ("csrf_token", TStr token)] 200)
    /\ (forall other, other <> key ->
          find_record other (confirmations (w_db w'))
          = find_record other (confirmations (w_db w)))
    /\ length (confirmations (w_db w')) = S (length (confirmations (w_db w)))
    /\ users (w_db w') = users (w_db w)
    /\ w_session w' = w_session w.
Proof.
  intros Hauth Hcsrf Hb Hc Hk. eexists.
  rewrite create_eq by done. rewrite Hb, Hc, Hk. split; [reflexivity|]. simpl.
  pose proof (new_rowid_fresh _ _ _ Hk) as Hfresh.
  split; [exact Hfresh|]. split.
  { intros Ht. rewrite Ht in Hk. by injection Hk as <-. }
  split.
  { intros Hbelow m Hm. rewrite new_rowid_below in Hk by done.
    injection Hk as <-. unfold next_id. by rewrite Hm. }
  split.
  { rewrite view_eq by done. simpl. rewrite find_record_app.
    apply find_record_None in Hfresh. rewrite Hfresh. simpl.
    by rewrite Z.eqb_refl. }
  split.
  { intros other Hne. rewrite find_record_app.
    destruct (find_record other _); [done|]. simpl.
    destruct (Z.eqb_spec key other); [|done].
    by destruct Hne. }
  split; [rewrite length_app; simpl; lia|]. done.
Qed.

Lemma create_then_get_witness :
  exists w',
    run (create_confirmation Sample.now 0 " Ann Lee " "2012-02-29" "2024-6-2"
           "St. Luke" "Fr. Adam" " " "none" "tok") Sample.w
    = (Ok (RedirectResponse "/confirmations" 303), w')
    /\ (run (view_confirmation 3 "t2") w').1
       = Ok (TemplateResponse "confirmation_detail.html"
               [("record",
                 TRecord (Confirmation.mk 3 "Ann Lee" (mkdate 2012 2 29)
                            (mkdate 2024 6 2) "St. Luke" "Fr. Adam"
                            (Some EmptyString) (Some "none") Sample.now));
                ("csrf_token", TStr "t2")] 200)
    /\ find_record 1 (confirmations (w_db w')) = Some Sample.jane.
Proof.
  destruct (create_then_get Sample.now 0 3 Sample.w "tok" "t2" (mkdate 2012 2 29)
              (mkdate 2024 6 2) " Ann Lee " "2012-02-29" "2024-6-2" "St. Luke"
              "Fr. Adam" " " "none" eq_refl eq_refl eq_refl eq_refl eq_refl)
    as (w' & Hrun & _ & _ & _ & Hview & Hother & _).
  exists w'. split; [exact Hrun|]. split; [exact Hview|].
  rewrite (Hother 1); [reflexivity|]. discriminate.
Defined.

Lemma find_remove_row_ne record_id other t :
  other <> record_id ->
  find_record other (remove_row record_id t) = find_record other t.
Proof.
  intros Hne. unfold find_record, remove_row.
  induction t as [|x t IH]; simpl; [done|].
  destruct (Z.eqb_spec (Confirmation.id x) record_id) as [E|E]; simpl.
  - destruct (Z.eqb_spec (Confirmation.id x) other); [congruence|exact IH].
  - destruct (Confirmation.id x =? other); [done|exact IH].
Qed.

Lemma remove_row_absent record_id t :
  record_id ∉ map Confirmation.id t -> remove_row record_id t = t.
Proof.
  unfold remove_row. induction t as [|x t IH]; simpl; [done|].
  intros [Hx Ht]%not_elem_of_cons.
  destruct (Z.eqb_spec (Confirmation.id x) record_id); [congruence|].
  simpl. by rewrite IH.
Qed.

Lemma remove_row_unique record_id r t :
  NoDup (map Confirmation.id t) -> find_record record_id t = Some r ->
  t ≡ₚ r :: remove_row record_id t
  /\ length t = S (length (remove_row record_id t)).
Proof.
  unfold find_record. induction t as [|x t IH]; simpl; [discriminate|].
  intros [Hx Hnd]%NoDup_cons.
  destruct (Z.eqb_spec (Confirmation.id x) record_id) as [E|E]; simpl.
  - intros [= ->]. rewrite <- E.
    fold (remove_row (Confirmation.id r) t). by rewrite remove_row_absent.
  - intros Hf. destruct (IH Hnd Hf) as [Hp Hl].
    fold (remove_row record_id t) in *. split.
    + rewrite Hp at 1. apply perm_swap.
    + simpl. by rewrite Hl.
Qed.

(** X6: deleting a stored record removes the rows of its key and nothing
    else: every other key still leads to the record it led to, the user
    table and the session are as before, and -- keys being unique -- the
    table is the old one without that one record, one row shorter. *)
Theorem delete_removes_one_record
    (now : datetime) (w : world) (tok : string) (record_id : Z) (r : Confirmation.t) :
  authenticated (w_session w) = true ->
  csrf_ok (w_session w) tok = true ->
  find_record record_id (confirmations (w_db w)) = Some r ->
  exists w',
    run (delete_confirmation now record_id tok) w
    = (Ok (RedirectResponse "/confirmations" 303), w')
    /\ find_record record_id (confirmations (w_db w')) = None
    /\ (forall other, other <> record_id ->
          find_record other (confirmations (w_db w'))
          = find_record other (confirmations (w_db w)))
    /\ users (w_db w') = users (w_db w)
    /\ w_session w' = w_session w
    /\ (NoDup (map Confirmation.id (confirmations (w_db w))) ->
        confirmations (w_db w) ≡ₚ r :: confirmations (w_db w')
        /\ length (confirmations (w_db w)) = S (length (confirmations (w_db w')))).
Proof.
  intros Hauth Hcsrf Hf. eexists. rewrite delete_eq by done. rewrite Hf.
  split; [reflexivity|]. simpl.
  split; [apply find_remove_row|].
  split; [intros other Hne; by apply find_remove_row_ne|].
  split; [done|]. split; [done|].
  intros Hnd. by apply remove_row_unique.
Qed.

Lemma delete_removes_one_record_witness :
  exists w',
    run (delete_confirmation Sample.now 1 "tok") Sample.w
    = (Ok (RedirectResponse "/confirmations" 303), w')
    /\ confirmations (w_db Sample.w) ≡ₚ Sample.jane :: confirmations (w_db w')
    /\ find_record 2 (confirmations (w_db w')) = Some Sample.paul.
Proof.
  destruct (delete_removes_one_record Sample.now Sample.w "tok" 1 Sample.jane
              eq_refl eq_refl eq_refl)
    as (w' & Hrun & _ & Hother & _ & _ & Hnd).
  exists w'. split; [exact Hrun|]. split.
  - apply Hnd. apply (bool_decide_unpack _). by vm_compute.
  - rewrite (Hother 2); [reflexivity|discriminate].
Defined.

Lemma replace_row_twice record_id r' t :
  Confirmation.id r' = record_id ->
  replace_row record_id r' (replace_row record_id r' t) = replace_row record_id r' t.
Proof.
  intros Hid. unfold replace_row. rewrite map_map. apply map_ext. intros x.
  destruct (Z.eqb_spec (Confirmation.id x) record_id) as [E|E].
  - by rewrite Hid, Z.eqb_refl.
  - by destruct (Z.eqb_spec (Confirmation.id x) record_id).
Qed.

(** X7: an update request is idempotent: sent a second time, with the same
    fields, it gets the same answer and leaves the world the first one
    left -- whether it succeeded or failed. *)
Theorem update_twice_is_update_once
    (now now' : datetime) (w : world) (record_id : Z)
    (full_name date_of_birth confirmation_date church_name priest_name
     sponsor_name remarks tok : string) :
  let update t := update_confirmation t record_id full_name date_of_birth
                    confirmation_date church_name priest_name sponsor_name
                    remarks tok in
  run (update now') (run (update now) w).2 = run (update now) w.
Proof.
  intros update. subst update. simpl.
  rewrite (update_full_eq now).
  destruct (authenticated (w_session w)) eqn:Ha;
    [|simpl; by rewrite update_unauthenticated].
  destruct (csrf_ok (w_session w) tok) eqn:Hc;
    [|simpl; by rewrite update_csrf_fail].
  destruct (find_record record_id (confirmations (w_db w))) as [r|] eqn:Hf;
    [|simpl; rewrite update_eq by done; by rewrite Hf].
  pose proof (find_record_id _ _ _ Hf) as Hid.
  destruct (Strptime.strptime_date date_of_birth) as [dob|] eqn:Hb;
    [|simpl; rewrite update_eq by done; by rewrite Hf, Hb].
  destruct (Strptime.strptime_date confirmation_date) as [cd|] eqn:Hcd;
    [|simpl; rewrite update_eq by done; by rewrite Hf, Hb, Hcd].
  simpl. rewrite update_eq by done. simpl.
  rewrite (find_replace_row_eq _ _ _ r) by done. rewrite Hb, Hcd.
  unfold updated_record at 1. simpl.
  fold (updated_record r full_name dob cd church_name priest_name sponsor_name remarks).
  by rewrite replace_row_twice.
Qed.

(** ** What holds after any sequence of requests *)

Lemma step_keeps_store_ok now r w :
  store_ok (confirmations (w_db w)) -> store_ok (confirmations (w_db (step now r w))).
Proof.
  intros Hok. destruct r; simpl;
    try (by apply create_keeps_store_ok);
    try (by apply update_keeps_store_ok);
    try (by apply delete_keeps_store_ok);
    route_eq; repeat (case_match; simpl; try done).
Qed.

(** X8: whatever requests are made, in whatever order and with whatever
    input, a table whose keys are unique and whose rows hold two calendar
    dates each stays such a table. *)
Theorem requests_keep_the_table_sound
    (trace : list (datetime * request)) (w : world) :
  store_ok (confirmations (w_db w)) ->
  store_ok (confirmations (w_db (steps trace w))).
Proof.
  revert w. induction trace as [|[now r] trace IH]; intros w Hok; [done|].
  simpl. apply IH. by apply step_keeps_store_ok.
Qed.

Lemma requests_keep_the_table_sound_witness :
  store_ok (confirmations (w_db Sample.w))
  /\ store_ok (confirmations
                 (w_db (steps [(Sample.now, PostCreate 0 "Ann" "2012-02-29" "2024-06-02"
                                              "St. Luke" "Fr. Adam" EmptyString
                                              EmptyString "tok");
                               (Sample.now, PostDelete 1 "tok");
                               (Sample.now, PostUpdate 2 "Paul" "2011-03-09" "2023-05-01"
                                              "St. Luke" "Fr. Adam" EmptyString
                                              EmptyString "tok")]
                          Sample.w))).
Proof.
  assert (H : store_ok (confirmations (w_db Sample.w))).
  { split.
    - apply (bool_decide_unpack _). by vm_compute.
    - repeat constructor. }
  split; [exact H|]. by apply requests_keep_the_table_sound.
Defined.

Lemma step_users now r w :
  users (w_db (step now r w)) = users (w_db w)
  \/ (users (w_db w) = []
      /\ exists lib rnd h,
           hash_password lib rnd "admin123" = Ok h
           /\ users (w_db (step now r w)) = [User.mk 1 "admin" h now]).
Proof.
  destruct r; simpl; route_eq;
    repeat (case_match; simpl; try (by left)).
  right. split; [done|]. eauto.
Qed.

(** X9: the user table is written by nothing but the bootstrap of the
    login page: after any sequence of requests it is either the table the
    sequence started from, or -- when that was empty -- exactly one user,
    [admin], with key 1 and a hash of the default password.  No request
    changes or removes a user. *)
Theorem only_the_bootstrap_writes_users
    (trace : list (datetime * request)) (w : world) :
  users (w_db (steps trace w)) = users (w_db w)
  \/ (users (w_db w) = []
      /\ exists lib rnd h now,
           hash_password lib rnd "admin123" = Ok h
           /\ users (w_db (steps trace w)) = [User.mk 1 "admin" h now]).
Proof.
  revert w. induction trace as [|[now r] trace IH]; intros w; [by left|].
  simpl. destruct (IH (step now r w)) as [IH'|[Hempty IH']].
  - rewrite IH'. destruct (step_users now r w) as [Hs|(He & lib & rnd & h & Hh & Hs)];
      [by left|]. right. split; [done|]. eauto 10.
  - destruct (step_users now r w) as [Hs|(He & lib & rnd & h & Hh & Hs)].
    + right. rewrite Hs in Hempty. split; [done|]. exact IH'.
    + rewrite Hs in Hempty. discriminate.
Qed.

(** ** Login, logout and the bootstrap account *)

(** X10: what a login that does not succeed is answered with, once the
    token has passed.  An unknown name and a known name with a password that
    the library takes but that does not verify get the same answer -- the
    login page with one message and status 400 -- and leave the same world:
    a new CSRF token is stored and nothing else changes.  A known name with
    a password that the library refuses (one of more than 72 bytes under
    release 5, one with a NUL byte under release 3) is answered with the
    library's error instead, and nothing changes: [verify_password] is
    called for a known name only, so this answer tells that the name
    exists. *)
Theorem refused_login_outcomes
    (lib : Bcrypt.library) (w : world) (tok token username password : string) :
  csrf_ok (w_session w) tok = true ->
  let refusal :=
    (Ok (TemplateResponse "login.html"
           [("error", TStr "Invalid username or password");
            ("csrf_token", TStr token)] 400),
     mkworld (<["csrf_token" := VStr token]> (w_session w)) (w_db w)) in
  (find_user username (users (w_db w)) = None ->
   run (login lib username password tok token) w = refusal)
  /\ (forall u, find_user username (users (w_db w)) = Some u ->
        verify_password lib password (User.password_hash u) = Ok false ->
        run (login lib username password tok token) w = refusal)
  /\ (forall u e, find_user username (users (w_db w)) = Some u ->
        Bcrypt.prepare lib (encode_utf8 password) = Raise e ->
        run (login lib username password tok token) w = (Raise e, w))
  /\ (forall u e, find_user username (users (w_db w)) = Some u ->
        verify_password lib password (User.password_hash u) = Raise e ->
        run (login lib username password tok token) w = (Raise e, w)).
Proof.
  intros Hc refusal. subst refusal. rewrite !login_eq, Hc.
  split; [by intros ->|]. split; [by intros u -> ->|].
  split; [|by intros u e -> ->].
  intros u e -> Hp. rewrite verify_password_eq, Hp. done.
Qed.

Lemma refused_login_outcomes_witness :
  csrf_ok (w_session Sample.fresh) "t0" = true
  /\ run (login Sample.lib5 "nobody" Sample.long_b "t0" "t1") Sample.fresh
     = run (login Sample.lib5 "admin" "wrong" "t0" "t1") Sample.fresh
  /\ run (login Sample.lib5 "admin" Sample.long_b "t0" "t1") Sample.fresh
     = (Raise (ValueError "password cannot be longer than 72 bytes"), Sample.fresh).
Proof.
  assert (Hc : csrf_ok (w_session Sample.fresh) "t0" = true) by reflexivity.
  split; [exact Hc|].
  destruct (refused_login_outcomes Sample.lib5 Sample.fresh "t0" "t1" "nobody"
              Sample.long_b Hc) as (Hnone & _).
  destruct (refused_login_outcomes Sample.lib5 Sample.fresh "t0" "t1" "admin"
              "wrong" Hc) as (_ & Hwrong & _).
  destruct (refused_login_outcomes Sample.lib5 Sample.fresh "t0" "t1" "admin"
              Sample.long_b Hc) as (_ & _ & Hlong & _).
  split.
  - rewrite (Hnone eq_refl). by rewrite (Hwrong Sample.admin eq_refl eq_refl).
  - exact (Hlong Sample.admin _ eq_refl eq_refl).
Defined.

(** X11: a login with the name of a stored user (spaces around it do not
    count) and a password that verifies against the stored hash is answered
    by the redirect to the dashboard and puts the user's key and name into
    the session.  The database is untouched and the CSRF token is kept, not
    renewed.  The session then passes [login_required] unless the key is 0. *)
Theorem accepted_login_fills_the_session
    (lib : Bcrypt.library) (w : world) (tok token username password : string)
    (u : User.t) :
  csrf_ok (w_session w) tok = true ->
  find_user username (users (w_db w)) = Some u ->
  verify_password lib password (User.password_hash u) = Ok true ->
  exists w',
    run (login lib username password tok token) w
    = (Ok (RedirectResponse "/dashboard" 303), w')
    /\ User.username u = PyStr.strip username
    /\ w_session w' !! "user_id" = Some (VInt (User.id u))
    /\ w_session w' !! "username" = Some (VStr (User.username u))
    /\ w_session w' !! "csrf_token" = Some (VStr tok)
    /\ (forall k, k <> "user_id" -> k <> "username" ->
          w_session w' !! k = w_session w !! k)
    /\ w_db w' = w_db w
    /\ authenticated (w_session w') = negb (User.id u =? 0).
Proof.
  intros Hc Hu Hv. eexists. rewrite login_eq, Hc, Hu, Hv.
  split; [reflexivity|]. simpl.
  split.
  { unfold find_user in Hu. apply find_some in Hu as [_ Hu].
    by apply bool_decide_eq_true in Hu. }
  split; [by rewrite lookup_insert_ne, lookup_insert_eq|].
  split; [by rewrite lookup_insert_eq|].
  split.
  { rewrite !lookup_insert_ne by done. by apply csrf_ok_spec in Hc as [Hc _]. }
  split; [intros k H1 H2; by rewrite !lookup_insert_ne|].
  split; [done|].
  unfold authenticated. by rewrite lookup_insert_ne, lookup_insert_eq.
Qed.

Lemma accepted_login_fills_the_session_witness :
  exists w',
    run (login Sample.lib4 "  admin " "admin123" "t0" "t1") Sample.fresh
    = (Ok (RedirectResponse "/dashboard" 303), w')
    /\ w_session w' !! "user_id" = Some (VInt 1)
    /\ authenticated (w_session w') = true.
Proof.
  destruct (accepted_login_fills_the_session Sample.lib4 Sample.fresh "t0" "t1"
              "  admin " "admin123" Sample.admin eq_refl eq_refl eq_refl)
    as (w' & Hrun & _ & Hid & _ & _ & _ & _ & Ha).
  exists w'. split; [exact Hrun|]. split; [exact Hid|]. exact Ha.
Defined.

(** X12: the hash a stored user has may be a text that the installed
    release of the library does not read as a hash (a row written by other
    means): a login with that user's name and a password the library takes
    then ends in the library's error, an internal error, and changes
    nothing -- where an unknown name gets the refusal page.  Which texts
    are read is the release's matter; a text without [$] is read by none of
    the releases 3.2, 4.1 to 4.3 and 5.0. *)
Theorem login_on_a_broken_hash_fails
    (lib : Bcrypt.library) (w : world) (tok token username password key : string)
    (u : User.t) (e : exn) :
  csrf_ok (w_session w) tok = true ->
  find_user username (users (w_db w)) = Some u ->
  Bcrypt.prepare lib (encode_utf8 password) = Ok key ->
  Bcrypt.read_salt lib (encode_utf8 (User.password_hash u)) = Raise e ->
  run (login lib username password tok token) w = (Raise e, w).
Proof.
  intros Hc Hu Hp Hs. rewrite login_eq, Hc, Hu.
  by rewrite verify_password_eq, Hp, Hs.
Qed.

Lemma login_on_a_broken_hash_fails_witness :
  let w := mkworld {[ "csrf_token" := VStr "t0" ]}
             (mkdb [User.mk 1 "admin" "plain-text" Sample.now] []) in
  csrf_ok (w_session w) "t0" = true
  /\ run (login Sample.lib4 "admin" "plain-text" "t0" "t1") w
     = (Raise (ValueError "Invalid salt"), w)
  /\ run (login Sample.lib3 "admin" "plain-text" "t0" "t1") w
     = (Raise (ValueError "Invalid salt"), w).
Proof.
  intros w. split; [reflexivity|]. split.
  - exact (login_on_a_broken_hash_fails Sample.lib4 w "t0" "t1" "admin" "plain-text"
             "plain-text" (User.mk 1 "admin" "plain-text" Sample.now) _
             eq_refl eq_refl eq_refl eq_refl).
  - exact (login_on_a_broken_hash_fails Sample.lib3 w "t0" "t1" "admin" "plain-text"
             "plain-text" (User.mk 1 "admin" "plain-text" Sample.now) _
             eq_refl eq_refl eq_refl eq_refl).
Defined.

(** X13: on a database without users, showing the login page creates the
    account [admin], and that account can log in: a login with the name
    [admin] (spaces around it allowed), the password [admin123] and the
    token of the page is answered by the redirect to the dashboard and
    leaves a session that passes [login_required].  This holds for every
    release of the library that takes the password and every salt drawn. *)
Theorem bootstrap_account_logs_in
    (lib : Bcrypt.library) (rnd key : string) (now : datetime) (w : world)
    (token token' username : string) :
  users (w_db w) = [] ->
  Bcrypt.salt_ok rnd = true ->
  Bcrypt.prepare lib (encode_utf8 "admin123") = Ok key ->
  token <> EmptyString ->
  PyStr.strip username = "admin" ->
  let w1 := step now (GetLoginPage lib rnd token) w in
  exists h w2,
    users (w_db w1) = [User.mk 1 "admin" h now]
    /\ confirmations (w_db w1) = confirmations (w_db w)
    /\ run (login lib username "admin123" token token') w1
       = (Ok (RedirectResponse "/dashboard" 303), w2)
    /\ authenticated (w_session w2) = true
    /\ w_session w2 !! "username" = Some (VStr "admin")
    /\ w_db w2 = w_db w1.
Proof.
  intros Hu Hok Hp Ht Hname w1. subst w1. simpl.
  rewrite login_page_eq, Hu.
  rewrite (hash_password_eq lib rnd "admin123" key) by done.
  simpl. do 2 eexists. split; [reflexivity|]. split; [reflexivity|].
  rewrite login_eq. simpl.
  assert (Hc : csrf_ok (<["csrf_token" := VStr token]> (w_session w)) token = true).
  { apply csrf_ok_spec. by rewrite lookup_insert_eq. }
  rewrite Hc. unfold find_user. simpl. rewrite Hname. simpl.
  rewrite verify_password_hash_text, Hp by done.
  rewrite bool_decide_eq_true_2 by done.
  split; [reflexivity|]. simpl. unfold authenticated.
  rewrite lookup_insert_ne, lookup_insert_eq by done.
  split; [done|]. split; [by rewrite lookup_insert_eq|done].
Qed.

Lemma bootstrap_account_logs_in_witness :
  let w := mkworld ∅ (mkdb [] []) in
  exists h w2,
    users (w_db (step Sample.now (GetLoginPage Sample.lib5 Sample.rnd "t0") w))
    = [User.mk 1 "admin" h Sample.now]
    /\ run (login Sample.lib5 " admin" "admin123" "t0" "t1")
           (step Sample.now (GetLoginPage Sample.lib5 Sample.rnd "t0") w)
       = (Ok (RedirectResponse "/dashboard" 303), w2)
    /\ authenticated (w_session w2) = true.
Proof.
  intros w.
  destruct (bootstrap_account_logs_in Sample.lib5 Sample.rnd "admin123" Sample.now w
              "t0" "t1" " admin" eq_refl eq_refl eq_refl ltac:(discriminate) eq_refl)
    as (h & w2 & Hu & _ & Hrun & Ha & _).
  exists h, w2. split; [exact Hu|]. split; [exact Hrun|exact Ha].
Defined.

(** X14: once a user exists, showing the login page creates nothing: the
    database is unchanged, whatever the library would do with the default
    password, and only the CSRF token is stored. *)
Theorem login_page_keeps_existing_users
    (lib : Bcrypt.library) (rnd : string) (now : datetime) (w : world)
    (token : string) :
  users (w_db w) <> [] ->
  run (login_page lib rnd now token) w
  = (Ok (TemplateResponse "login.html" [("csrf_token", TStr token)] 200),
     mkworld (<["csrf_token" := VStr token]> (w_session w)) (w_db w)).
Proof.
  intros Hu. rewrite login_page_eq. by destruct (users (w_db w)).
Qed.

Lemma login_page_keeps_existing_users_witness :
  users (w_db Sample.fresh) <> []
  /\ run (login_page Sample.lib5 "bad salt" Sample.now "t9") Sample.fresh
     = (Ok (TemplateResponse "login.html" [("csrf_token", TStr "t9")] 200),
        mkworld (<["csrf_token" := VStr "t9"]> (w_session Sample.fresh))
                (w_db Sample.fresh)).
Proof.
  assert (H : users (w_db Sample.fresh) <> []) by (vm_compute; discriminate).
  split; [exact H|].
  exact (login_page_keeps_existing_users Sample.lib5 "bad salt" Sample.now
           Sample.fresh "t9" H).
Defined.

(** X15: a logout with the session's token empties the session and leaves
    the database alone.  After it every protected route answers with the
    redirect to the login page, and a login is refused with the CSRF error
    whatever token it submits, until the login page has been shown again. *)
Theorem logout_ends_the_session
    (now : datetime) (w : world) (tok : string) :
  csrf_ok (w_session w) tok = true ->
  let w' := step now (PostLogout tok) w in
  run (logout tok) w = (Ok (RedirectResponse "/login" 303), w')
  /\ w_session w' = ∅
  /\ w_db w' = w_db w
  /\ (forall now' r, protected r = true ->
        failed now' r w' = Some login_redirect /\ step now' r w' = w')
  /\ (forall lib username password submitted token,
        run (login lib username password submitted token) w'
        = (Raise csrf_error, w')).
Proof.
  intros Hc w'. subst w'. simpl. rewrite logout_eq, Hc. simpl.
  split; [done|]. split; [done|]. split; [done|]. split.
  - intros now' r Hr. by apply step_unauthenticated.
  - intros. by apply login_csrf_fail.
Qed.

Lemma logout_ends_the_session_witness :
  csrf_ok (w_session Sample.w) "tok" = true
  /\ w_session (step Sample.now (PostLogout "tok") Sample.w) = ∅
  /\ step Sample.now (GetExportCsv table_scan) (step Sample.now (PostLogout "tok") Sample.w)
     = step Sample.now (PostLogout "tok") Sample.w.
Proof.
  assert (Hc : csrf_ok (w_session Sample.w) "tok" = true) by reflexivity.
  split; [exact Hc|].
  destruct (logout_ends_the_session Sample.now Sample.w "tok" Hc)
    as (_ & Hs & _ & Hp & _).
  split; [exact Hs|].
  exact (proj2 (Hp Sample.now (GetExportCsv table_scan) eq_refl)).
Defined.

(** X16: a page with a form stores a new token and thereby cancels the
    forms shown before: after the dashboard, the list or the form for a new
    record has been shown with a token, a create, update or delete
    submitted with another token -- that of a page shown earlier, say -- is
    refused with the 400 error [Invalid CSRF token] and changes nothing,
    while the token just issued, if not empty, passes. *)
Theorem new_page_cancels_older_forms
    (now now' : datetime) (r : request) (w : world) (token stale : string)
    (record_id rowid : Z)
    (full_name date_of_birth confirmation_date church_name priest_name
     sponsor_name remarks : string) :
  issues r = Some token ->
  failed now r w = None ->
  stale <> token ->
  let w' := step now r w in
  w_session w' = <["csrf_token" := VStr token]> (w_session w)
  /\ run (create_confirmation now' rowid full_name date_of_birth confirmation_date
            church_name priest_name sponsor_name remarks stale) w'
     = (Raise (HTTPException 400 (Some "Invalid CSRF token") []), w')
  /\ run (update_confirmation now' record_id full_name date_of_birth
            confirmation_date church_name priest_name sponsor_name remarks stale) w'
     = (Raise (HTTPException 400 (Some "Invalid CSRF token") []), w')
  /\ run (delete_confirmation now' record_id stale) w'
     = (Raise (HTTPException 400 (Some "Invalid CSRF token") []), w')
  /\ (token <> EmptyString -> csrf_ok (w_session w') token = true).
Proof.
  intros Hr Hshown Hne w'.
  assert (Ha : authenticated (w_session w) = true).
  { destruct (authenticated (w_session w)) eqn:Ha; [done|].
    destruct r; try discriminate Hr; simpl in Hshown; unfold raised in Hshown;
      revert Hshown; route_eq; by rewrite Ha. }
  assert (Hs : w_session w' = <["csrf_token" := VStr token]> (w_session w)).
  { subst w'. destruct r; try discriminate Hr; injection Hr as ->; simpl;
      simpl in Hshown; unfold raised in Hshown; revert Hshown;
      route_eq; rewrite Ha; try done.
    by destruct (search_fails _ _). }
  assert (Ha' : authenticated (w_session w') = true).
  { rewrite Hs. unfold authenticated in *. by rewrite lookup_insert_ne. }
  assert (Hc : csrf_ok (w_session w') stale = false).
  { apply csrf_mismatch_not_ok. right. rewrite Hs, lookup_insert_eq. congruence. }
  split; [exact Hs|].
  split; [by apply create_csrf_fail|].
  split; [by apply update_csrf_fail|].
  split; [by apply delete_csrf_fail|].
  intros Ht. apply csrf_ok_spec. by rewrite Hs, lookup_insert_eq.
Qed.

Lemma new_page_cancels_older_forms_witness :
  issues (GetList table_scan "mary" "t2") = Some "t2"
  /\ failed Sample.now (GetList table_scan "mary" "t2") Sample.w = None
  /\ run (delete_confirmation Sample.now 1 "tok")
         (step Sample.now (GetList table_scan "mary" "t2") Sample.w)
     = (Raise (HTTPException 400 (Some "Invalid CSRF token") []),
        step Sample.now (GetList table_scan "mary" "t2") Sample.w).
Proof.
  split; [reflexivity|]. split; [reflexivity|].
  destruct (new_page_cancels_older_forms Sample.now Sample.now
              (GetList table_scan "mary" "t2") Sample.w
              "t2" "tok" 1 0 "a" "b" "c" "d" "e" "f" "g" eq_refl eq_refl
              ltac:(discriminate))
    as (_ & _ & _ & H & _).
  exact H.
Defined.

(** ** Search and export after a change *)

Lemma lower_nonempty s : PyStr.nonempty (Sql.lower s) = PyStr.nonempty s.
Proof. by destruct s. Qed.

Lemma search_fails_case q q' t :
  Sql.lower (PyStr.strip q) = Sql.lower (PyStr.strip q') ->
  search_fails q t = search_fails q' t.
Proof.
  intros H. unfold search_fails.
  rewrite <- (lower_nonempty (PyStr.strip q)), <- (lower_nonempty (PyStr.strip q')), H.
  rewrite <- (LikeFacts.pattern_too_long_lower (search_pattern q)),
    <- (LikeFacts.pattern_too_long_lower (search_pattern q')).
  by rewrite !lower_search_pattern, H.
Qed.

Lemma list_match_case q q' r :
  Sql.lower (PyStr.strip q) = Sql.lower (PyStr.strip q') ->
  list_match q r = list_match q' r.
Proof.
  intros H. unfold list_match.
  rewrite <- (lower_nonempty (PyStr.strip q)), <- (lower_nonempty (PyStr.strip q')), H.
  destruct (PyStr.nonempty _); [|done].
  unfold record_matches. by rewrite !lower_search_pattern, H.
Qed.

Lemma filter_ext_all {A} (p p' : A -> bool) l :
  (forall x, p x = p' x) -> List.filter p l = List.filter p' l.
Proof. intros H. induction l as [|x l IH]; simpl; [done|]. by rewrite H, IH. Qed.

(** X17: the search does not tell capitals from small letters in the query
    either, nor does it see spaces around it: two queries that are equal up
    to ASCII case once trimmed have the same outcome -- the same records in
    the same order, wildcards or not, or the same refusal of a pattern that
    is too long -- and leave the same world.  The outcome is a list of
    records whenever the table is empty or the pattern has at most 50000
    bytes. *)
Theorem search_ignores_case_of_the_query
    (e : Sql.engine) (w : world) (q q' token : string) :
  authenticated (w_session w) = true ->
  Sql.lower (PyStr.strip q) = Sql.lower (PyStr.strip q') ->
  let answer (q0 : string) (outcome : result (list Confirmation.t)) :=
    match outcome with
    | Ok records =>
        Ok (TemplateResponse "confirmations_list.html"
              [("records", TRecords records); ("q", TStr q0);
               ("csrf_token", TStr token)] 200)
    | Raise err => Raise err
    end in
  exists outcome w',
    run (list_confirmations e q token) w = (answer q outcome, w')
    /\ run (list_confirmations e q' token) w = (answer q' outcome, w')
    /\ (confirmations (w_db w) = []
        \/ Sql.pattern_too_long ("%" +:+ PyStr.strip q +:+ "%") = false ->
        exists records, outcome = Ok records).
Proof.
  intros Ha Hq answer. subst answer. rewrite !list_eq by done.
  rewrite <- (search_fails_case q q') by done.
  rewrite (filter_ext_all (list_match q') (list_match q))
    by (intros x; symmetry; by apply list_match_case).
  destruct (search_fails q (confirmations (w_db w))) eqn:Ef.
  - exists (Raise Sql.pattern_error), w. split; [done|]. split; [done|].
    unfold search_fails in Ef. fold (search_pattern q). intros [Ht|Hl].
    + rewrite Ht in Ef. by rewrite andb_false_r in Ef.
    + rewrite Hl in Ef. by rewrite andb_false_r in Ef.
  - eexists (Ok _), _. split; [reflexivity|]. split; [reflexivity|]. eauto.
Qed.

Lemma search_ignores_case_of_the_query_witness :
  authenticated (w_session Sample.w) = true
  /\ Sql.lower (PyStr.strip " MARY") = Sql.lower (PyStr.strip "mary ")
  /\ exists records w',
       run (list_confirmations table_scan " MARY" "t") Sample.w
       = (Ok (TemplateResponse "confirmations_list.html"
                [("records", TRecords records); ("q", TStr " MARY");
                 ("csrf_token", TStr "t")] 200), w')
       /\ run (list_confirmations table_scan "mary " "t") Sample.w
          = (Ok (TemplateResponse "confirmations_list.html"
                   [("records", TRecords records); ("q", TStr "mary ");
                    ("csrf_token", TStr "t")] 200), w').
Proof.
  split; [reflexivity|]. split; [reflexivity|].
  destruct (search_ignores_case_of_the_query table_scan Sample.w " MARY" "mary " "t"
              eq_refl eq_refl) as (outcome & w' & H1 & H2 & Hok).
  destruct (Hok (or_intror eq_refl)) as [records ->].
  by exists records, w'.
Defined.

(** X18: a record that has just been created is found by the search: for
    every query whose trimmed text is not empty, is free of wildcards and
    of NUL, makes a pattern of at most 50000 bytes and occurs, up to ASCII
    case, in the trimmed name, church or priest or in the ISO text of the
    confirmation date -- in the part of that text before its first NUL --
    the list holds the new record. *)
Theorem created_record_is_found
    (e : Sql.engine) (now : datetime) (rowid key : Z) (w : world)
    (tok token q : string) (dob cd : date)
    (full_name date_of_birth confirmation_date church_name priest_name
     sponsor_name remarks : string) :
  authenticated (w_session w) = true ->
  csrf_ok (w_session w) tok = true ->
  Strptime.strptime_date date_of_birth = Ok dob ->
  Strptime.strptime_date confirmation_date = Ok cd ->
  new_rowid rowid (confirmations (w_db w)) = Some key ->
  PyStr.strip q <> EmptyString ->
  no_wildcard (PyStr.strip q) = true ->
  no_nul (PyStr.strip q) = true ->
  Sql.pattern_too_long ("%" +:+ PyStr.strip q +:+ "%") = false ->
  contains_ci (PyStr.strip q) (Sql.until_nul (PyStr.strip full_name))
  || contains_ci (PyStr.strip q) (Sql.until_nul (PyStr.strip church_name))
  || contains_ci (PyStr.strip q) (Sql.until_nul (PyStr.strip priest_name))
  || contains_ci (PyStr.strip q) (Sql.until_nul (isoformat cd)) = true ->
  let w' := step now (PostCreate rowid full_name date_of_birth confirmation_date
                        church_name priest_name sponsor_name remarks tok) w in
  exists records,
    (run (list_confirmations e q token) w').1
    = Ok (TemplateResponse "confirmations_list.html"
            [("records", TRecords records); ("q", TStr q);
             ("csrf_token", TStr token)] 200)
    /\ Confirmation.mk key (PyStr.strip full_name)
         dob cd (PyStr.strip church_name) (PyStr.strip priest_name)
         (Some (PyStr.strip sponsor_name)) (Some (PyStr.strip remarks)) now
       ∈ records.
Proof.
  intros Ha Hc Hb Hcd Hk Hq Hw Hn Hl Hin w'. subst w'. simpl.
  rewrite create_eq by done. rewrite Hb, Hcd, Hk. simpl.
  rewrite list_eq by done. simpl.
  unfold search_fails, list_match. fold (search_pattern q) in Hl. rewrite Hl.
  rewrite andb_false_r. simpl. eexists. split; [reflexivity|].
  rewrite merge_sort_Permutation.
  rewrite (filter_Permutation _ _ _ (Sql.scan_perm e _)).
  apply list_elem_of_In, filter_In. split.
  - apply in_or_app. right. by left.
  - destruct (PyStr.nonempty (PyStr.strip q)) eqn:E; [|by apply nonempty_false in E].
    unfold search_pattern. rewrite record_matches_contains by done.
    unfold record_contains, searched_texts, created_record. cbn [existsb].
    cbn [Confirmation.full_name Confirmation.church_name Confirmation.priest_name
         Confirmation.confirmation_date].
    by rewrite orb_false_r, !orb_assoc.
Qed.

Lemma created_record_is_found_witness :
  exists records,
    (run (list_confirmations reverse_scan " jane" "t2")
       (step Sample.now (PostCreate 0 "Jane Doe" "2010-01-01" "2023-05-01" "St. Mary"
                           "Fr. John" EmptyString EmptyString "tok") Sample.w0)).1
    = Ok (TemplateResponse "confirmations_list.html"
            [("records", TRecords records); ("q", TStr " jane");
             ("csrf_token", TStr "t2")] 200)
    /\ Confirmation.mk 1 "Jane Doe" (mkdate 2010 1 1) (mkdate 2023 5 1) "St. Mary"
         "Fr. John" (Some EmptyString) (Some EmptyString) Sample.now ∈ records.
Proof.
  exact (created_record_is_found reverse_scan Sample.now 0 1 Sample.w0 "tok" "t2"
           " jane" (mkdate 2010 1 1) (mkdate 2023 5 1) "Jane Doe" "2010-01-01"
           "2023-05-01" "St. Mary" "Fr. John" EmptyString EmptyString
           eq_refl eq_refl eq_refl eq_refl eq_refl ltac:(vm_compute; discriminate)
           eq_refl eq_refl eq_refl eq_refl).
Defined.

Lemma sorted_snoc (l : list Confirmation.t) y :
  StronglySorted Sql.id_asc l -> Forall (fun x => Sql.id_asc x y) l ->
  StronglySorted Sql.id_asc (l ++ [y]).
Proof.
  induction 1 as [|x l Hs IH Hx]; intros Hy; simpl.
  - repeat constructor.
  - apply Forall_cons in Hy as [Hxy Hy]. constructor; [by apply IH|].
    apply Forall_app. split; [done|]. by constructor.
Qed.

Lemma csv_lines_app a b : csv_lines (a ++ b) = csv_lines a +:+ csv_lines b.
Proof.
  induction a as [|x a IH]; simpl; [done|].
  by rewrite IH, PyStrFacts.append_assoc.
Qed.

(** X19: a create adds one line at the end of the export and leaves the
    lines before it as they were: the keys in the table being unique and
    below the largest possible key, the CSV text after a successful create
    is the text before followed by the row of the new record, whose key is
    one more than the largest key (1 in an empty table), whatever order the
    engine visits the rows in. *)
Theorem create_appends_a_line_to_the_export
    (e e' : Sql.engine) (now : datetime) (rowid : Z) (w : world) (tok : string)
    (dob cd : date)
    (full_name date_of_birth confirmation_date church_name priest_name
     sponsor_name remarks : string) :
  authenticated (w_session w) = true ->
  csrf_ok (w_session w) tok = true ->
  Strptime.strptime_date date_of_birth = Ok dob ->
  Strptime.strptime_date confirmation_date = Ok cd ->
  NoDup (map Confirmation.id (confirmations (w_db w))) ->
  keys_below_max (confirmations (w_db w)) ->
  let w' := step now (PostCreate rowid full_name date_of_birth confirmation_date
                        church_name priest_name sponsor_name remarks tok) w in
  let key :=
    match largest_key (map Confirmation.id (confirmations (w_db w))) with
    | None => 1
    | Some m => m + 1
    end in
  exists before headers,
    (run (export_csv e) w).1 = Ok (StreamingResponse before "text/csv" headers)
    /\ (run (export_csv e') w').1
       = Ok (StreamingResponse
               (before +:+ Csv.writerow
                  [str_int key;
                   PyStr.strip full_name; isoformat dob; isoformat cd;
                   PyStr.strip church_name; PyStr.strip priest_name;
                   PyStr.strip sponsor_name; PyStr.strip remarks;
                   str_datetime now])
               "text/csv" headers).
Proof.
  intros Ha Hc Hb Hcd Hnd Hbelow w' key. subst w' key. simpl.
  rewrite create_eq by done. rewrite Hb, Hcd, new_rowid_below by done. simpl.
  do 2 eexists. rewrite !export_eq by done. split; [reflexivity|]. simpl.
  fold (next_id (confirmations (w_db w))).
  set (t := confirmations (w_db w)).
  set (new := created_record now (next_id t) full_name dob cd church_name priest_name
                sponsor_name remarks).
  assert (Hold : merge_sort Sql.id_asc (Sql.scan e t) ≡ₚ t)
    by by rewrite merge_sort_Permutation, Sql.scan_perm.
  assert (Hnew : merge_sort Sql.id_asc (Sql.scan e' (t ++ [new])) ≡ₚ t ++ [new])
    by by rewrite merge_sort_Permutation, Sql.scan_perm.
  assert (Heq : merge_sort Sql.id_asc (Sql.scan e' (t ++ [new]))
                = merge_sort Sql.id_asc (Sql.scan e t) ++ [new]).
  { apply key_order_unique.
    - pose proof (Permutation_map Confirmation.id Hnew) as Hm. rewrite Hm.
      rewrite map_app. simpl. apply NoDup_app. split; [done|]. split.
      + intros x Hx [->|H]%elem_of_cons; [|by apply elem_of_nil in H].
        apply next_id_above in Hx. lia.
      + apply NoDup_singleton.
    - by rewrite Hnew, Hold.
    - apply StronglySorted_merge_sort; apply _.
    - apply sorted_snoc; [apply StronglySorted_merge_sort; apply _|].
      apply Forall_forall. intros x Hx. rewrite Hold in Hx.
      unfold Sql.id_asc. simpl.
      assert (Confirmation.id x < next_id t);
        [apply next_id_above; by apply list_elem_of_fmap_2|lia]. }
  rewrite Heq, map_app.
  change (csv_header :: map csv_row (merge_sort Sql.id_asc (Sql.scan e t))
                        ++ map csv_row [new])
    with ((csv_header :: map csv_row (merge_sort Sql.id_asc (Sql.scan e t)))
            ++ [csv_row new]).
  rewrite csv_lines_app. simpl. by rewrite StrptimeFacts.append_nil_r.
Qed.

Lemma create_appends_a_line_to_the_export_witness :
  exists before headers,
    (run (export_csv table_scan) Sample.w).1
    = Ok (StreamingResponse before "text/csv" headers)
    /\ (run (export_csv reverse_scan)
          (step Sample.now (PostCreate 0 "Ann Lee" "2012-02-29" "2024-06-02" "St. Luke"
                              "Fr. Adam" EmptyString "a, b" "tok") Sample.w)).1
       = Ok (StreamingResponse
               (before +:+ Csv.writerow
                  ["3"; "Ann Lee"; "2012-02-29"; "2024-06-02"; "St. Luke"; "Fr. Adam";
                   EmptyString; "a, b"; "2024-01-15 09:30:00"])
               "text/csv" headers).
Proof.
  exact (create_appends_a_line_to_the_export table_scan reverse_scan Sample.now 0
           Sample.w "tok" (mkdate 2012 2 29) (mkdate 2024 6 2) "Ann Lee" "2012-02-29"
           "2024-06-02" "St. Luke" "Fr. Adam" EmptyString "a, b"
           eq_refl eq_refl eq_refl eq_refl
           ltac:(apply (bool_decide_unpack _); by vm_compute)
           ltac:(repeat constructor)).
Defined.

(** ** Trimmed texts and the round trip of the edit form *)

Module TrimFacts.
Import PyStr PyStrFacts.

Lemma lstrip_head s :
  lstrip s = EmptyString
  \/ exists c t, lstrip s = String c t /\ is_space c = false.
Proof.
  induction s as [|c s IH]; simpl; [by left|].
  destruct (is_space c) eqn:E; [exact IH|]. right. eauto.
Qed.

Lemma lstrip_fixed c t : is_space c = false -> lstrip (String c t) = String c t.
Proof. intros H. simpl. by rewrite H. Qed.

Lemma lstrip_idem s : lstrip (lstrip s) = lstrip s.
Proof.
  destruct (lstrip_head s) as [->|(c & t & -> & H)]; [done|]. by apply lstrip_fixed.
Qed.

Lemma rev_snoc (a : string) c :
  String.rev (a +:+ String c EmptyString) = String c (String.rev a).
Proof.
  induction a as [|x a IH]; [reflexivity|].
  by rewrite append_cons, !rev_cons, IH, append_cons.
Qed.

Lemma rev_involutive s : String.rev (String.rev s) = s.
Proof.
  induction s as [|c s IH]; [reflexivity|]. by rewrite rev_cons, rev_snoc, IH.
Qed.

Lemma lstrip_snoc (a : string) c :
  is_space c = false ->
  exists a', lstrip (a +:+ String c EmptyString) = a' +:+ String c EmptyString.
Proof.
  intros Hc. induction a as [|x a IH].
  - exists EmptyString. change (EmptyString +:+ String c EmptyString)
      with (String c EmptyString). by apply lstrip_fixed.
  - rewrite append_cons. simpl. destruct (is_space x); [exact IH|].
    by exists (String x a).
Qed.

Lemma rstrip_head c t :
  is_space c = false -> exists t', rstrip (String c t) = String c t'.
Proof.
  intros Hc. unfold rstrip. rewrite rev_cons.
  destruct (lstrip_snoc (String.rev t) c Hc) as [a' ->].
  rewrite rev_snoc. eauto.
Qed.

Lemma rstrip_idem s : rstrip (rstrip s) = rstrip s.
Proof. unfold rstrip. by rewrite rev_involutive, lstrip_idem. Qed.

(** Trimming a trimmed text changes nothing. *)
Lemma strip_idem s : strip (strip s) = strip s.
Proof.
  unfold strip. destruct (lstrip_head s) as [->|(c & t & -> & Hc)]; [reflexivity|].
  destruct (rstrip_head c t Hc) as [t' Ht]. rewrite Ht at 1.
  rewrite (lstrip_fixed c t' Hc), <- Ht. apply rstrip_idem.
Qed.

End TrimFacts.

Lemma created_record_trimmed now key a dob cd d e f g :
  trimmed (created_record now key a dob cd d e f g).
Proof. repeat split; apply TrimFacts.strip_idem. Qed.

Lemma updated_record_trimmed r a dob cd d e f g :
  trimmed (updated_record r a dob cd d e f g).
Proof. repeat split; apply TrimFacts.strip_idem. Qed.

Lemma replace_row_Forall (P : Confirmation.t -> Prop) record_id r' t :
  P r' -> Forall P t -> Forall P (replace_row record_id r' t).
Proof.
  intros Hr Ht. unfold replace_row. apply Forall_fmap.
  eapply Forall_impl; [exact Ht|]. intros x Hx. simpl. by case_match.
Qed.

Lemma remove_row_Forall (P : Confirmation.t -> Prop) record_id t :
  Forall P t -> Forall P (remove_row record_id t).
Proof.
  intros Ht. unfold remove_row. apply Forall_forall. intros x Hx.
  apply list_elem_of_In, filter_In in Hx as [Hx _].
  apply list_elem_of_In in Hx. by eapply Forall_forall in Ht.
Qed.

Lemma step_keeps_trimmed now r w :
  Forall trimmed (confirmations (w_db w)) ->
  Forall trimmed (confirmations (w_db (step now r w))).
Proof.
  intros Hok. destruct r; simpl; route_eq;
    repeat (case_match; simpl; try done).
  - apply Forall_app. split; [done|].
    apply Forall_singleton, created_record_trimmed.
  - apply replace_row_Forall; [apply updated_record_trimmed|done].
  - by apply remove_row_Forall.
Qed.

(** X20: the table never holds a text with white space around it once it
    holds none: whatever requests are made, with whatever input, if the
    name, church, priest, sponsor and remarks of every row are trimmed
    before, they are trimmed after. *)
Theorem stored_texts_stay_trimmed
    (trace : list (datetime * request)) (w : world) :
  Forall trimmed (confirmations (w_db w)) ->
  Forall trimmed (confirmations (w_db (steps trace w))).
Proof.
  revert w. induction trace as [|[now r] trace IH]; intros w Hok; [done|].
  simpl. apply IH. by apply step_keeps_trimmed.
Qed.

Lemma stored_texts_stay_trimmed_witness :
  Forall trimmed (confirmations (w_db Sample.w))
  /\ Forall trimmed
       (confirmations
          (w_db (steps [(Sample.now, PostCreate 0 "  Ann Lee " "2012-02-29" "2024-06-02"
                                       " St. Luke" "Fr. Adam  " " " EmptyString "tok");
                        (Sample.now, PostUpdate 1 " Jane  " "2010-01-01" "2023-05-01"
                                       "St. Mary " "Fr. John" "  Eve " " x " "tok")]
                   Sample.w))).
Proof.
  assert (H : Forall trimmed (confirmations (w_db Sample.w)))
    by (repeat constructor).
  split; [exact H|]. by apply stored_texts_stay_trimmed.
Defined.

Lemma replace_row_same record_id r t :
  NoDup (map Confirmation.id t) -> find_record record_id t = Some r ->
  replace_row record_id r t = t.
Proof.
  intros Hnd Hf. unfold replace_row.
  rewrite <- (map_id t) at 2. apply map_ext_in. intros x Hx.
  destruct (Confirmation.id x =? record_id) eqn:E; [|done].
  apply Z.eqb_eq in E. symmetry.
  apply (key_determines_row t); [done|by apply list_elem_of_In| |].
  - apply find_some in Hf as [Hr _]. by apply list_elem_of_In.
  - apply find_record_id in Hf. congruence.
Qed.

(** X21: sending back what a record holds changes nothing: for a record of
    a table with unique keys whose texts are trimmed, whose dates are
    calendar dates and whose sponsor and remarks are present, an update
    with its own texts and the ISO texts of its dates is answered by the
    redirect to the record and leaves the world as it was. *)
Theorem update_with_own_values_changes_nothing
    (now : datetime) (w : world) (tok : string) (record_id : Z)
    (r : Confirmation.t) (sponsor remarks : string) :
  authenticated (w_session w) = true ->
  csrf_ok (w_session w) tok = true ->
  NoDup (map Confirmation.id (confirmations (w_db w))) ->
  find_record record_id (confirmations (w_db w)) = Some r ->
  trimmed r -> dates_ok r ->
  Confirmation.sponsor_name r = Some sponsor ->
  Confirmation.remarks r = Some remarks ->
  run (update_confirmation now record_id (Confirmation.full_name r)
         (isoformat (Confirmation.date_of_birth r))
         (isoformat (Confirmation.confirmation_date r))
         (Confirmation.church_name r) (Confirmation.priest_name r)
         sponsor remarks tok) w
  = (Ok (RedirectResponse ("/confirmations/" +:+ str_int record_id) 303), w).
Proof.
  intros Ha Hc Hnd Hf (Hn & Hch & Hp & Hs & Hr) [Hb Hcd] Hsp Hrm.
  rewrite update_full_eq, Ha, Hc, Hf, !strptime_isoformat by done.
  rewrite Hsp in Hs. rewrite Hrm in Hr. simpl in Hs, Hr.
  assert (Hsame : updated_record r (Confirmation.full_name r)
                    (Confirmation.date_of_birth r) (Confirmation.confirmation_date r)
                    (Confirmation.church_name r) (Confirmation.priest_name r)
                    sponsor remarks = r).
  { unfold updated_record. unfold trimmed_text in *.
    rewrite Hn, Hch, Hp, Hs, Hr, <- Hsp, <- Hrm. by destruct r. }
  rewrite Hsame, replace_row_same by done. by destruct w as [s [u c]].
Qed.

Lemma update_with_own_values_changes_nothing_witness :
  run (update_confirmation Sample.now 2 "Paul Roe" "2011-03-09" "2023-05-01"
         "St. Luke" "Fr. Adam" "Ann Roe" EmptyString "tok") Sample.w
  = (Ok (RedirectResponse "/confirmations/2" 303), Sample.w).
Proof.
  exact (update_with_own_values_changes_nothing Sample.now Sample.w "tok" 2
           Sample.paul "Ann Roe" EmptyString eq_refl eq_refl
           ltac:(apply (bool_decide_unpack _); by vm_compute) eq_refl
           ltac:(repeat split) ltac:(repeat split; vm_compute; intuition discriminate)
           eq_refl eq_refl).
Defined.

(** X22: the total on the dashboard is the length of the list without a
    query: for a logged-in session and a query that is empty or blank, the
    number the dashboard shows is the number of records the list page
    shows, whatever order the engine visits the rows in. *)
Theorem dashboard_total_is_the_length_of_the_list
    (e : Sql.engine) (w : world) (q token token' : string) :
  authenticated (w_session w) = true ->
  PyStr.strip q = EmptyString ->
  exists records,
    (run (list_confirmations e q token') w).1
    = Ok (TemplateResponse "confirmations_list.html"
            [("records", TRecords records); ("q", TStr q);
             ("csrf_token", TStr token')] 200)
    /\ (run (dashboard token) w).1
       = Ok (mkdashboard (w_session w !! "username")
               (Z.of_nat (length records)) token).
Proof.
  intros Ha Hq. eexists. rewrite list_eq, dashboard_eq, Ha by done.
  unfold search_fails. rewrite Hq. simpl.
  split; [reflexivity|]. do 3 f_equal.
  rewrite merge_sort_Permutation.
  rewrite (filter_ext_all (list_match q) (fun _ => true)), filter_all
    by (intros x; unfold list_match; by rewrite Hq).
  by rewrite Sql.scan_perm.
Qed.

Lemma dashboard_total_is_the_length_of_the_list_witness :
  exists records,
    (run (list_confirmations reverse_scan "  " "t1") Sample.w).1
    = Ok (TemplateResponse "confirmations_list.html"
            [("records", TRecords records); ("q", TStr "  ");
             ("csrf_token", TStr "t1")] 200)
    /\ (run (dashboard "t2") Sample.w).1
       = Ok (mkdashboard (Some (VStr "admin")) (Z.of_nat (length records)) "t2").
Proof.
  exact (dashboard_total_is_the_length_of_the_list reverse_scan Sample.w "  " "t2" "t1"
           eq_refl eq_refl).
Defined.
